(** * MuseumPass AI: the booking and chat handlers of [main.py]

    A shallow embedding of the request handlers of [src/main.py] and the
    properties of the specification checked against it.

    Conventions of the embedding.
    - A Python [str] is the [string] of its UTF-8 bytes.  The methods of
      [Module Str] ([lower], [upper], [strip], the classes [\w], [\s] and [\d]
      of [re]) are those of Python on ASCII text, the text for which
      [Str.isascii] holds; they leave the bytes of other characters alone,
      where Python follows the Unicode tables.  A property that depends on
      these methods is stated for ASCII text.
    - A Python [int] is a [Z].  A Python [float] is a binary64 number of
      [Module Float]: conversions and sums round to nearest, an [int] beyond
      the range raises [OverflowError], a sum beyond it is an infinity.
    - Converting an [int] of more than 4300 decimal digits to or from text
      raises [ValueError], the default limit of CPython 3.11.
    - A Python exception is a value of [exn]; a function that can raise
      returns an [outcome].
    - The ledger file [bookings.json] is the only mutable state: its bytes,
      a value of [ledger_file], threaded through the handlers by the monad
      [M].  Reading text that is not UTF-8 raises [UnicodeDecodeError];
      [json.dump] writes piece by piece, and what is written stays when it
      raises.
    - The wall clock ([today], [current_hour]), the catalogue loaded from
      [museums.json], the similarity scorer of the fuzzy-matching library and
      the conversational model are inputs of the program: variables of the
      section [Handlers]. *)

From Stdlib Require Import Bool List String Ascii ZArith QArith Qround Qabs Lia.
Import ListNotations.

Local Open Scope string_scope.
Local Open Scope Z_scope.

(* ===================================================================== *)
(** ** Python string methods on ASCII text *)
(* ===================================================================== *)

Module Str.

Definition code (c : ascii) : Z := Z.of_N (N_of_ascii c).

Definition chr (z : Z) : ascii := ascii_of_N (Z.to_N z).

Definition between (lo hi : Z) (c : ascii) : bool :=
  (lo <=? code c) && (code c <=? hi).

(** [str.isspace] on one ASCII character, which is also the class [\s] of
    [re] on [str] patterns: TAB, LF, VT, FF, CR, FS, GS, RS, US, space. *)
Definition isspace (c : ascii) : bool :=
  between 9 13 c || between 28 32 c.

Definition isdigit (c : ascii) : bool := between 48 57 c.
Definition isupper (c : ascii) : bool := between 65 90 c.
Definition islower (c : ascii) : bool := between 97 122 c.

(** The class [\w] of [re]: letters, digits and the underscore. *)
Definition isword (c : ascii) : bool :=
  isdigit c || isupper c || islower c || (code c =? 95).

Definition lower_char (c : ascii) : ascii :=
  if isupper c then chr (code c + 32) else c.

Definition upper_char (c : ascii) : ascii :=
  if islower c then chr (code c - 32) else c.

Fixpoint map (f : ascii -> ascii) (s : string) : string :=
  match s with
  | EmptyString => EmptyString
  | String c r => String (f c) (map f r)
  end.

Fixpoint filter (p : ascii -> bool) (s : string) : string :=
  match s with
  | EmptyString => EmptyString
  | String c r => if p c then String c (filter p r) else filter p r
  end.

(** [s.lower()] and [s.upper()]. *)
Definition lower (s : string) : string := map lower_char s.
Definition upper (s : string) : string := map upper_char s.

(** [s.capitalize()]: first character upper case, the rest lower case. *)
Definition capitalize (s : string) : string :=
  match s with
  | EmptyString => EmptyString
  | String c r => String (upper_char c) (lower r)
  end.

(** [s.isascii()]: every character is below 128. *)
Fixpoint isascii (s : string) : bool :=
  match s with
  | EmptyString => true
  | String c r => (code c <? 128) && isascii r
  end.

(** Truth value of a [str]: non-empty. *)
Definition truthy (s : string) : bool :=
  match s with EmptyString => false | String _ _ => true end.

Fixpoint lstrip (s : string) : string :=
  match s with
  | EmptyString => EmptyString
  | String c r => if isspace c then lstrip r else s
  end.

Fixpoint rstrip (s : string) : string :=
  match s with
  | EmptyString => EmptyString
  | String c r =>
      match rstrip r with
      | EmptyString => if isspace c then EmptyString else String c EmptyString
      | r' => String c r'
      end
  end.

(** [s.strip()]. *)
Definition strip (s : string) : string := rstrip (lstrip s).

(** [sub in s]: [sub] occurs in [s] as a substring. *)
Fixpoint contains (sub s : string) : bool :=
  String.prefix sub s ||
  match s with
  | EmptyString => false
  | String _ r => contains sub r
  end.

(** [s.replace(old, new)] for a non-empty [old]: occurrences are replaced
    from the left and do not overlap.  [skip] counts the characters of an
    occurrence that are still to be dropped. *)
Fixpoint replace_from (old new : string) (skip : nat) (s : string) : string :=
  match s with
  | EmptyString => EmptyString
  | String c r =>
      match skip with
      | S k => replace_from old new k r
      | O =>
          if String.prefix old s
          then new ++ replace_from old new (Nat.pred (String.length old)) r
          else String c (replace_from old new O r)
      end
  end.

Definition replace (old new s : string) : string := replace_from old new O s.

(** [re.sub(r"\s+", " ", s)]: every maximal run of white space becomes one
    space.  [in_run] tells that the previous character was white space. *)
Fixpoint collapse_spaces (in_run : bool) (s : string) : string :=
  match s with
  | EmptyString => EmptyString
  | String c r =>
      if isspace c
      then if in_run then collapse_spaces true r
           else String " "%char (collapse_spaces true r)
      else String c (collapse_spaces false r)
  end.

(** [s.split(sep)] for a one-character separator. *)
Fixpoint split (sep : ascii) (s : string) : list string :=
  match s with
  | EmptyString => [EmptyString]
  | String c r =>
      if Ascii.eqb c sep then EmptyString :: split sep r
      else match split sep r with
           | [] => [String c EmptyString]
           | w :: ws => String c w :: ws
           end
  end.

(** [sep.join(parts)]. *)
Fixpoint join (sep : string) (parts : list string) : string :=
  match parts with
  | [] => EmptyString
  | [p] => p
  | p :: ps => p ++ sep ++ join sep ps
  end.

Definition digit_value (c : ascii) : Z := code c - 48.

Fixpoint digits_value (acc : Z) (s : string) : Z :=
  match s with
  | EmptyString => acc
  | String c r => digits_value (10 * acc + digit_value c) r
  end.

Fixpoint all_digits (s : string) : bool :=
  match s with
  | EmptyString => true
  | String c r => isdigit c && all_digits r
  end.

(** The longest decimal text CPython converts to or from an [int]
    ([sys.int_info.default_max_str_digits]). *)
Definition MAX_STR_DIGITS : Z := 4300.

(** [int(s)] on a non-empty run of decimal digits, the only form the
    program converts; anything else, and a run of more than 4300 digits, is
    a [ValueError] ([None]). *)
Definition int (s : string) : option Z :=
  if truthy s && all_digits s && (Z.of_nat (String.length s) <=? MAX_STR_DIGITS)
  then Some (digits_value 0 s) else None.

Fixpoint span (p : ascii -> bool) (s : string) : string * string :=
  match s with
  | EmptyString => (EmptyString, EmptyString)
  | String c r =>
      if p c then let (a, b) := span p r in (String c a, b)
      else (EmptyString, s)
  end.

Definition digit_char (d : Z) : ascii := chr (48 + d).

(** Decimal digits of a natural number, most significant first. *)
Fixpoint digits_of (fuel : nat) (n : Z) (acc : string) : string :=
  match fuel with
  | O => acc
  | S k =>
      let acc' := String (digit_char (n mod 10)) acc in
      if n / 10 =? 0 then acc' else digits_of k (n / 10) acc'
  end.

(** The decimal text of an integer. *)
Definition of_Z (n : Z) : string :=
  let m := Z.abs n in
  let body := digits_of (S (Z.to_nat (Z.log2 m))) m EmptyString in
  if n <? 0 then String "-"%char body else body.

(** An [int] that [str] and [repr] convert: at most 4300 digits. *)
Definition int_printable (n : Z) : bool := Z.abs n <? 10 ^ MAX_STR_DIGITS.

(** [str(n)] for an [int]; [None] stands for the [ValueError] of an [int]
    of more than 4300 digits. *)
Definition str_of_int (n : Z) : option string :=
  if int_printable n then Some (of_Z n) else None.

End Str.

(* ===================================================================== *)
(** ** UTF-8 *)
(* ===================================================================== *)

Module Utf8.

Definition continuation (c : ascii) : bool := Str.between 128 191 c.

Definition payload (c : ascii) : Z := Str.code c mod 64.

(** The code point at the start of [s] and the bytes after it, as the
    strict decoder reads them: no overlong form, no surrogate, nothing
    above U+10FFFF. *)
Definition decode_one (s : string) : option (Z * string) :=
  match s with
  | EmptyString => None
  | String b0 r0 =>
      let n0 := Str.code b0 in
      if n0 <? 128 then Some (n0, r0)
      else
        match r0 with
        | EmptyString => None
        | String b1 r1 =>
            let n1 := Str.code b1 in
            if Str.between 194 223 b0 then
              if continuation b1 then Some ((n0 - 192) * 64 + payload b1, r1)
              else None
            else
              match r1 with
              | EmptyString => None
              | String b2 r2 =>
                  if Str.between 224 239 b0 then
                    if continuation b1 && continuation b2
                       && negb ((n0 =? 224) && (n1 <? 160))
                       && negb ((n0 =? 237) && (160 <=? n1))
                    then Some (((n0 - 224) * 64 + payload b1) * 64 + payload b2, r2)
                    else None
                  else
                    match r2 with
                    | EmptyString => None
                    | String b3 r3 =>
                        if Str.between 240 244 b0
                           && continuation b1 && continuation b2 && continuation b3
                           && negb ((n0 =? 240) && (n1 <? 144))
                           && negb ((n0 =? 244) && (144 <=? n1))
                        then Some ((((n0 - 240) * 64 + payload b1) * 64 + payload b2) * 64
                                   + payload b3, r3)
                        else None
                    end
              end
        end
  end.

(** The code points of [s]; [None] when [s] is not UTF-8.  A code point
    takes at least one byte, so [fuel] is enough when it is the length of
    [s]. *)
Fixpoint decode_from (fuel : nat) (s : string) : option (list Z) :=
  match s with
  | EmptyString => Some []
  | String _ _ =>
      match fuel with
      | O => None
      | S k =>
          match decode_one s with
          | None => None
          | Some (cp, rest) =>
              match decode_from k rest with
              | Some cps => Some (cp :: cps)
              | None => None
              end
          end
      end
  end.

(** [bytes.decode("utf-8")]: [None] stands for [UnicodeDecodeError]. *)
Definition decode (s : string) : option (list Z) := decode_from (String.length s) s.

Definition valid (s : string) : bool :=
  match decode s with Some _ => true | None => false end.

(** [chr(cp).encode("utf-8")]; [None] for a surrogate, which has no UTF-8
    form, and for a number that is no code point. *)
Definition encode_one (cp : Z) : option string :=
  let byte (n : Z) := Str.chr n in
  if cp <? 0 then None
  else if cp <? 128 then Some (String (byte cp) EmptyString)
  else if cp <? 2048 then
    Some (String (byte (192 + cp / 64)) (String (byte (128 + cp mod 64)) EmptyString))
  else if (55296 <=? cp) && (cp <=? 57343) then None
  else if cp <? 65536 then
    Some (String (byte (224 + cp / 4096))
            (String (byte (128 + (cp / 64) mod 64))
               (String (byte (128 + cp mod 64)) EmptyString)))
  else if cp <? 1114112 then
    Some (String (byte (240 + cp / 262144))
            (String (byte (128 + (cp / 4096) mod 64))
               (String (byte (128 + (cp / 64) mod 64))
                  (String (byte (128 + cp mod 64)) EmptyString))))
  else None.

End Utf8.

(* ===================================================================== *)
(** ** Calendar dates: [datetime.date] and [strptime] *)
(* ===================================================================== *)

(** A [datetime.date] is represented by its proleptic Gregorian ordinal
    ([date.toordinal()]: day 1 is 0001-01-01), so that comparing dates is
    comparing integers and adding a [timedelta] of days is an addition. *)
Module Datetime.

Definition MINYEAR : Z := 1.
Definition MAXYEAR : Z := 9999.

Definition is_leap (year : Z) : bool :=
  (year mod 4 =? 0) && (negb (year mod 100 =? 0) || (year mod 400 =? 0)).

Definition days_in_month (year month : Z) : Z :=
  if month =? 2 then (if is_leap year then 29 else 28)
  else if (month =? 4) || (month =? 6) || (month =? 9) || (month =? 11)
       then 30 else 31.

Definition days_before_year (year : Z) : Z :=
  let y := year - 1 in y * 365 + y / 4 - y / 100 + y / 400.

Definition DAYS_BEFORE_MONTH : list Z :=
  [-1; 0; 31; 59; 90; 120; 151; 181; 212; 243; 273; 304; 334].

Definition days_before_month (year month : Z) : Z :=
  nth (Z.to_nat month) DAYS_BEFORE_MONTH 0
  + (if (2 <? month) && is_leap year then 1 else 0).

Definition ymd2ord (year month day : Z) : Z :=
  days_before_year year + days_before_month year month + day.

(** Ordinal of [date.max], 9999-12-31. *)
Definition MAXORDINAL : Z := 3652059.

(** [date(year, month, day)]: a [ValueError] ([None]) unless the fields are
    in range. *)
Definition date (year month day : Z) : option Z :=
  if (MINYEAR <=? year) && (year <=? MAXYEAR)
     && (1 <=? month) && (month <=? 12)
     && (1 <=? day) && (day <=? days_in_month year month)
  then Some (ymd2ord year month day) else None.

(** [d + timedelta(days=n)]: an [OverflowError] ([None]) when the result
    leaves the range of [date]. *)
Definition add_days (d n : Z) : option Z :=
  if (1 <=? d + n) && (d + n <=? MAXORDINAL) then Some (d + n) else None.

(** One alternative of a directive's regular expression: two characters, or
    one, of the given classes.  The result is the matched text and the rest. *)
Definition two (p1 p2 : ascii -> bool) (s : string) : option (string * string) :=
  match s with
  | String a (String b r) =>
      if p1 a && p2 b then Some (String a (String b EmptyString), r) else None
  | _ => None
  end.

Definition one (p : ascii -> bool) (s : string) : option (string * string) :=
  match s with
  | String a r => if p a then Some (String a EmptyString, r) else None
  | _ => None
  end.

Definition is_char (c : ascii) (a : ascii) : bool := Ascii.eqb a c.

Fixpoint first_match (alts : list (string -> option (string * string)))
  (s : string) : option (string * string) :=
  match alts with
  | [] => None
  | alt :: rest =>
      match alt s with
      | Some r => Some r
      | None => first_match rest s
      end
  end.

(** [int] of a matched field: its digits (the day may start with a space). *)
Definition field_value (matched : string) : Z :=
  Str.digits_value 0 (Str.filter Str.isdigit matched).

(** [%Y] is [\d\d\d\d]. *)
Definition directive_Y (s : string) : option (Z * string) :=
  match s with
  | String a (String b (String c (String d r))) =>
      if Str.isdigit a && Str.isdigit b && Str.isdigit c && Str.isdigit d
      then Some (field_value (String a (String b (String c (String d EmptyString)))), r)
      else None
  | _ => None
  end.

(** [%m] is [1[0-2]|0[1-9]|[1-9]].  The directive is followed by a literal
    ["-"], which no later alternative can reach once an earlier one has
    matched, so the first alternative that matches is the one kept. *)
Definition directive_m (s : string) : option (Z * string) :=
  match first_match
          [two (is_char "1") (Str.between 48 50);
           two (is_char "0") (Str.between 49 57);
           one (Str.between 49 57)] s with
  | Some (matched, r) => Some (field_value matched, r)
  | None => None
  end.

(** [%d] is [3[0-1]|[1-2]\d|0[1-9]|[1-9]| [1-9]]; it ends the format, so the
    first alternative that matches is the one kept. *)
Definition directive_d (s : string) : option (Z * string) :=
  match first_match
          [two (is_char "3") (Str.between 48 49);
           two (Str.between 49 50) Str.isdigit;
           two (is_char "0") (Str.between 49 57);
           one (Str.between 49 57);
           two (is_char " ") (Str.between 49 57)] s with
  | Some (matched, r) => Some (field_value matched, r)
  | None => None
  end.

Definition literal (c : ascii) (s : string) : option string :=
  match s with
  | String a r => if Ascii.eqb a c then Some r else None
  | EmptyString => None
  end.

(** [datetime.datetime.strptime(s, "%Y-%m-%d").date()]: [None] stands for the
    [ValueError] raised when [s] does not match the format, when text is left
    after the match, or when the fields are no calendar date. *)
Definition strptime (s : string) : option Z :=
  match directive_Y s with
  | None => None
  | Some (year, s1) =>
  match literal "-" s1 with
  | None => None
  | Some s2 =>
  match directive_m s2 with
  | None => None
  | Some (month, s3) =>
  match literal "-" s3 with
  | None => None
  | Some s4 =>
  match directive_d s4 with
  | None => None
  | Some (day, rest) =>
      if Str.truthy rest then None else date year month day
  end end end end end.

End Datetime.

(* ===================================================================== *)
(** ** Floating point: Python's [float] *)
(* ===================================================================== *)

Module Float.

Local Open Scope Q_scope.

(** A Python [float]: a binary64 number.  A finite value is the rational it
    denotes, in lowest terms; the sign of zero is not kept, no operation of
    the program tells the two zeros apart. *)
Inductive t : Type :=
| Finite (q : Q)
| Infinity (negative : bool)
| NaN.

Definition pow2 (e : Z) : Q :=
  if (0 <=? e)%Z then inject_Z (2 ^ e) else 1 # Z.to_pos (2 ^ (- e)).

Definition pow10 (e : Z) : Q :=
  if (0 <=? e)%Z then inject_Z (10 ^ e) else 1 # Z.to_pos (10 ^ (- e)).

(** For [a > 0], the [e] with [2^e <= a < 2^(e+1)]. *)
Definition floor_log2 (a : Q) : Z :=
  let e := (Z.log2 (Qnum a) - Z.log2 (Z.pos (Qden a)))%Z in
  if Qle_bool (pow2 e) a then e else (e - 1)%Z.

(** The nearest integer, the even one of two that are equally near. *)
Definition round_half_even (q : Q) : Z :=
  let f := Qfloor q in
  match Qcompare (q - inject_Z f) (1 # 2) with
  | Lt => f
  | Gt => (f + 1)%Z
  | Eq => if Z.even f then f else (f + 1)%Z
  end.

(** The exponent of the last place of the binary64 numbers around [a > 0]:
    53 significant bits, and no exponent below -1074. *)
Definition ulp_exponent (a : Q) : Z := Z.max (-1074) (floor_log2 a - 52)%Z.

(** The binary64 number nearest to [q], ties to even; beyond the largest
    finite number the result is an infinity. *)
Definition round64 (q : Q) : t :=
  if Qeq_bool q 0 then Finite 0
  else
    let a := Qabs q in
    let e := ulp_exponent a in
    let v := inject_Z (round_half_even (a / pow2 e)) * pow2 e in
    if Qle_bool (pow2 1024) v then Infinity (Qnum q <? 0)%Z
    else Finite (Qred (if (Qnum q <? 0)%Z then - v else v)).

(** For [a > 0], the [k] with [10^k <= a < 10^(k+1)]. *)
Definition floor_log10 (a : Q) : Z :=
  let k := (floor_log2 a * 30103 / 100000)%Z in
  if Qle_bool (pow10 (k + 2)) a then (k + 2)%Z
  else if Qle_bool (pow10 (k + 1)) a then (k + 1)%Z
  else if Qle_bool (pow10 k) a then k
  else (k - 1)%Z.

Definition reads_as (x c : Q) : bool :=
  match round64 c with
  | Finite y => Qeq_bool y x
  | _ => false
  end.

(** The shortest decimal that is read as [x], and of the shortest ones the
    nearest to [x]: decimals of [n] significant digits are tried for
    [n = 1, 2, ...]; [k] is the number of digits of the integer part of
    [x], so the last digit of a decimal of [n] digits weighs [10^(k-n)]. *)
Fixpoint shortest (fuel : nat) (n : Z) (x : Q) (k : Z) : Q :=
  match fuel with
  | O => x
  | S f =>
      let u := pow10 (k - n) in
      let lo := inject_Z (Qfloor (x / u)) * u in
      let hi := lo + u in
      match reads_as x lo, reads_as x hi with
      | true, true => if Qle_bool (x - lo) (hi - x) then Qred lo else Qred hi
      | true, false => Qred lo
      | false, true => Qred hi
      | false, false => shortest f (n + 1)%Z x k
      end
  end.

Definition shortest_decimal (x : Q) : Q := shortest 17 1%Z x (floor_log10 x + 1)%Z.

Fixpoint fraction_digits (fuel : nat) (rem den : Z) : string :=
  match fuel with
  | O => EmptyString
  | S k =>
      let x := (10 * rem)%Z in
      String (Str.digit_char (x / den)%Z)
             (if (x mod den =? 0)%Z then EmptyString
              else fraction_digits k (x mod den) den)
  end.

(** A decimal written with a point and at least one digit after it. *)
Definition positional (c : Q) : string :=
  let n := Qnum c in
  let d := Z.pos (Qden c) in
  (Str.of_Z (n / d)%Z ++ "." ++ fraction_digits 24 (n mod d)%Z d)%string.

(** A decimal written as a mantissa of one digit before the point and a
    power of ten of at least two digits. *)
Definition scientific (c : Q) : string :=
  let k := floor_log10 c in
  let m := c / pow10 k in
  let text := positional (Qred m) in
  let mantissa :=
    match Qden (Qred m) with
    | 1%positive => Str.of_Z (Qnum (Qred m))
    | _ => text
    end in
  let e := Z.abs k in
  (mantissa ++ "e" ++ (if (k <? 0)%Z then "-" else "+")
   ++ (if (e <? 10)%Z then "0" else EmptyString) ++ Str.of_Z e)%string.

(** [repr(x)] of a finite [x]: the shortest decimal that is read as [x],
    in positional notation when its first digit weighs between [10^-4] and
    [10^15], with a power of ten otherwise. *)
Definition repr_finite (x : Q) : string :=
  if Qeq_bool x 0 then "0.0"
  else
    let c := shortest_decimal (Qabs x) in
    let k := floor_log10 c in
    ((if (Qnum x <? 0)%Z then "-" else EmptyString)
     ++ (if (-4 <=? k)%Z && (k <? 16)%Z then positional c else scientific c))%string.

(** [repr(x)]. *)
Definition repr (x : t) : string :=
  match x with
  | Finite q => repr_finite q
  | Infinity false => "inf"
  | Infinity true => "-inf"
  | NaN => "nan"
  end.

(** [float(n)] for an [int], which is also how an [int] enters a sum or a
    product with a [float]; [None] stands for [OverflowError]. *)
Definition of_int (n : Z) : option t :=
  match round64 (inject_Z n) with
  | Infinity _ => None
  | x => Some x
  end.

(** [x + y] on floats. *)
Definition add (x y : t) : t :=
  match x, y with
  | NaN, _ | _, NaN => NaN
  | Infinity a, Infinity b => if Bool.eqb a b then Infinity a else NaN
  | Infinity a, Finite _ => Infinity a
  | Finite _, Infinity b => Infinity b
  | Finite p, Finite q => round64 (p + q)
  end.

(** [x * y] on floats. *)
Definition mul (x y : t) : t :=
  match x, y with
  | NaN, _ | _, NaN => NaN
  | Infinity a, Infinity b => Infinity (xorb a b)
  | Infinity a, Finite q =>
      if Qeq_bool q 0 then NaN else Infinity (xorb a (Qnum q <? 0)%Z)
  | Finite p, Infinity b =>
      if Qeq_bool p 0 then NaN else Infinity (xorb (Qnum p <? 0)%Z b)
  | Finite p, Finite q => round64 (p * q)
  end.

End Float.

(* ===================================================================== *)
(** ** JSON documents: [json.dumps] and [json.loads] *)
(* ===================================================================== *)

(** The values of Python's [json] module.  [JFloat] holds a finite [float],
    the rational the binary64 number denotes. *)
Module Json.

#[warning="-register-all"]
Inductive value : Type :=
| JNull
| JBool (b : bool)
| JInt (n : Z)
| JFloat (q : Q)
| JNaN
| JInfinity (negative : bool)
| JString (s : string)
| JArray (items : list value)
| JObject (members : list (string * value)).

(** *** Encoding *)

Definition hex_digit (d : Z) : ascii :=
  if d <? 10 then Str.chr (48 + d) else Str.chr (87 + d).

Definition dquote : string := String (Str.chr 34) EmptyString.

(** One ASCII character of a string literal, as [ensure_ascii] writes it. *)
Definition escape_char (c : ascii) : string :=
  let n := Str.code c in
  if n =? 34 then "\" ++ dquote
  else if n =? 92 then "\\"
  else if n =? 8 then "\b"
  else if n =? 12 then "\f"
  else if n =? 10 then "\n"
  else if n =? 13 then "\r"
  else if n =? 9 then "\t"
  else if (32 <=? n) && (n <=? 126) then String c EmptyString
  else "\u00" ++ String (hex_digit (n / 16)) (String (hex_digit (n mod 16)) EmptyString).

Definition hex4 (n : Z) : string :=
  String (hex_digit (n / 4096))
    (String (hex_digit ((n / 256) mod 16))
       (String (hex_digit ((n / 16) mod 16))
          (String (hex_digit (n mod 16)) EmptyString))).

(** One code point of a string literal: the escape [\uXXXX] of a character
    above 127, a pair of surrogates for one above U+FFFF. *)
Definition escape_code_point (cp : Z) : string :=
  if cp <? 128 then escape_char (Str.chr cp)
  else if cp <? 65536 then "\u" ++ hex4 cp
  else
    let v := cp - 65536 in
    "\u" ++ hex4 (55296 + v / 1024) ++ "\u" ++ hex4 (56320 + v mod 1024).

(** The body of the literal of [s], code point by code point.  A byte that
    starts no code point is no part of a Python [str]; it is written as the
    character of its number. *)
Fixpoint escape_from (fuel : nat) (s : string) : string :=
  match s with
  | EmptyString => EmptyString
  | String c r =>
      match fuel with
      | O => EmptyString
      | S k =>
          match Utf8.decode_one s with
          | Some (cp, rest) => escape_code_point cp ++ escape_from k rest
          | None => escape_code_point (Str.code c) ++ escape_from k r
          end
      end
  end.

Definition escape (s : string) : string := escape_from (String.length s) s.

Definition quote (s : string) : string := dquote ++ escape s ++ dquote.

Definition newline_indent (level : nat) : string :=
  String (Str.chr 10) (String.concat EmptyString (repeat "    " level)).

(** The text [json.dumps(v, indent=4)] returns, at nesting depth [level].
    It is the text of a value whose integers can all be printed; [stream]
    tells what is written of any other. *)
Fixpoint encode (level : nat) (v : value) : string :=
  match v with
  | JNull => "null"
  | JBool true => "true"
  | JBool false => "false"
  | JInt n => Str.of_Z n
  | JFloat q => Float.repr_finite q
  | JNaN => "NaN"
  | JInfinity false => "Infinity"
  | JInfinity true => "-Infinity"
  | JString s => quote s
  | JArray [] => "[]"
  | JArray items =>
      "[" ++ newline_indent (S level)
      ++ Str.join ("," ++ newline_indent (S level))
                  (List.map (encode (S level)) items)
      ++ newline_indent level ++ "]"
  | JObject [] => "{}"
  | JObject members =>
      "{" ++ newline_indent (S level)
      ++ Str.join ("," ++ newline_indent (S level))
                  (List.map (fun kv => quote (fst kv) ++ ": " ++ encode (S level) (snd kv))
                            members)
      ++ newline_indent level ++ "}"
  end.

Definition is_container (v : value) : bool :=
  match v with
  | JArray _ | JObject _ => true
  | _ => false
  end.

(** The pieces [json.JSONEncoder(indent=4).iterencode(v)] yields, put
    together, and whether the iteration came to its end: it stops at the
    first integer of more than 4300 digits, whose conversion raises
    [ValueError].  In an array the separator is yielded together with a
    scalar element and before the pieces of an array or an object; in an
    object the separator, the key and the colon are yielded before the
    value. *)
Fixpoint stream (level : nat) (v : value) : string * bool :=
  match v with
  | JInt n => if Str.int_printable n then (Str.of_Z n, true) else (EmptyString, false)
  | JArray items =>
      match items with
      | [] => ("[]", true)
      | _ :: _ =>
          (fix elements (buf : string) (l : list value) : string * bool :=
             match l with
             | [] => (newline_indent level ++ "]", true)
             | x :: r =>
                 let (text, ok) := stream (S level) x in
                 if ok then
                   let (more, ok') := elements ("," ++ newline_indent (S level)) r in
                   (buf ++ text ++ more, ok')
                 else ((if is_container x then buf ++ text else EmptyString), false)
             end) ("[" ++ newline_indent (S level)) items
      end
  | JObject members =>
      match members with
      | [] => ("{}", true)
      | _ :: _ =>
          (fix items (buf : string) (l : list (string * value)) : string * bool :=
             match l with
             | [] => (newline_indent level ++ "}", true)
             | kv :: r =>
                 let (text, ok) := stream (S level) (snd kv) in
                 if ok then
                   let (more, ok') := items ("," ++ newline_indent (S level)) r in
                   (buf ++ quote (fst kv) ++ ": " ++ text ++ more, ok')
                 else (buf ++ quote (fst kv) ++ ": " ++ text, false)
             end) ("{" ++ newline_indent (S level)) members
      end
  | _ => (encode level v, true)
  end.

(** [json.dumps(v, indent=4)]; [None] stands for [ValueError]. *)
Definition dumps (v : value) : option string :=
  match stream 0 v with
  | (text, true) => Some text
  | (_, false) => None
  end.

(** The [value] of a [float]. *)
Definition of_float (x : Float.t) : value :=
  match x with
  | Float.Finite q => JFloat q
  | Float.Infinity negative => JInfinity negative
  | Float.NaN => JNaN
  end.

(** *** Decoding *)

Definition is_ws (c : ascii) : bool :=
  let n := Str.code c in (n =? 32) || (n =? 9) || (n =? 10) || (n =? 13).

Fixpoint skip_ws (s : string) : string :=
  match s with
  | EmptyString => EmptyString
  | String c r => if is_ws c then skip_ws r else s
  end.

Definition hex_value (c : ascii) : option Z :=
  let n := Str.code c in
  if (48 <=? n) && (n <=? 57) then Some (n - 48)
  else if (97 <=? n) && (n <=? 102) then Some (n - 87)
  else if (65 <=? n) && (n <=? 70) then Some (n - 55)
  else None.

Definition unescape (c : ascii) : option ascii :=
  let n := Str.code c in
  if n =? 34 then Some c
  else if n =? 92 then Some c
  else if n =? 47 then Some c
  else if n =? 98 then Some (Str.chr 8)
  else if n =? 102 then Some (Str.chr 12)
  else if n =? 110 then Some (Str.chr 10)
  else if n =? 114 then Some (Str.chr 13)
  else if n =? 116 then Some (Str.chr 9)
  else None.

Definition code_point (a b c d : ascii) : option Z :=
  match hex_value a, hex_value b, hex_value c, hex_value d with
  | Some x, Some y, Some z, Some w => Some (((x * 16 + y) * 16 + z) * 16 + w)
  | _, _, _, _ => None
  end.

(** The body of a string literal, after its opening quote: the decoded text
    and what follows the closing quote.  Control characters are refused
    (strict mode).  An escape [\uXXXX] stands for the UTF-8 bytes of its code
    point, two escapes that are a pair of surrogates for those of the one
    code point they denote; a surrogate outside such a pair is no character
    of UTF-8 text and is refused. *)
Fixpoint scan_string (s : string) : option (string * string) :=
  match s with
  | EmptyString => None
  | String c r =>
      if Str.code c =? 34 then Some (EmptyString, r)
      else if Str.code c =? 92 then
        match r with
        | EmptyString => None
        | String e r1 =>
            if Str.code e =? 117 then
              match r1 with
              | String h1 (String h2 (String h3 (String h4 r5))) =>
                  match code_point h1 h2 h3 h4 with
                  | Some n =>
                      if (55296 <=? n) && (n <=? 56319) then
                        match r5 with
                        | String b (String u (String l1 (String l2 (String l3
                            (String l4 r11))))) =>
                            if (Str.code b =? 92) && (Str.code u =? 117) then
                              match code_point l1 l2 l3 l4 with
                              | Some m =>
                                  if (56320 <=? m) && (m <=? 57343) then
                                    match Utf8.encode_one
                                            (65536 + (n - 55296) * 1024 + (m - 56320)),
                                          scan_string r11 with
                                    | Some bytes, Some (body, rest) =>
                                        Some (bytes ++ body, rest)
                                    | _, _ => None
                                    end
                                  else None
                              | None => None
                              end
                            else None
                        | _ => None
                        end
                      else
                        match Utf8.encode_one n, scan_string r5 with
                        | Some bytes, Some (body, rest) => Some (bytes ++ body, rest)
                        | _, _ => None
                        end
                  | None => None
                  end
              | _ => None
              end
            else
              match unescape e with
              | Some ch =>
                  match scan_string r1 with
                  | Some (body, rest) => Some (String ch body, rest)
                  | None => None
                  end
              | None => None
              end
        end
      else if Str.code c <? 32 then None
      else
        match scan_string r with
        | Some (body, rest) => Some (String c body, rest)
        | None => None
        end
  end.

(** The integer part of a number: [0|[1-9]\d*]. *)
Definition scan_integer (s : string) : option (string * string) :=
  match s with
  | String c r =>
      if Str.code c =? 48 then Some ("0", r)
      else if Str.between 49 57 c then Some (Str.span Str.isdigit s)
      else None
  | EmptyString => None
  end.

(** The optional fraction [(\.\d+)?]: its digits, if it is there. *)
Definition scan_fraction (s : string) : option string * string :=
  match s with
  | String c r =>
      if Str.code c =? 46 then
        let (ds, rest) := Str.span Str.isdigit r in
        if Str.truthy ds then (Some ds, rest) else (None, s)
      else (None, s)
  | EmptyString => (None, s)
  end.

(** The optional exponent [([eE][-+]?\d+)?]: its value, if it is there. *)
Definition scan_exponent (s : string) : option Z * string :=
  match s with
  | String c r =>
      if (Str.code c =? 101) || (Str.code c =? 69) then
        let (negative, r1) :=
          match r with
          | String sg r' =>
              if Str.code sg =? 45 then (true, r')
              else if Str.code sg =? 43 then (false, r')
              else (false, r)
          | EmptyString => (false, r)
          end in
        let (ds, rest) := Str.span Str.isdigit r1 in
        if Str.truthy ds
        then (Some (if negative then - Str.digits_value 0 ds else Str.digits_value 0 ds), rest)
        else (None, s)
      else (None, s)
  | EmptyString => (None, s)
  end.

(** [mantissa * 10 ^ scale] as a rational in lowest terms. *)
Definition decimal (mantissa scale : Z) : Q :=
  if 0 <=? scale then Qred (inject_Z (mantissa * 10 ^ scale))
  else Qred (Qmake mantissa (Z.to_pos (10 ^ (- scale)))).

(** A number literal: an [int] unless it has a fraction or an exponent,
    then the [float] nearest to the decimal.  An [int] of more than 4300
    digits is refused: its conversion raises [ValueError]. *)
Definition scan_number (s : string) : option (value * string) :=
  let (negative, s1) :=
    match s with
    | String c r => if Str.code c =? 45 then (true, r) else (false, s)
    | EmptyString => (false, s)
    end in
  match scan_integer s1 with
  | None => None
  | Some (ds, s2) =>
      let (frac, s3) := scan_fraction s2 in
      let (exp, s4) := scan_exponent s3 in
      let sign (z : Z) := if negative then - z else z in
      match frac, exp with
      | None, None =>
          if Z.of_nat (String.length ds) <=? Str.MAX_STR_DIGITS
          then Some (JInt (sign (Str.digits_value 0 ds)), s4)
          else None
      | _, _ =>
          let fs := match frac with Some f => f | None => EmptyString end in
          let e := match exp with Some e => e | None => 0 end in
          Some (of_float
                  (Float.round64 (decimal (sign (Str.digits_value 0 (ds ++ fs)))
                                          (e - Z.of_nat (String.length fs)))), s4)
      end
  end.

Definition keyword (word : string) (v : value) (s : string) : option (value * string) :=
  if String.prefix word s
  then Some (v, String.substring (String.length word) (String.length s - String.length word) s)
  else None.

(** A value that is neither a string, an array nor an object. *)
Definition scan_atom (s : string) : option (value * string) :=
  match keyword "null" JNull s with Some r => Some r | None =>
  match keyword "true" (JBool true) s with Some r => Some r | None =>
  match keyword "false" (JBool false) s with Some r => Some r | None =>
  match scan_number s with Some r => Some r | None =>
  match keyword "NaN" JNaN s with Some r => Some r | None =>
  match keyword "Infinity" (JInfinity false) s with Some r => Some r | None =>
  keyword "-Infinity" (JInfinity true) s
  end end end end end end.

(** The scanner of [json.decoder]: [scan_once] reads one value at the start
    of the text; [scan_items] the elements of an array after its opening
    bracket and [scan_members] the members of an object after its opening
    brace, both starting at a first element.  [fuel] bounds the nesting of
    calls; [loads] gives enough for the whole text. *)
Fixpoint scan_once (fuel : nat) (s : string) : option (value * string) :=
  match fuel with
  | O => None
  | S k =>
      match s with
      | EmptyString => None
      | String c r =>
          if Str.code c =? 34 then
            match scan_string r with
            | Some (body, rest) => Some (JString body, rest)
            | None => None
            end
          else if Str.code c =? 123 then
            match skip_ws r with
            | String c1 r1 =>
                if Str.code c1 =? 125 then Some (JObject [], r1)
                else match scan_members k (skip_ws r) with
                     | Some (ms, rest) => Some (JObject ms, rest)
                     | None => None
                     end
            | EmptyString => None
            end
          else if Str.code c =? 91 then
            match skip_ws r with
            | String c1 r1 =>
                if Str.code c1 =? 93 then Some (JArray [], r1)
                else match scan_items k (skip_ws r) with
                     | Some (vs, rest) => Some (JArray vs, rest)
                     | None => None
                     end
            | EmptyString => None
            end
          else scan_atom s
      end
  end
with scan_items (fuel : nat) (s : string) : option (list value * string) :=
  match fuel with
  | O => None
  | S k =>
      match scan_once k s with
      | None => None
      | Some (v, r) =>
          match skip_ws r with
          | String c r1 =>
              if Str.code c =? 93 then Some ([v], r1)
              else if Str.code c =? 44 then
                match scan_items k (skip_ws r1) with
                | Some (vs, rest) => Some (v :: vs, rest)
                | None => None
                end
              else None
          | EmptyString => None
          end
      end
  end
with scan_members (fuel : nat) (s : string) : option (list (string * value) * string) :=
  match fuel with
  | O => None
  | S k =>
      match s with
      | String q r0 =>
          if Str.code q =? 34 then
            match scan_string r0 with
            | None => None
            | Some (key, r) =>
                match skip_ws r with
                | String colon r1 =>
                    if Str.code colon =? 58 then
                      match scan_once k (skip_ws r1) with
                      | None => None
                      | Some (v, r2) =>
                          match skip_ws r2 with
                          | String c r3 =>
                              if Str.code c =? 125 then Some ([(key, v)], r3)
                              else if Str.code c =? 44 then
                                match scan_members k (skip_ws r3) with
                                | Some (ms, rest) => Some ((key, v) :: ms, rest)
                                | None => None
                                end
                              else None
                          | EmptyString => None
                          end
                      end
                    else None
                | EmptyString => None
                end
            end
          else None
      | EmptyString => None
      end
  end.

(** [json.loads(s)]: [None] stands for the exception it raises,
    [JSONDecodeError] or, for an integer of more than 4300 digits,
    [ValueError]; an empty text, the one text the program decodes, raises
    [JSONDecodeError]. *)
Definition loads (s : string) : option value :=
  match scan_once (2 * String.length s + 2) (skip_ws s) with
  | Some (v, rest) => if Str.truthy (skip_ws rest) then None else Some v
  | None => None
  end.

(** [obj[key]] on a decoded object: of a repeated key the last member
    counts. *)
Fixpoint get (key : string) (members : list (string * value)) : option value :=
  match members with
  | [] => None
  | (k, v) :: rest =>
      match get key rest with
      | Some v' => Some v'
      | None => if String.eqb k key then Some v else None
      end
  end.

End Json.

(* ===================================================================== *)
(** ** Exceptions and the ledger file *)
(* ===================================================================== *)

(** The exceptions that leave a handler.  [HTTPException] is the one the
    handlers raise themselves; the others come from the interpreter. *)
Inductive exn : Type :=
| HTTPException (status_code : Z) (detail : string)
| AttributeError (attribute : string)
| KeyError (key : string)
| TypeError (what : string)
| ValueError (what : string)
| UnicodeDecodeError
| OverflowError
| RequestValidationError.

Inductive outcome (A : Type) : Type :=
| Return (a : A)
| Raise (e : exn).

Arguments Return {A} a.
Arguments Raise {A} e.

(** The bytes of [bookings.json]; [None] when the file does not exist. *)
Definition ledger_file : Type := option string.

(** A computation that reads and writes the ledger file and may raise.  The
    file is returned in both cases: an exception does not undo a write. *)
Definition M (A : Type) : Type := ledger_file -> outcome A * ledger_file.

Definition ret {A} (a : A) : M A := fun fs => (Return a, fs).

Definition raise {A} (e : exn) : M A := fun fs => (Raise e, fs).

Definition bind {A B} (c : M A) (k : A -> M B) : M B :=
  fun fs =>
    match c fs with
    | (Return a, fs') => k a fs'
    | (Raise e, fs') => (Raise e, fs')
    end.

Definition lift {A} (o : outcome A) : M A := fun fs => (o, fs).

Notation "x <- c ;; k" := (bind c (fun x => k))
  (at level 61, c at next level, right associativity).
Notation "c ;;; k" := (bind c (fun _ => k))
  (at level 61, right associativity).

(** A file opened for reading as UTF-8 text: the bytes that have not been
    read yet. *)
Definition handle : Type := string.

(** [open(path, "r", encoding="utf-8")]: [None] stands for
    [FileNotFoundError]. *)
Definition open_read (fs : ledger_file) : option handle := fs.

(** The line ends of a text read with universal newlines: [\r\n] and [\r]
    become [\n]. *)
Fixpoint universal_newlines (s : string) : string :=
  match s with
  | EmptyString => EmptyString
  | String c r =>
      if Str.code c =? 13 then
        String (Str.chr 10)
          match r with
          | String c' r' =>
              if Str.code c' =? 10 then universal_newlines r' else universal_newlines r
          | EmptyString => EmptyString
          end
      else String c (universal_newlines r)
  end.

(** [f.read()]: all the text that is left, decoded, and the handle at the
    end of the file; [None] stands for the [UnicodeDecodeError] of bytes
    that are not UTF-8. *)
Definition read (f : handle) : option string * handle :=
  if Utf8.valid f then (Some (universal_newlines f), EmptyString)
  else (None, f).

(** What an expression that reads and decodes the file comes to. *)
Inductive loaded : Type :=
| Loaded (bookings : Json.value)
| JSONDecodeError
| UnicodeError.

(** [json.load(f)] is [json.loads(f.read())]. *)
Definition json_load (f : handle) : loaded * handle :=
  match read f with
  | (Some text, f') =>
      (match Json.loads text with
       | Some v => Loaded v
       | None => JSONDecodeError
       end, f')
  | (None, f') => (UnicodeError, f')
  end.

(** The message of the [ValueError] of an integer too long to print. *)
Definition DIGITS_LIMIT : string :=
  "Exceeds the limit (4300 digits) for integer string conversion".

(** [with open(path, "w", encoding="utf-8") as f: json.dump(v, f, indent=4)]:
    the file is emptied, then the pieces of the text are written one by
    one.  When an integer cannot be printed the pieces before it are in the
    file and [ValueError] is raised. *)
Definition json_dump (v : Json.value) : M unit :=
  fun _ =>
    match Json.stream 0 v with
    | (text, true) => (Return tt, Some text)
    | (text, false) => (Raise (ValueError DIGITS_LIMIT), Some text)
    end.

(* ===================================================================== *)
(** ** Data model *)
(* ===================================================================== *)

(** A record of [museums.json].  [contact] is the one key the program tests
    for before reading it. *)
Record museum : Type := {
  title : string;
  location : string;
  state : string;
  price : Z;
  rating : Q;
  contact : option string;
  address : string
}.

(** The object handed to [book_ticket].  A field that is [None] is an
    attribute the object does not have: reading it raises [AttributeError]. *)
Record request : Type := {
  message : option string;
  name : option string;
  museum_name : option string;
  adults : option Z;
  kids : option Z;
  ticket_type : option string;
  booking_date : option string;
  time_slot : option string
}.

Definition getattr {A} (field : option A) (attribute : string) : M A :=
  match field with
  | Some v => ret v
  | None => raise (AttributeError attribute)
  end.

(** The dictionary [booking_details], one field per key. *)
Record booking : Type := {
  Name : string;
  Museum : string;
  Adults : Z;
  Kids : Z;
  Ticket_Type : string;
  Date : string;
  Time_Slot : string;
  Total_Price : Float.t
}.

(** [booking_details] as the JSON value [json.dump] writes. *)
Definition booking_to_json (b : booking) : Json.value :=
  Json.JObject
    [("Name", Json.JString (Name b));
     ("Museum", Json.JString (Museum b));
     ("Visitors", Json.JObject [("Adults", Json.JInt (Adults b));
                                ("Kids", Json.JInt (Kids b))]);
     ("Ticket Type", Json.JString (Ticket_Type b));
     ("Date", Json.JString (Date b));
     ("Time Slot", Json.JString (Time_Slot b));
     ("Total Price", Json.of_float (Total_Price b))].

Definition as_string (v : option Json.value) : option string :=
  match v with Some (Json.JString s) => Some s | _ => None end.

Definition as_int (v : option Json.value) : option Z :=
  match v with Some (Json.JInt n) => Some n | _ => None end.

(** A number as a [float]: the totals the program writes are floats, and an
    [int] a record holds in their place compares equal to its [float]. *)
Definition as_number (v : option Json.value) : option Float.t :=
  match v with
  | Some (Json.JInt n) => Float.of_int n
  | Some (Json.JFloat q) => Some (Float.Finite q)
  | Some (Json.JInfinity negative) => Some (Float.Infinity negative)
  | Some Json.JNaN => Some Float.NaN
  | _ => None
  end.

Definition as_object (v : option Json.value) : option (list (string * Json.value)) :=
  match v with Some (Json.JObject ms) => Some ms | _ => None end.

(** A decoded JSON value read back as a booking record. *)
Definition booking_of_json (v : Json.value) : option booking :=
  match v with
  | Json.JObject ms =>
      match as_string (Json.get "Name" ms), as_string (Json.get "Museum" ms),
            as_object (Json.get "Visitors" ms),
            as_string (Json.get "Ticket Type" ms), as_string (Json.get "Date" ms),
            as_string (Json.get "Time Slot" ms), as_number (Json.get "Total Price" ms) with
      | Some n, Some m, Some vs, Some t, Some d, Some s, Some p =>
          match as_int (Json.get "Adults" vs), as_int (Json.get "Kids" vs) with
          | Some a, Some k =>
              Some {| Name := n; Museum := m; Adults := a; Kids := k;
                      Ticket_Type := t; Date := d; Time_Slot := s; Total_Price := p |}
          | _, _ => None
          end
      | _, _, _, _, _, _, _ => None
      end
  | _ => None
  end.

Fixpoint all_some {A} (l : list (option A)) : option (list A) :=
  match l with
  | [] => Some []
  | Some a :: r => match all_some r with Some r' => Some (a :: r') | None => None end
  | None :: _ => None
  end.

(** The ledger a reader of the file finds: the booking records of the JSON
    array it holds.  This is the reading of the data model, used to state
    what is stored; the program's own reading is [conditional_load]. *)
Definition stored_ledger (fs : ledger_file) : option (list booking) :=
  match fs with
  | None => None
  | Some text =>
      match Json.loads text with
      | Some (Json.JArray items) => all_some (List.map booking_of_json items)
      | _ => None
      end
  end.

(** The text of a ledger that holds the given records, as [json.dump]
    writes it when it comes to its end. *)
Definition ledger_text (bs : list booking) : string :=
  Json.encode 0 (Json.JArray (List.map booking_to_json bs)).

(* ===================================================================== *)
(** ** Constants of the program *)
(* ===================================================================== *)

Definition TIME_SLOTS : list string :=
  ["10:00 AM"; "11:00 AM"; "12:00 PM"; "1:00 PM"; "2:00 PM"; "3:00 PM";
   "4:00 PM"; "5:00 PM"].

Definition TICKET_TYPE : list (string * Z) :=
  [("standard", 0); ("elite", 300); ("premium", 100)].

Definition MAX_VISITORS_PER_DAY : Z := 500.

(** A Python [dict] with [str] keys: the items in insertion order. *)
Fixpoint dict_get {V} (key : string) (d : list (string * V)) : option V :=
  match d with
  | [] => None
  | (k, v) :: r => if String.eqb k key then Some v else dict_get key r
  end.

(** [d[key] = v]: a key that is there keeps its place and gets the value. *)
Fixpoint dict_set {V} (key : string) (v : V) (d : list (string * V)) : list (string * V) :=
  match d with
  | [] => [(key, v)]
  | (k, v') :: r =>
      if String.eqb k key then (k, v) :: r else (k, v') :: dict_set key v r
  end.

Definition dict_has {V} (key : string) (d : list (string * V)) : bool :=
  match dict_get key d with Some _ => true | None => false end.

Definition dict_keys {V} (d : list (string * V)) : list string := List.map fst d.

(** [x in l] for a list of strings. *)
Definition mem (x : string) (l : list string) : bool := existsb (String.eqb x) l.

(* ===================================================================== *)
(** ** Pure helpers of [main.py] *)
(* ===================================================================== *)

(** [re.sub(r"[^\w\s]", "", text).lower()]. *)
Definition clean_input (text : string) : string :=
  Str.lower (Str.filter (fun c => Str.isword c || Str.isspace c) text).

(** [re.sub(r"\s+", " ", time_slot.strip().upper()).replace(".", "")]. *)
Definition normalize_time_slot (time_slot : string) : string :=
  Str.replace "." EmptyString
    (Str.collapse_spaces false (Str.upper (Str.strip time_slot))).

(** [int(slot.split(":")[0])].  Every slot of [TIME_SLOTS] starts with its
    hour in digits, so [int] does not raise on them. *)
Definition slot_hour (slot : string) : Z :=
  match Str.int (hd EmptyString (Str.split ":" slot)) with
  | Some h => h
  | None => 0
  end.

(* ===================================================================== *)
(** ** The ledger: [check_capacity] and [save_booking] *)
(* ===================================================================== *)

(** [json.load(f) if f.read().strip() else []], the expression both ledger
    functions read the file with.  The condition is evaluated first:
    [f.read()] returns the whole text and leaves the handle at the end of
    the file; [json.load(f)] then reads from that same handle. *)
Definition conditional_load (f : handle) : loaded :=
  match read f with
  | (None, _) => UnicodeError
  | (Some text, f1) =>
      if Str.truthy (Str.strip text) then fst (json_load f1)
      else Loaded (Json.JArray [])
  end.

(** [sum(b["Visitors"]["Adults"] + b["Visitors"]["Kids"] for b in bookings
         if b["Museum"].lower() == museum_name.lower() and b["Date"] == date)]
    on booking records. *)
Definition visitor_sum (bookings : list booking) (museum_name date : string) : Z :=
  fold_left Z.add
    (List.map (fun b => Adults b + Kids b)
       (List.filter
          (fun b => String.eqb (Str.lower (Museum b)) (Str.lower museum_name)
                    && String.eqb (Date b) date)
          bookings))
    0.

(** The same sum on a decoded document.  A document that is no array of
    booking records is outside the data model; Python raises on it when the
    sum reaches the ill-formed element, the model for the whole document. *)
Definition visitor_sum_json (bookings : Json.value) (museum_name date : string)
  : outcome Z :=
  match bookings with
  | Json.JArray items =>
      match all_some (List.map booking_of_json items) with
      | Some bs => Return (visitor_sum bs museum_name date)
      | None => Raise (TypeError "booking record")
      end
  | _ => Raise (TypeError "bookings")
  end.

(** [FileNotFoundError] and [JSONDecodeError] are caught; the
    [UnicodeDecodeError] of a file that is not UTF-8 is not. *)
Definition check_capacity (museum_name date : string) : M Z :=
  fun fs =>
    match open_read fs with
    | None => (Return 0, fs)
    | Some f =>
        match conditional_load f with
        | UnicodeError => (Raise UnicodeDecodeError, fs)
        | JSONDecodeError => (Return 0, fs)
        | Loaded bookings => (visitor_sum_json bookings museum_name date, fs)
        end
    end.

(** The [try] block gives the list to append to, [[]] when
    [FileNotFoundError] or [JSONDecodeError] is caught; any other exception
    leaves the function before the file is opened for writing. *)
Definition save_booking (booking_details : booking) : M unit :=
  fun fs =>
    let bookings : option Json.value :=
      match open_read fs with
      | None => Some (Json.JArray [])
      | Some f =>
          match conditional_load f with
          | Loaded v => Some v
          | JSONDecodeError => Some (Json.JArray [])
          | UnicodeError => None
          end
      end in
    match bookings with
    | None => (Raise UnicodeDecodeError, fs)
    | Some (Json.JArray items) =>
        json_dump (Json.JArray (items ++ [booking_to_json booking_details])) fs
    | Some _ => (Raise (AttributeError "append"), fs)
    end.

(* ===================================================================== *)
(** ** The handlers *)
(* ===================================================================== *)

(** What [datetime.date] and a [str] have in common for [==]: values of
    different types are never equal. *)
Inductive date_or_str : Type :=
| ADate (ordinal : Z)
| AStr (s : string).

Definition py_eq (a b : date_or_str) : bool :=
  match a, b with
  | ADate d, ADate e => d =? e
  | AStr s, AStr t => String.eqb s t
  | _, _ => false
  end.

(** The answer of [book_ticket]: [{"message": ..., "details": ...}]. *)
Record confirmation : Type := {
  confirmation_message : string;
  details : booking
}.

(** The answers of [get_relevant_museum].  A fixed sentence is [Text]; an
    f-string is a constructor that carries the values it interpolates. *)
Inductive reply : Type :=
| Text (s : string)
| Booked (c : confirmation)
| KidsPrice (m : museum)
| StandardPrice (m : museum)
| Rating (m : museum)
| Contact (m : museum) (c : string)
| MuseumsIn (st : string) (ms : list museum)
| TopMuseums (ms : list museum)
| FromModel (content : string).

Section Handlers.

(** The catalogue loaded from [museums.json] at start-up. *)
Variable museum_data : list museum.

(** The similarity score (0 to 100) that [fuzzywuzzy.process] gives a choice
    for a query, processing of both included. *)
Variable scorer : string -> string -> Z.

(** [datetime.date.today()] as an ordinal, and [datetime.datetime.now().hour]. *)
Variable today : Z.
Variable current_hour : Z.

(** The content of the answer of [ollama.chat] to a user text. *)
Variable ollama_chat : string -> string.

(** [process.extractOne(query, choices)]: the first choice of the highest
    score among those that reach the cut-off of 0, with its score; [None]
    when there is none. *)
Definition extractOne (query : string) (choices : list string) : option (string * Z) :=
  fold_left
    (fun best choice =>
       let score := scorer query choice in
       if 0 <=? score then
         match best with
         | None => Some (choice, score)
         | Some (_, top) => if top <? score then Some (choice, score) else best
         end
       else best)
    choices None.

Definition get_available_time_slots (booking_date : date_or_str) : list string :=
  if py_eq booking_date (ADate today)
  then List.filter (fun slot => current_hour <? slot_hour slot) TIME_SLOTS
  else TIME_SLOTS.

(** [{museum["title"].lower(): museum for museum in museum_data}]. *)
Definition museum_titles : list (string * museum) :=
  fold_left (fun d m => dict_set (Str.lower (title m)) m d) museum_data [].

Definition find_best_museum (user_input : string) : outcome (option museum) :=
  let user_input :=
    Str.strip (Str.replace "book me a ticket to" EmptyString (clean_input user_input)) in
  match dict_get user_input museum_titles with
  | Some m => Return (Some m)
  | None =>
      let unpacked :=
        match museum_titles with
        | [] => Return None
        | _ :: _ =>
            match extractOne user_input (dict_keys museum_titles) with
            | Some (best_match, _) => Return (Some best_match)
            | None => Raise (TypeError "cannot unpack None")
            end
        end in
      match unpacked with
      | Raise e => Raise e
      | Return None => Return None
      | Return (Some best_match) =>
          if Str.truthy best_match then
            match dict_get best_match museum_titles with
            | Some m => Return (Some m)
            | None => Raise (KeyError best_match)
            end
          else Return None
      end
  end.

(** [(adults * ticket_price) + (kids * ticket_price * 0.5)]: the two
    products of integers are exact; the second one becomes a [float] to be
    halved, the first one to be added to the half, and either conversion
    raises [OverflowError] when the integer is beyond the range of [float];
    the sum is rounded, to an infinity when it is beyond the range. *)
Definition total_price (adults kids ticket_price : Z) : outcome Float.t :=
  match Float.of_int (kids * ticket_price) with
  | None => Raise OverflowError
  | Some kids_price =>
      let half := Float.mul kids_price (Float.Finite (1 # 2)) in
      match Float.of_int (adults * ticket_price) with
      | None => Raise OverflowError
      | Some adults_price => Return (Float.add adults_price half)
      end
  end.

Definition book_ticket (request : request) : M confirmation :=
  museum_name <- getattr (museum_name request) "museum_name" ;;
  found <- lift (find_best_museum museum_name) ;;
  match found with
  | None =>
      raise (HTTPException 404 ("Sorry, museum '" ++ museum_name ++ "' not found."))
  | Some museum =>
      ticket_type <- getattr (ticket_type request) "ticket_type" ;;
      if negb (dict_has (Str.lower ticket_type) TICKET_TYPE) then
        raise (HTTPException 400 "Invalid ticket type! Choose Standard, VIP, or Premium.")
      else
      match Datetime.add_days today 60 with
      | None => raise OverflowError
      | Some max_booking_date =>
      date_text <- getattr (booking_date request) "booking_date" ;;
      match Datetime.strptime date_text with
      | None => raise (HTTPException 400 "Invalid date format! Use YYYY-MM-DD.")
      | Some booking_date =>
      if booking_date <? today then
        raise (HTTPException 400 "Cannot book for a past date!")
      else if max_booking_date <? booking_date then
        raise (HTTPException 400 "Booking only allowed within 60 days from today!")
      else
      used <- check_capacity (title museum) date_text ;;
      if MAX_VISITORS_PER_DAY <=? used then
        raise (HTTPException 400 "Date is fully booked! Choose another date.")
      else
      let available_slots := get_available_time_slots (AStr date_text) in
      time_slot <- getattr (time_slot request) "time_slot" ;;
      if negb (mem (normalize_time_slot time_slot)
                   (List.map normalize_time_slot available_slots)) then
        raise (HTTPException 400
                 ("Invalid time slot! Choose from: " ++ Str.join ", " available_slots))
      else
      let base_price := price museum in
      match dict_get (Str.lower ticket_type) TICKET_TYPE with
      | None => raise (KeyError (Str.lower ticket_type))
      | Some delta =>
      let ticket_price := base_price + delta in
      adults <- getattr (adults request) "adults" ;;
      kids <- getattr (kids request) "kids" ;;
      total_price <- lift (total_price adults kids ticket_price) ;;
      name <- getattr (name request) "name" ;;
      let booking_details :=
        {| Name := name;
           Museum := title museum;
           Adults := adults;
           Kids := kids;
           Ticket_Type := Str.capitalize ticket_type;
           Date := date_text;
           Time_Slot := time_slot;
           Total_Price := total_price |} in
      save_booking booking_details ;;;
      ret {| confirmation_message := "Booking Confirmed! 🎟";
             details := booking_details |}
      end end end
  end.

(** [next((m for m in museum_data if m["title"].lower() == best_match), None)]. *)
Definition museum_of_title (best_match : string) : option museum :=
  List.find (fun m => String.eqb (Str.lower (title m)) best_match) museum_data.

Definition titles : list string := List.map (fun m => Str.lower (title m)) museum_data.

(** The common part of the price, rating and contact look-ups: the museum
    whose title [extractOne] prefers, when its score is above 80. *)
Definition museum_above_80 (user_input : string) : option museum :=
  match extractOne user_input titles with
  | Some (best_match, score) =>
      if 80 <? score then museum_of_title best_match else None
  | None => None
  end.

(** [re.search(r"top\s*(\d+)", s)]: the digits of the leftmost match. *)
Fixpoint search_top (s : string) : option string :=
  match s with
  | EmptyString => None
  | String _ r =>
      let here :=
        if String.prefix "top" s then
          fst (Str.span Str.isdigit
                 (Str.lstrip (String.substring 3 (String.length s - 3) s)))
        else EmptyString in
      if Str.truthy here then Some here else search_top r
  end.

(** [sorted(museum_data, key=rating, reverse=True)]: highest rating first,
    equal ratings in their order of the catalogue. *)
Fixpoint insert_by_rating (m : museum) (sorted : list museum) : list museum :=
  match sorted with
  | [] => [m]
  | m' :: rest =>
      if Qle_bool (rating m') (rating m) then m :: sorted
      else m' :: insert_by_rating m rest
  end.

Definition sorted_by_rating (ms : list museum) : list museum :=
  fold_right insert_by_rating [] ms.

Definition greetings : list string :=
  ["hi"; "hello"; "hey"; "good morning"; "good afternoon"; "good evening"].

Definition ticket_info : list (string * string) :=
  [("elite", "The elite ticket offers the best experience with exclusive access and perks but is more expensive. Includes a multilingual audio guide with refreshments and food. With 300 INR charge more than standard.");
   ("premium", "The Premium ticket offers additional perks like priority access and slight refreshments but is a 100 INR costly than the standard ticket.");
   ("standard", "The Standard ticket is the most affordable and provides basic access to the museum.")].

(** [any(word in text for word in words)]. *)
Definition any_in (words : list string) (text : string) : bool :=
  existsb (fun word => Str.contains word text) words.

(** A [str] passed where [book_ticket] expects a request: it has none of the
    attributes. *)
Definition str_object : request :=
  {| message := None; name := None; museum_name := None; adults := None;
     kids := None; ticket_type := None; booking_date := None; time_slot := None |}.

Definition get_relevant_museum (user_input : string) : M reply :=
  let user_input := Str.lower (clean_input user_input) in
  if any_in greetings user_input then
    ret (Text "Hello! How can I assist you with museum information or ticket booking today?")
  else if Str.contains "thank" user_input || Str.contains "thanks" user_input
          || Str.contains "appreciate" user_input || Str.contains "grateful" user_input then
    ret (Text "You're welcome! Let me know if you need more information.")
  else if Str.contains "book" user_input || Str.contains "reserve" user_input then
    if existsb (fun m => Str.contains (Str.lower (title m)) user_input) museum_data then
      c <- book_ticket str_object ;; ret (Booked c)
    else ret (Text "Please specify the museum name for booking.")
  else if any_in ["elite"; "premium"; "standard"; "luxurious"; "affordable"; "cheap"; "vs"]
                 user_input then
    match List.find (fun kv => Str.contains (fst kv) user_input) ticket_info with
    | Some (_, response) => ret (Text response)
    | None =>
        ret (Text "I can provide details on Standard, VIP, and Premium tickets. Let me know which one interests you.")
    end
  else
  let location_names :=
    (List.map (fun m => Str.lower (location m)) museum_data
     ++ List.map (fun m => Str.lower (state m)) museum_data)%list in
  match extractOne user_input location_names with
  | None => raise (TypeError "cannot unpack None")
  | Some (best_match, score) =>
  if Str.contains "mumbai" user_input || Str.contains "chhatrapati shivaji" user_input then
    ret (Text "Chhatrapati Shivaji Museum - Price: ₹185, Rating: ⭐ 4.7")
  else if (Str.contains "price" user_input && Str.contains "kids" user_input)
          || (Str.contains "price" user_input && Str.contains "children" user_input)
          || (Str.contains "concession" user_input && Str.contains "ticket" user_input) then
    match extractOne user_input titles with
    | Some (best_match', score') =>
        match (if Str.truthy best_match' && (80 <? score')
               then museum_of_title best_match' else None) with
        | Some matched_museum =>
            match Float.round64 (inject_Z (price matched_museum) / 2) with
            | Float.Infinity _ => raise OverflowError
            | _ => ret (KidsPrice matched_museum)
            end
        | None => ret (Text "Sorry, I couldn't find a matching museum for your request.")
        end
    | None => ret (Text "Sorry, I couldn't find a matching museum for your request.")
    end
  else if Str.contains "price" user_input || Str.contains "cost" user_input
          || Str.contains "ticket" user_input then
    match museum_above_80 user_input with
    | Some matched_museum =>
        if Str.int_printable (price matched_museum)
        then ret (StandardPrice matched_museum)
        else raise (ValueError DIGITS_LIMIT)
    | None =>
        ret (Text "I couldn't find ticket price details for that museum. Please try specifying the exact museum name.")
    end
  else if Str.contains "rating" user_input then
    let matched_museum :=
      match List.find
              (fun m => Str.contains user_input (Str.lower (title m))
                        || Str.contains user_input (Str.lower (state m))
                        || Str.contains user_input (Str.lower (location m)))
              museum_data with
      | Some m => Some m
      | None => museum_above_80 user_input
      end in
    match matched_museum with
    | Some m => ret (Rating m)
    | None => ret (Text "Sorry, I couldn't find a matching museum for your request.")
    end
  else if Str.contains "contact" user_input || Str.contains "phone" user_input
          || Str.contains "email" user_input then
    match museum_above_80 user_input with
    | Some matched_museum =>
        match contact matched_museum with
        | Some c => ret (Contact matched_museum c)
        | None =>
            ret (Text "Sorry, I couldn't find a matching museum or contact details for your request or please try specifying the exact museum name.")
        end
    | None =>
        ret (Text "Sorry, I couldn't find a matching museum or contact details for your request or please try specifying the exact museum name.")
    end
  else
  let matched_museums :=
    if 80 <? score then
      List.filter (fun m => String.eqb (Str.lower (location m)) best_match
                            || String.eqb (Str.lower (state m)) best_match)
                  museum_data
    else [] in
  match matched_museums with
  | first :: _ => ret (MuseumsIn (state first) matched_museums)
  | [] =>
      let top :=
        if Str.contains "top" user_input then search_top user_input else None in
      match top with
      | Some digits =>
          match Str.int digits with
          | Some num_top =>
              ret (TopMuseums (firstn (Z.to_nat num_top) (sorted_by_rating museum_data)))
          | None => raise (ValueError DIGITS_LIMIT)
          end
      | None => ret (FromModel (ollama_chat user_input))
      end
  end
  end.

(** [class BookingRequest(BaseModel): message: str], the model the body of
    [POST /book_ticket] is validated against.  The body is given as the
    object with the fields it carries; validation keeps the declared field
    and drops the others, and fails when the declared field is missing. *)
Definition BookingRequest (body : request) : option request :=
  match message body with
  | Some m =>
      Some {| message := Some m; name := None; museum_name := None;
              adults := None; kids := None; ticket_type := None;
              booking_date := None; time_slot := None |}
  | None => None
  end.

(** [@app.post("/book_ticket")]: the framework validates the body, then
    calls the handler with the validated object. *)
Definition post_book_ticket (body : request) : M confirmation :=
  match BookingRequest body with
  | Some request => book_ticket request
  | None => raise RequestValidationError
  end.

End Handlers.

(* ===================================================================== *)
(** ** Notions used to state the properties *)
(* ===================================================================== *)

(** What [book_ticket] reads and computes on its way to a confirmation: the
    attributes of the request, the museum they resolve to, the price delta
    of the tier, the parsed date and the total price. *)
Record reading : Type := {
  read_museum_name : string;
  read_museum : museum;
  read_ticket_type : string;
  read_delta : Z;
  read_date_text : string;
  read_date : Z;
  read_time_slot : string;
  read_adults : Z;
  read_kids : Z;
  read_total : Float.t;
  read_name : string
}.

(** The request carries what [r] holds, and [r] passes every check of the
    handler, in the order the handler makes them. *)
Record accepted (museum_data : list museum) (scorer : string -> string -> Z)
  (today : Z) (rq : request) (r : reading) : Prop := {
  acc_has_museum_name : museum_name rq = Some (read_museum_name r);
  acc_found : find_best_museum museum_data scorer (read_museum_name r)
              = Return (Some (read_museum r));
  acc_has_ticket_type : ticket_type rq = Some (read_ticket_type r);
  acc_tier : dict_get (Str.lower (read_ticket_type r)) TICKET_TYPE = Some (read_delta r);
  acc_clock : Datetime.add_days today 60 = Some (today + 60);
  acc_has_date : booking_date rq = Some (read_date_text r);
  acc_parsed : Datetime.strptime (read_date_text r) = Some (read_date r);
  acc_not_past : today <= read_date r;
  acc_in_range : read_date r <= today + 60;
  acc_has_time_slot : time_slot rq = Some (read_time_slot r);
  acc_slot : mem (normalize_time_slot (read_time_slot r))
                 (List.map normalize_time_slot TIME_SLOTS) = true;
  acc_has_adults : adults rq = Some (read_adults r);
  acc_has_kids : kids rq = Some (read_kids r);
  acc_price : total_price (read_adults r) (read_kids r)
                (price (read_museum r) + read_delta r)
              = Return (read_total r);
  acc_has_name : name rq = Some (read_name r)
}.

(** The record [book_ticket] builds from what it read. *)
Definition booking_of (r : reading) : booking :=
  {| Name := read_name r;
     Museum := title (read_museum r);
     Adults := read_adults r;
     Kids := read_kids r;
     Ticket_Type := Str.capitalize (read_ticket_type r);
     Date := read_date_text r;
     Time_Slot := read_time_slot r;
     Total_Price := read_total r |}.

Definition confirmed (b : booking) : confirmation :=
  {| confirmation_message := "Booking Confirmed! 🎟"; details := b |}.

(** The text [find_best_museum] looks up: the cleaned input without the
    booking phrase. *)
Definition booking_query (user_input : string) : string :=
  Str.strip (Str.replace "book me a ticket to" EmptyString (clean_input user_input)).

(** The accumulator of [extractOne] after the choices [seen]: it keeps one
    of them with its score, and no choice seen scores higher; it is empty
    when every score seen is below the cut-off. *)
Definition best_so_far (scorer : string -> string -> Z) (query : string)
  (seen : list string) (best : option (string * Z)) : Prop :=
  match best with
  | Some (choice, score) =>
      In choice seen /\ score = scorer query choice /\ 0 <= score
      /\ forall c, In c seen -> scorer query c <= score
  | None => forall c, In c seen -> scorer query c < 0
  end.

(** The keys of the dictionary are the lower-case titles of their values. *)
Definition keyed_by_title (d : list (string * museum)) : Prop :=
  Forall (fun kv => Str.lower (title (snd kv)) = fst kv) d.



(** The daily cap as an invariant of the stored ledger: after a confirmed
    booking no museum has more than [MAX_VISITORS_PER_DAY] visitors on any
    date. *)
Definition daily_cap_kept (museum_data : list museum) (scorer : string -> string -> Z)
  (today current_hour : Z) (rq : request) (fs : ledger_file) : Prop :=
  forall c fs' bs,
    book_ticket museum_data scorer today current_hour rq fs = (Return c, fs') ->
    stored_ledger fs' = Some bs ->
    forall museum_name date, visitor_sum bs museum_name date <= MAX_VISITORS_PER_DAY.

(** A threshold of 80 on the booking path: a name without an exact match
    whose best choice scores below 80 is an unknown museum. *)
Definition fuzzy_threshold_applied (museum_data : list museum)
  (scorer : string -> string -> Z) (today current_hour : Z) (rq : request)
  (fs : ledger_file) : Prop :=
  forall mn best score,
    museum_name rq = Some mn ->
    dict_get (booking_query mn) (museum_titles museum_data) = None ->
    extractOne scorer (booking_query mn) (dict_keys (museum_titles museum_data))
    = Some (best, score) ->
    score < 80 ->
    book_ticket museum_data scorer today current_hour rq fs
    = (Raise (HTTPException 404 ("Sorry, museum '" ++ mn ++ "' not found.")), fs).

Definition PAST_DATE : exn := HTTPException 400 "Cannot book for a past date!".

Definition TOO_FAR : exn :=
  HTTPException 400 "Booking only allowed within 60 days from today!".

Definition GREETING : string :=
  "Hello! How can I assist you with museum information or ticket booking today?".

(* ===================================================================== *)
(** ** A sample catalogue, clock and requests *)
(* ===================================================================== *)

Definition national_museum : museum :=
  {| title := "National Museum";
     location := "New Delhi";
     state := "Delhi";
     price := 100;
     rating := 45 # 10;
     contact := Some "011-23019272";
     address := "Janpath, New Delhi" |}.

Definition sample_catalogue : list museum := [national_museum].

(** A scorer that finds nothing alike. *)
Definition no_similarity (query choice : string) : Z := 0.

(** The ordinal of 2025-01-10. *)
Definition sample_today : Z := 739261.

(** An object with the seven booking attributes and no [message]. *)
Definition booking_request (name museum_name : string) (adults kids : Z)
  (ticket_type booking_date time_slot : string) : request :=
  {| message := None;
     name := Some name;
     museum_name := Some museum_name;
     adults := Some adults;
     kids := Some kids;
     ticket_type := Some ticket_type;
     booking_date := Some booking_date;
     time_slot := Some time_slot |}.

(** The same object with a [message] as well. *)
Definition with_message (text : string) (rq : request) : request :=
  {| message := Some text;
     name := name rq;
     museum_name := museum_name rq;
     adults := adults rq;
     kids := kids rq;
     ticket_type := ticket_type rq;
     booking_date := booking_date rq;
     time_slot := time_slot rq |}.

(** Two adults and a child, standard tier, five days ahead. *)
Definition family_request : request :=
  booking_request "Asha" "National Museum" 2 1 "standard" "2025-01-15" "10:00 AM".

Definition family_booking : booking :=
  {| Name := "Asha"; Museum := "National Museum"; Adults := 2; Kids := 1;
     Ticket_Type := "Standard"; Date := "2025-01-15"; Time_Slot := "10:00 AM";
     Total_Price := Float.Finite 250 |}.

(** A group that fills the day of 2025-01-15 on its own. *)
Definition group_booking : booking :=
  {| Name := "Ravi"; Museum := "National Museum"; Adults := 500; Kids := 0;
     Ticket_Type := "Standard"; Date := "2025-01-15"; Time_Slot := "11:00 AM";
     Total_Price := Float.Finite 50000 |}.

(** Two groups that fill the day of 2025-01-15 together. *)
Definition morning_booking : booking :=
  {| Name := "Meera"; Museum := "National Museum"; Adults := 300; Kids := 0;
     Ticket_Type := "Standard"; Date := "2025-01-15"; Time_Slot := "10:00 AM";
     Total_Price := Float.Finite 30000 |}.

Definition afternoon_booking : booking :=
  {| Name := "Kiran"; Museum := "national museum"; Adults := 150; Kids := 50;
     Ticket_Type := "Premium"; Date := "2025-01-15"; Time_Slot := "2:00 PM";
     Total_Price := Float.Finite 35000 |}.

(** A party of 501 on a day without bookings. *)
Definition large_party_request : request :=
  booking_request "Dev" "National Museum" 501 0 "standard" "2025-01-15" "12:00 PM".


(** A party whose price is beyond the range of binary64: [10^400] kids. *)
Definition unbounded_party_request : request :=
  booking_request "Dev" "National Museum" 1 (10 ^ 400) "standard" "2025-01-15"
    "12:00 PM".

(** A museum without an entrance fee, and the catalogue that has it. *)
Definition free_museum : museum :=
  {| title := "City Gallery";
     location := "Pune";
     state := "Maharashtra";
     price := 0;
     rating := 40 # 10;
     contact := None;
     address := "Station Road, Pune" |}.

Definition free_catalogue : list museum := [free_museum].

(** A party whose number of adults has 4301 digits, at the free museum. *)
Definition unprintable_party_request : request :=
  booking_request "Dev" "City Gallery" (10 ^ 4300) 0 "standard" "2025-01-15"
    "12:00 PM".

(** A visit today in the slot of ten in the morning. *)
Definition morning_slot_today : request :=
  booking_request "Lata" "National Museum" 1 0 "standard" "2025-01-10" "10:00 AM".

(** A visit to a museum the catalogue does not have. *)
Definition louvre_request : request :=
  booking_request "Asha" "Louvre" 2 1 "standard" "2025-01-15" "10:00 AM".

(** A visit the day before today. *)
Definition yesterday_request : request :=
  booking_request "Asha" "National Museum" 2 1 "standard" "2025-01-09" "10:00 AM".

(** The request [rq] for another number of adults and kids. *)
Definition with_party (adults kids : Z) (rq : request) : request :=
  {| message := message rq;
     name := name rq;
     museum_name := museum_name rq;
     adults := Some adults;
     kids := Some kids;
     ticket_type := ticket_type rq;
     booking_date := booking_date rq;
     time_slot := time_slot rq |}.

(** The titles of the catalogue are ASCII texts. *)
Definition ascii_titles (museum_data : list museum) : bool :=
  forallb (fun m => Str.isascii (title m)) museum_data.

(** The museum names of the bookings are ASCII texts. *)
Definition ascii_museums (bookings : list booking) : bool :=
  forallb (fun b => Str.isascii (Museum b)) bookings.

(** A ledger file that is read without an error: no file, or UTF-8 bytes. *)
Definition decodable (fs : ledger_file) : bool :=
  match fs with
  | None => true
  | Some bytes => Utf8.valid bytes
  end.

(** A record whose numbers of adults and kids can be printed: [json.dump]
    writes it to its end. *)
Definition printable (b : booking) : bool :=
  Str.int_printable (Adults b) && Str.int_printable (Kids b).

(** What [json.dump] has written of a ledger of one record when it stops:
    the pieces before the first number that cannot be printed. *)
Definition broken_ledger_text (b : booking) : string :=
  fst (Json.stream 0 (Json.JArray [booking_to_json b])).

(** The outcome of [book_ticket] for a request with the seven booking
    attributes, rule by rule in the order of the handler: the museum, the
    tier, the clock, the format of the date, the past, the 60 days, the
    reading of the ledger, the slot, the range of the price, the writing of
    the record.  Up to the writing an exception keeps the ledger file; the
    writing replaces it by the new record, or by the beginning of its text
    when a number of the party cannot be printed. *)
Definition rules_in_order (museum_data : list museum) (scorer : string -> string -> Z)
  (today : Z) (name museum_name : string) (adults kids : Z)
  (ticket_type booking_date time_slot : string) (fs : ledger_file)
  : outcome confirmation * ledger_file :=
  match find_best_museum museum_data scorer museum_name with
  | Raise e => (Raise e, fs)
  | Return None =>
      (Raise (HTTPException 404 ("Sorry, museum '" ++ museum_name ++ "' not found.")), fs)
  | Return (Some museum) =>
  match dict_get (Str.lower ticket_type) TICKET_TYPE with
  | None =>
      (Raise (HTTPException 400 "Invalid ticket type! Choose Standard, VIP, or Premium."), fs)
  | Some delta =>
  match Datetime.add_days today 60 with
  | None => (Raise OverflowError, fs)
  | Some max_booking_date =>
  match Datetime.strptime booking_date with
  | None => (Raise (HTTPException 400 "Invalid date format! Use YYYY-MM-DD."), fs)
  | Some date =>
      if date <? today then (Raise PAST_DATE, fs)
      else if max_booking_date <? date then (Raise TOO_FAR, fs)
      else if negb (decodable fs) then (Raise UnicodeDecodeError, fs)
      else if negb (mem (normalize_time_slot time_slot)
                        (List.map normalize_time_slot TIME_SLOTS))
      then
        (Raise (HTTPException 400
                  ("Invalid time slot! Choose from: " ++ Str.join ", " TIME_SLOTS)), fs)
      else
        match total_price adults kids (price museum + delta) with
        | Raise e => (Raise e, fs)
        | Return total =>
            let b := {| Name := name; Museum := title museum; Adults := adults;
                        Kids := kids; Ticket_Type := Str.capitalize ticket_type;
                        Date := booking_date; Time_Slot := time_slot;
                        Total_Price := total |} in
            if printable b
            then (Return (confirmed b), Some (ledger_text [b]))
            else (Raise (ValueError DIGITS_LIMIT), Some (broken_ledger_text b))
        end
  end end end end.

(* ===================================================================== *)
(** ** The other endpoints, and requests served in a row *)
(* ===================================================================== *)

(** [@app.get("/")]: the message of the answer. *)
Definition root : string := "Welcome to MuseumPass AI".

(** [class ChatRequest(BaseModel): message: str]: validation succeeds when
    the body carries a [message], which is all the handler reads. *)
Definition ChatRequest (body : request) : option string := message body.

(** [@app.post("/chat")]: the [response] of the answer. *)
Definition chat (museum_data : list museum) (scorer : string -> string -> Z)
  (today current_hour : Z) (ollama_chat : string -> string) (body : request)
  : M reply :=
  match ChatRequest body with
  | Some text => get_relevant_museum museum_data scorer today current_hour ollama_chat text
  | None => raise RequestValidationError
  end.

(** Calls of [book_ticket] one after the other, each on the ledger file the
    one before has left: the outcomes, and the file at the end. *)
Fixpoint serve (museum_data : list museum) (scorer : string -> string -> Z)
  (today current_hour : Z) (requests : list request) (fs : ledger_file)
  : list (outcome confirmation) * ledger_file :=
  match requests with
  | [] => ([], fs)
  | rq :: rest =>
      let (o, fs1) := book_ticket museum_data scorer today current_hour rq fs in
      let (os, fs2) := serve museum_data scorer today current_hour rest fs1 in
      (o :: os, fs2)
  end.

(** The call has ended in a [ValueError]. *)
Definition is_value_error (o : outcome confirmation) : bool :=
  match o with
  | Raise (ValueError _) => true
  | _ => false
  end.

(** The booking of the last confirmation among the outcomes, if there is
    one. *)
Fixpoint last_confirmed (outcomes : list (outcome confirmation)) : option booking :=
  match outcomes with
  | [] => None
  | o :: rest =>
      match last_confirmed rest with
      | Some b => Some b
      | None => match o with Return c => Some (details c) | Raise _ => None end
      end
  end.

(** Every character of [s] satisfies [p]. *)
Fixpoint all_chars (p : ascii -> bool) (s : string) : bool :=
  match s with
  | EmptyString => true
  | String c r => p c && all_chars p r
  end.

(** The characters [clean_input] can leave: lower-case letters, digits, the
    underscore and white space. *)
Definition is_clean_char (c : ascii) : bool :=
  Str.islower c || Str.isdigit c || (Str.code c =? 95) || Str.isspace c.

(** The ratings of the list never increase. *)
Fixpoint ratings_descend (ms : list museum) : Prop :=
  match ms with
  | [] => True
  | m :: rest =>
      (forall m', In m' rest -> (rating m' <= rating m)%Q) /\ ratings_descend rest
  end.

(** A text that does not start with white space. *)
Definition starts_plain (s : string) : Prop :=
  match s with
  | EmptyString => True
  | String c _ => Str.isspace c = false
  end.

(** The characters of a normalised slot: no lower-case letter, no dot, and
    no white space but the space. *)
Definition is_slot_char (c : ascii) : bool :=
  negb (Str.islower c) && negb (Str.code c =? 46)
  && (negb (Str.isspace c) || (Str.code c =? 32)).

(** A museum whose title has punctuation. *)
Definition dr_museum : museum :=
  {| title := "Dr. Bhau Daji Lad Museum";
     location := "Mumbai";
     state := "Maharashtra";
     price := 20;
     rating := 44 # 10;
     contact := None;
     address := "Byculla East, Mumbai" |}.


(* ===================================================================== *)
(** ** Notions of the JSON round trip *)
(* ===================================================================== *)

(** A text ends a run of digits when it is empty or starts with another
    character. *)
Definition ends_digits (rest : string) : Prop :=
  match rest with
  | EmptyString => True
  | String c _ => Str.isdigit c = false
  end.

(** The decimal text of a natural number: digits, "0" for zero and no
    leading zero otherwise. *)
Definition decimal_text (ds : string) (n : Z) : Prop :=
  Str.all_digits ds = true
  /\ Str.digits_value 0 ds = n
  /\ match ds with
     | EmptyString => False
     | String c r => if n =? 0 then r = EmptyString else Str.between 49 57 c = true
     end.

(** A text ends a number when it is empty or starts with a character that
    continues neither the digits, nor a fraction, nor an exponent. *)
Definition ends_number (rest : string) : Prop :=
  match rest with
  | EmptyString => True
  | String c _ =>
      Str.isdigit c = false /\ Str.code c <> 46 /\ Str.code c <> 101 /\ Str.code c <> 69
  end.

(** The amounts the program stores: rationals in lowest terms that are whole
    or end in one half. *)
Definition half_integer (q : Q) : Prop :=
  Qred q = q /\ (Qden q = 1%positive \/ Qden q = 2%positive).

(** The JSON values that are read back as they were written: every float
    in them is a multiple of one half in lowest terms. *)
Fixpoint readable (v : Json.value) : Prop :=
  match v with
  | Json.JFloat q => half_integer q
  | Json.JArray items => fold_right (fun x acc => readable x /\ acc) True items
  | Json.JObject members =>
      fold_right (fun kv acc => readable (snd kv) /\ acc) True members
  | _ => True
  end.

(** The calls of the scanner a value takes. *)
Fixpoint size (v : Json.value) : nat :=
  match v with
  | Json.JArray items => S (list_sum (List.map (fun x => S (size x)) items))
  | Json.JObject members =>
      S (list_sum (List.map (fun kv => S (size (snd kv))) members))
  | _ => 1%nat
  end.

(** The first character of an encoded value: no white space and no closing
    bracket. *)
Definition opens_value (c : ascii) : Prop :=
  Json.is_ws c = false /\ (Str.code c =? 93) = false /\ (Str.code c =? 125) = false.

(** The scanner reads a value back: given enough calls, it returns the value
    from its text at any depth of indentation, and leaves what follows the
    text when that does not continue a number. *)
Definition reads_back (v : Json.value) : Prop :=
  readable v ->
  forall (level : nat) (rest : string) (fuel : nat),
    ends_number rest -> (size v <= fuel)%nat ->
    Json.scan_once fuel (Json.encode level v ++ rest) = Some (v, rest).


(** A scorer that gives 100 to a choice written in the query and 0 to any
    other. *)
Definition word_similarity (query choice : string) : Z :=
  if Str.contains choice query then 100 else 0.
(* ===================================================================== *)
(** * Properties *)
(* ===================================================================== *)

(* ===================================================================== *)
(** ** Where binary64 arithmetic is exact *)
(* ===================================================================== *)








(** The only exception of the price is [OverflowError]. *)
Lemma total_price_raises (adults kids ticket_price : Z) (e : exn) :
  total_price adults kids ticket_price = Raise e -> e = OverflowError.
Proof.
  unfold total_price.
  destruct (Float.of_int (kids * ticket_price)); [| congruence].
  destruct (Float.of_int (adults * ticket_price)); [discriminate | congruence].
Qed.


(* ===================================================================== *)
(** ** The helpers on concrete inputs *)
(* ===================================================================== *)

Example clean_input_example : clean_input "What's UP, Doc_9?" = "whats up doc_9".
Proof. reflexivity. Qed.

Example normalize_time_slot_example :
  normalize_time_slot "  10:00   a.m. " = "10:00 AM"
  /\ normalize_time_slot "2:00 pm" = "2:00 PM".
Proof. split; reflexivity. Qed.

Example slot_hours : List.map slot_hour TIME_SLOTS = [10; 11; 12; 1; 2; 3; 4; 5].
Proof. reflexivity. Qed.

(** Called with a date, [get_available_time_slots] compares the hour of a
    slot on the 12-hour clock with the hour of the day. *)
Example slots_left_today :
  get_available_time_slots sample_today 0 (ADate sample_today) = TIME_SLOTS
  /\ get_available_time_slots sample_today 9 (ADate sample_today)
     = ["10:00 AM"; "11:00 AM"; "12:00 PM"]
  /\ get_available_time_slots sample_today 11 (ADate sample_today) = ["12:00 PM"]
  /\ get_available_time_slots sample_today 15 (ADate sample_today) = []
  /\ get_available_time_slots sample_today 15 (ADate (sample_today + 1)) = TIME_SLOTS.
Proof. repeat split; reflexivity. Qed.

Example strptime_accepts :
  Datetime.strptime "2025-01-10" = Some 739261
  /\ Datetime.strptime "2025-1-1" = Some 739252
  /\ Datetime.strptime "2025-01- 5" = Some 739256
  /\ Datetime.strptime "2024-02-29" = Some 738945
  /\ Datetime.strptime "0001-01-01" = Some 1
  /\ Datetime.strptime "9999-12-31" = Some Datetime.MAXORDINAL.
Proof. repeat split; reflexivity. Qed.

Example strptime_refuses :
  Datetime.strptime "2025-02-29" = None
  /\ Datetime.strptime "2025-13-01" = None
  /\ Datetime.strptime "2025-01-01 " = None
  /\ Datetime.strptime "0000-01-01" = None
  /\ Datetime.strptime "10/01/2025" = None
  /\ Datetime.strptime "tomorrow" = None.
Proof. repeat split; reflexivity. Qed.

Example loads_refuses :
  List.map Json.loads ["[1,]"; "01"; "1."; "-"; "tru"; "nullx"; "  "; "[1] x"]
  = [None; None; None; None; None; None; None; None].
Proof. vm_compute. reflexivity. Qed.

Example loads_accepts :
  List.map Json.loads [" [ ] "; "[1 ,2 ]"; "1e2"; "-2.50"; "[[null, true]]"]
  = [Some (Json.JArray []);
     Some (Json.JArray [Json.JInt 1; Json.JInt 2]);
     Some (Json.JFloat 100);
     Some (Json.JFloat (-5 # 2));
     Some (Json.JArray [Json.JArray [Json.JNull; Json.JBool true]])].
Proof. vm_compute. reflexivity. Qed.

(** What [json.dump] writes is read back as the records written. *)
Example ledger_text_is_read_back :
  stored_ledger (Some (ledger_text [morning_booking; afternoon_booking; family_booking]))
  = Some [morning_booking; afternoon_booking; family_booking]
  /\ stored_ledger (Some (ledger_text [])) = Some []
  /\ stored_ledger (Some "not json") = None
  /\ stored_ledger None = None.
Proof. repeat split; vm_compute; reflexivity. Qed.

Example find_best_museum_exact :
  find_best_museum sample_catalogue no_similarity "Book me a ticket to NATIONAL museum!"
  = Return (Some national_museum).
Proof. vm_compute. reflexivity. Qed.

(* ===================================================================== *)
(** ** The ledger as the program reads it *)
(* ===================================================================== *)

Lemma append_assoc (a b c : string) : ((a ++ b) ++ c = a ++ (b ++ c))%string.
Proof. induction a as [| x a IH]; cbn; [reflexivity | now rewrite IH]. Qed.

Lemma append_nil_r (s : string) : (s ++ EmptyString)%string = s.
Proof. induction s as [| c r IH]; cbn; [reflexivity | now rewrite IH]. Qed.

Lemma length_append (a b : string) :
  String.length (a ++ b) = (String.length a + String.length b)%nat.
Proof. induction a as [| c r IH]; cbn; [reflexivity | now rewrite IH]. Qed.

(** An empty document is no JSON value. *)
Lemma loads_empty : Json.loads EmptyString = None.
Proof. reflexivity. Qed.

(** After [f.read()] the handle is at the end of the file, so the
    [json.load(f)] of the conditional expression always fails. *)
Lemma json_load_after_read (f : handle) (text : string) (f' : handle) :
  read f = (Some text, f') -> fst (json_load f') = JSONDecodeError.
Proof.
  unfold read. destruct (Utf8.valid f); [| discriminate].
  intros [= _ <-]. reflexivity.
Qed.

Lemma conditional_load_cases (f : handle) :
  conditional_load f =
  if Utf8.valid f then
    if Str.truthy (Str.strip (universal_newlines f)) then JSONDecodeError
    else Loaded (Json.JArray [])
  else UnicodeError.
Proof.
  unfold conditional_load, read.
  destruct (Utf8.valid f); [| reflexivity].
  destruct (Str.truthy (Str.strip (universal_newlines f))); reflexivity.
Qed.

(** [check_capacity] finds no visitors in a file it can read, whatever the
    file holds, and raises on a file that is not UTF-8. *)
Lemma check_capacity_cases (museum_name date : string) (fs : ledger_file) :
  check_capacity museum_name date fs
  = (if decodable fs then Return 0 else Raise UnicodeDecodeError, fs).
Proof.
  unfold check_capacity, open_read, decodable.
  destruct fs as [bytes |]; [| reflexivity].
  rewrite conditional_load_cases.
  destruct (Utf8.valid bytes); [| reflexivity].
  destruct (Str.truthy (Str.strip (universal_newlines bytes))); reflexivity.
Qed.

Lemma check_capacity_zero (museum_name date : string) (fs : ledger_file) :
  decodable fs = true -> check_capacity museum_name date fs = (Return 0, fs).
Proof. intros H. now rewrite check_capacity_cases, H. Qed.

(** [save_booking] writes a ledger of one record, whatever the file it can
    read held. *)
Lemma save_booking_cases (b : booking) (fs : ledger_file) :
  save_booking b fs
  = if decodable fs then json_dump (Json.JArray [booking_to_json b]) fs
    else (Raise UnicodeDecodeError, fs).
Proof.
  unfold save_booking, open_read, decodable.
  destruct fs as [bytes |]; [| reflexivity].
  rewrite conditional_load_cases.
  destruct (Utf8.valid bytes); [| reflexivity].
  destruct (Str.truthy (Str.strip (universal_newlines bytes))); reflexivity.
Qed.

(** The pieces of a record come to the text of the ledger when its numbers
    can be printed. *)
Lemma stream_booking (b : booking) :
  Json.stream 0 (Json.JArray [booking_to_json b])
  = (if printable b then ledger_text [b] else broken_ledger_text b, printable b).
Proof.
  unfold broken_ledger_text, ledger_text, printable.
  destruct b as [nm mu a k tt d sl total].
  cbn [List.map booking_to_json Name Museum Adults Kids Ticket_Type Date Time_Slot
       Total_Price].
  destruct total as [q | negative |]; cbn [Json.of_float];
    cbn -[Json.quote Json.newline_indent Str.of_Z Str.int_printable Float.repr_finite
          append];
    destruct (Str.int_printable a), (Str.int_printable k); cbn [andb fst];
    rewrite ?append_assoc; reflexivity.
Qed.

Lemma json_dump_booking (b : booking) (fs : ledger_file) :
  json_dump (Json.JArray [booking_to_json b]) fs
  = if printable b then (Return tt, Some (ledger_text [b]))
    else (Raise (ValueError DIGITS_LIMIT), Some (broken_ledger_text b)).
Proof.
  unfold json_dump. rewrite stream_booking. now destruct (printable b).
Qed.

Lemma save_booking_single (b : booking) (fs : ledger_file) :
  decodable fs = true -> printable b = true ->
  save_booking b fs = (Return tt, Some (ledger_text [b])).
Proof.
  intros Hfs Hb. now rewrite save_booking_cases, Hfs, json_dump_booking, Hb.
Qed.

Lemma add_days_some (d n r : Z) :
  Datetime.add_days d n = Some r -> r = d + n.
Proof.
  unfold Datetime.add_days.
  destruct ((1 <=? d + n) && (d + n <=? Datetime.MAXORDINAL)); congruence.
Qed.

(* ===================================================================== *)
(** ** When [book_ticket] confirms *)
(* ===================================================================== *)

Section Confirmation.

Variable museum_data : list museum.
Variable scorer : string -> string -> Z.
Variable today : Z.
Variable current_hour : Z.

(** [book_ticket] hands [get_available_time_slots] the date as text, which
    is never equal to a date: every slot of the day is offered. *)
Lemma available_slots_of_text (date_text : string) :
  get_available_time_slots today current_hour (AStr date_text) = TIME_SLOTS.
Proof. reflexivity. Qed.

Ltac run_handler :=
  unfold book_ticket, bind, getattr, lift, ret, raise, dict_has.

(** A confirmation comes with all the conditions of [accepted], from a
    ledger file that could be read and with numbers that could be printed,
    and the ledger then holds the new record alone. *)
Lemma book_ticket_confirms_inv (rq : request) (fs fs' : ledger_file) (c : confirmation) :
  book_ticket museum_data scorer today current_hour rq fs = (Return c, fs') ->
  exists r, accepted museum_data scorer today rq r
            /\ c = confirmed (booking_of r)
            /\ fs' = Some (ledger_text [booking_of r])
            /\ decodable fs = true
            /\ printable (booking_of r) = true.
Proof.
  run_handler.
  destruct (museum_name rq) as [mn |] eqn:Hmn; [| discriminate].
  destruct (find_best_museum museum_data scorer mn) as [[m |] | e] eqn:Hfind;
    [| discriminate | discriminate].
  destruct (ticket_type rq) as [tt |] eqn:Htt; [| discriminate].
  destruct (dict_get (Str.lower tt) TICKET_TYPE) as [delta |] eqn:Htier;
    [| discriminate].
  cbn [negb].
  destruct (Datetime.add_days today 60) as [mx |] eqn:Hclock; [| discriminate].
  pose proof (add_days_some _ _ _ Hclock) as ->.
  destruct (booking_date rq) as [ds |] eqn:Hds; [| discriminate].
  destruct (Datetime.strptime ds) as [d |] eqn:Hparse; [| discriminate].
  destruct (d <? today) eqn:Hpast; [discriminate |].
  destruct (today + 60 <? d) eqn:Hlimit; [discriminate |].
  rewrite check_capacity_cases.
  destruct (decodable fs) eqn:Hfs; [| discriminate].
  change (MAX_VISITORS_PER_DAY <=? 0) with false. cbv iota.
  destruct (time_slot rq) as [slot |] eqn:Hslot; [| discriminate].
  rewrite available_slots_of_text.
  destruct (mem (normalize_time_slot slot) (List.map normalize_time_slot TIME_SLOTS))
    eqn:Hmem; [| discriminate].
  cbn [negb].
  destruct (adults rq) as [a |] eqn:Ha; [| discriminate].
  destruct (kids rq) as [k |] eqn:Hk; [| discriminate].
  destruct (total_price a k (price m + delta)) as [total | e] eqn:Hprice;
    [| discriminate].
  destruct (name rq) as [nm |] eqn:Hnm; [| discriminate].
  rewrite save_booking_cases, Hfs, json_dump_booking.
  destruct (printable _) eqn:Hprint; [| discriminate].
  intros H. injection H as <- <-.
  apply Z.ltb_ge in Hpast. apply Z.ltb_ge in Hlimit.
  exists {| read_museum_name := mn; read_museum := m; read_ticket_type := tt;
            read_delta := delta; read_date_text := ds; read_date := d;
            read_time_slot := slot; read_adults := a; read_kids := k;
            read_total := total; read_name := nm |}.
  split; [constructor; cbn; assumption |].
  split; [reflexivity |]. split; [reflexivity |].
  split; [reflexivity | exact Hprint].
Qed.

(** Conversely, a request that meets the conditions of [accepted] is
    confirmed, whatever a ledger file that can be read holds, when the
    numbers of the party can be printed. *)
Lemma book_ticket_confirms (rq : request) (r : reading) (fs : ledger_file) :
  accepted museum_data scorer today rq r ->
  decodable fs = true ->
  printable (booking_of r) = true ->
  book_ticket museum_data scorer today current_hour rq fs
  = (Return (confirmed (booking_of r)), Some (ledger_text [booking_of r])).
Proof.
  intros [Hmn Hfind Htt Htier Hclock Hds Hparse Hpast Hlimit Hslot Hmem Ha Hk Hprice Hnm]
    Hfs Hprint.
  run_handler.
  rewrite Hmn, Hfind, Htt, Htier. cbn [negb].
  rewrite Hclock, Hds, Hparse.
  apply Z.ltb_ge in Hpast. apply Z.ltb_ge in Hlimit.
  rewrite Hpast, Hlimit, check_capacity_cases, Hfs.
  change (MAX_VISITORS_PER_DAY <=? 0) with false. cbv iota.
  rewrite Hslot, available_slots_of_text, Hmem. cbn [negb].
  rewrite Ha, Hk, Hprice, Hnm, save_booking_cases, Hfs, json_dump_booking.
  unfold booking_of in Hprint |- *. now rewrite Hprint.
Qed.

(** An exception leaves the ledger file as it was, but for the [ValueError]
    of [json.dump]: the file then holds what was written of a record whose
    numbers cannot be printed. *)
Lemma book_ticket_raise_cases (rq : request) (fs fs' : ledger_file) (e : exn) :
  book_ticket museum_data scorer today current_hour rq fs = (Raise e, fs') ->
  fs' = fs
  \/ exists b, e = ValueError DIGITS_LIMIT /\ printable b = false
               /\ fs' = Some (broken_ledger_text b).
Proof.
  run_handler.
  destruct (museum_name rq) as [mn |]; [| now intros [= _ <-]; left].
  destruct (find_best_museum museum_data scorer mn) as [[m |] | e0];
    [| now intros [= _ <-]; left | now intros [= _ <-]; left].
  destruct (ticket_type rq) as [tt |]; [| now intros [= _ <-]; left].
  destruct (dict_get (Str.lower tt) TICKET_TYPE) as [delta |];
    [| now intros [= _ <-]; left].
  cbn [negb].
  destruct (Datetime.add_days today 60) as [mx |]; [| now intros [= _ <-]; left].
  destruct (booking_date rq) as [ds |]; [| now intros [= _ <-]; left].
  destruct (Datetime.strptime ds) as [d |]; [| now intros [= _ <-]; left].
  destruct (d <? today); [now intros [= _ <-]; left |].
  destruct (mx <? d); [now intros [= _ <-]; left |].
  rewrite check_capacity_cases.
  destruct (decodable fs) eqn:Hfs; [| now intros [= _ <-]; left].
  change (MAX_VISITORS_PER_DAY <=? 0) with false. cbv iota.
  destruct (time_slot rq) as [slot |]; [| now intros [= _ <-]; left].
  destruct (negb _); [now intros [= _ <-]; left |].
  destruct (adults rq) as [a |]; [| now intros [= _ <-]; left].
  destruct (kids rq) as [k |]; [| now intros [= _ <-]; left].
  destruct (total_price a k (price m + delta)) as [total | e1]; [| now intros [= _ <-]; left].
  destruct (name rq) as [nm |]; [| now intros [= _ <-]; left].
  rewrite save_booking_cases, Hfs, json_dump_booking.
  destruct (printable _) eqn:Hprint; [discriminate |].
  intros [= <- <-]. right. eexists. repeat split. exact Hprint.
Qed.

End Confirmation.

(* ===================================================================== *)
(** ** Resolving the museum *)
(* ===================================================================== *)

Section Resolution.

Variable scorer : string -> string -> Z.

Lemma extractOne_step (query : string) (seen : list string) (best : option (string * Z))
  (choice : string) :
  best_so_far scorer query seen best ->
  best_so_far scorer query (seen ++ [choice])
    (let score := scorer query choice in
     if 0 <=? score then
       match best with
       | None => Some (choice, score)
       | Some (_, top) => if top <? score then Some (choice, score) else best
       end
     else best).
Proof.
  intros Hbest. cbv zeta.
  destruct (Z.leb_spec 0 (scorer query choice)) as [Hpos | Hneg].
  - destruct best as [[b top] |].
    + destruct Hbest as (Hin & Htop & Hnonneg & Hmax).
      destruct (Z.ltb_spec top (scorer query choice)) as [Hlt | Hge].
      * repeat split; [apply in_or_app; right; left; reflexivity | assumption |].
        intros c [Hc | [<- | []]] %in_app_or; [specialize (Hmax c Hc) |]; lia.
      * repeat split; [apply in_or_app; left; assumption | assumption | assumption |].
        intros c [Hc | [<- | []]] %in_app_or; [apply Hmax; assumption | assumption].
    + repeat split; [apply in_or_app; right; left; reflexivity | assumption |].
      intros c [Hc | [<- | []]] %in_app_or; [specialize (Hbest c Hc) |]; lia.
  - destruct best as [[b top] |].
    + destruct Hbest as (Hin & Htop & Hnonneg & Hmax).
      repeat split; [apply in_or_app; left; assumption | assumption | assumption |].
      intros c [Hc | [<- | []]] %in_app_or; [apply Hmax; assumption | lia].
    + intros c [Hc | [<- | []]] %in_app_or; [apply Hbest; assumption | assumption].
Qed.

Lemma extractOne_fold (query : string) (choices seen : list string)
  (best : option (string * Z)) :
  best_so_far scorer query seen best ->
  best_so_far scorer query (seen ++ choices)
    (fold_left
       (fun best choice =>
          let score := scorer query choice in
          if 0 <=? score then
            match best with
            | None => Some (choice, score)
            | Some (_, top) => if top <? score then Some (choice, score) else best
            end
          else best)
       choices best).
Proof.
  revert seen best.
  induction choices as [| choice rest IH]; intros seen best Hbest.
  - rewrite app_nil_r. exact Hbest.
  - cbn [fold_left].
    replace (seen ++ choice :: rest)%list with ((seen ++ [choice]) ++ rest)%list
      by (rewrite <- app_assoc; reflexivity).
    apply IH, extractOne_step, Hbest.
Qed.

(** [extractOne] returns one of the choices, with its own score, and no
    choice scores higher. *)
Lemma extractOne_best (query : string) (choices : list string) :
  best_so_far scorer query choices (extractOne scorer query choices).
Proof.
  apply (extractOne_fold query choices [] None).
  intros c [].
Qed.

(** With scores that are never negative, a list with a choice has a best
    one. *)
Lemma extractOne_some (query : string) (choices : list string) :
  (forall q c, 0 <= scorer q c) -> choices <> [] ->
  exists best score, extractOne scorer query choices = Some (best, score).
Proof.
  intros Hnonneg Hne.
  pose proof (extractOne_best query choices) as Hbest.
  destruct (extractOne scorer query choices) as [[best score] |].
  - now exists best, score.
  - destruct choices as [| c rest]; [contradiction |].
    specialize (Hbest c (or_introl eq_refl)). specialize (Hnonneg query c). lia.
Qed.

End Resolution.

(** Every key of a dictionary has a value. *)
Lemma dict_get_of_key {V} (key : string) (d : list (string * V)) :
  In key (dict_keys d) -> exists v, dict_get key d = Some v.
Proof.
  induction d as [| [k v] r IH]; cbn; [intros [] |].
  intros [-> | Hin].
  - rewrite String.eqb_refl. now exists v.
  - destruct (String.eqb k key); [now exists v | now apply IH].
Qed.

Lemma dict_get_in {V} (key : string) (v : V) (d : list (string * V)) :
  dict_get key d = Some v -> In (key, v) d.
Proof.
  induction d as [| [k v'] r IH]; cbn; [discriminate |].
  destruct (String.eqb_spec k key) as [-> | Hk].
  - intros [= ->]. now left.
  - intros Hget. right. now apply IH.
Qed.

Lemma dict_set_keyed (m : museum) (d : list (string * museum)) :
  keyed_by_title d -> keyed_by_title (dict_set (Str.lower (title m)) m d).
Proof.
  unfold keyed_by_title.
  induction 1 as [| [k v] r Hkv Hr IH]; cbn.
  - constructor; [reflexivity | constructor].
  - destruct (String.eqb_spec k (Str.lower (title m))) as [-> | Hk];
      constructor; cbn; auto.
Qed.

Lemma museum_titles_keyed (museum_data : list museum) :
  keyed_by_title (museum_titles museum_data).
Proof.
  unfold museum_titles.
  assert (Hgen : forall d, keyed_by_title d ->
            keyed_by_title
              (fold_left (fun d m => dict_set (Str.lower (title m)) m d) museum_data d)).
  { induction museum_data as [| m rest IH]; intros d Hd; cbn; [exact Hd |].
    apply IH, dict_set_keyed, Hd. }
  apply Hgen. constructor.
Qed.

Lemma museum_titles_get (museum_data : list museum) (key : string) (m : museum) :
  dict_get key (museum_titles museum_data) = Some m -> Str.lower (title m) = key.
Proof.
  intros Hget. apply dict_get_in in Hget.
  pose proof (museum_titles_keyed museum_data) as Hkeyed.
  unfold keyed_by_title in Hkeyed. rewrite Forall_forall in Hkeyed.
  exact (Hkeyed _ Hget).
Qed.

(** A catalogue with a museum has a title to match. *)
Lemma museum_titles_nonempty (m : museum) (rest : list museum) :
  museum_titles (m :: rest) <> [].
Proof.
  unfold museum_titles. cbn [fold_left].
  assert (Hgen : forall (l : list museum) d, d <> [] ->
            fold_left (fun d m => dict_set (Str.lower (title m)) m d) l d <> []).
  { induction l as [| x l IH]; intros d Hd; cbn; [exact Hd |].
    apply IH. destruct d as [| [k v] r]; cbn; [discriminate |].
    destruct (String.eqb k (Str.lower (title x))); discriminate. }
  apply Hgen. cbn. discriminate.
Qed.

Section ResolutionOfMuseum.

Variable museum_data : list museum.
Variable scorer : string -> string -> Z.

(** Without an exact match, [find_best_museum] returns the museum of the
    best choice, whatever the score of that choice. *)
Lemma find_best_museum_fuzzy (user_input best : string) (score : Z) :
  dict_get (booking_query user_input) (museum_titles museum_data) = None ->
  extractOne scorer (booking_query user_input) (dict_keys (museum_titles museum_data))
  = Some (best, score) ->
  (Str.truthy best = true ->
   exists m, find_best_museum museum_data scorer user_input = Return (Some m)
             /\ Str.lower (title m) = best)
  /\ (Str.truthy best = false ->
      find_best_museum museum_data scorer user_input = Return None).
Proof.
  intros Hexact Hbest.
  pose proof (extractOne_best scorer (booking_query user_input)
                (dict_keys (museum_titles museum_data))) as Hinv.
  rewrite Hbest in Hinv. destruct Hinv as (Hin & _).
  destruct (dict_get_of_key _ _ Hin) as [m Hm].
  unfold find_best_museum. fold (booking_query user_input).
  rewrite Hexact.
  destruct (museum_titles museum_data) as [| kv d] eqn:Htitles; [destruct Hin |].
  rewrite Hbest.
  split; intros Htruthy; rewrite Htruthy; [| reflexivity].
  rewrite Hm. exists m. split; [reflexivity |].
  apply (museum_titles_get museum_data). now rewrite Htitles.
Qed.

(** With scores that are never negative, [find_best_museum] does not
    raise. *)
Lemma find_best_museum_returns (user_input : string) :
  (forall q c, 0 <= scorer q c) ->
  exists found, find_best_museum museum_data scorer user_input = Return found.
Proof.
  intros Hnonneg.
  destruct (dict_get (booking_query user_input) (museum_titles museum_data))
    as [m |] eqn:Hexact.
  - exists (Some m). unfold find_best_museum. fold (booking_query user_input).
    now rewrite Hexact.
  - destruct (museum_titles museum_data) as [| kv d] eqn:Htitles.
    + exists None. unfold find_best_museum. fold (booking_query user_input).
      rewrite Htitles. reflexivity.
    + rewrite <- Htitles in Hexact.
      destruct (extractOne_some scorer (booking_query user_input)
                  (dict_keys (museum_titles museum_data)) Hnonneg)
        as (best & score & Hbest).
      { rewrite Htitles. discriminate. }
      destruct (find_best_museum_fuzzy user_input best score Hexact Hbest)
        as [Hyes Hno].
      destruct (Str.truthy best).
      * destruct (Hyes eq_refl) as (m & Hm & _). now exists (Some m).
      * exists None. now apply Hno.
Qed.

End ResolutionOfMuseum.

(* ===================================================================== *)
(** ** The claims of the specification *)
(* ===================================================================== *)

(** *** The request model of [POST /book_ticket] *)

(** For every body, the endpoint ends in a validation error or in the
    [AttributeError] of the first booking field the handler reads. *)
Lemma post_book_ticket_never_confirms (museum_data : list museum)
  (scorer : string -> string -> Z) (today current_hour : Z) (body : request)
  (fs : ledger_file) :
  post_book_ticket museum_data scorer today current_hour body fs
  = (Raise RequestValidationError, fs)
  \/ post_book_ticket museum_data scorer today current_hour body fs
     = (Raise (AttributeError "museum_name"), fs).
Proof.
  unfold post_book_ticket, BookingRequest.
  destruct (message body); [right | left]; reflexivity.
Qed.

(** Claim C1, at a request the code fails on.  A body that carries the seven
    booking fields is refused by validation; with a [message] added it
    reaches the handler, which finds none of the booking fields and raises
    [AttributeError]; the handler itself confirms the same fields when they
    are attributes of its argument. *)
Theorem booking_fields_are_dropped :
  post_book_ticket sample_catalogue no_similarity sample_today 9 family_request None
  = (Raise RequestValidationError, None)
  /\ post_book_ticket sample_catalogue no_similarity sample_today 9
       (with_message "book" family_request) None
     = (Raise (AttributeError "museum_name"), None)
  /\ book_ticket sample_catalogue no_similarity sample_today 9 family_request None
     = (Return (confirmed family_booking), Some (ledger_text [family_booking])).
Proof. repeat split; vm_compute; reflexivity. Qed.

(** *** The ledger *)

(** Claim C2, at a ledger the code fails on.  The file holds one record; after
    [save_booking] of a second one it holds the second alone. *)
Theorem save_booking_drops_stored_records :
  stored_ledger (Some (ledger_text [group_booking])) = Some [group_booking]
  /\ snd (save_booking family_booking (Some (ledger_text [group_booking])))
     = Some (ledger_text [family_booking])
  /\ stored_ledger (snd (save_booking family_booking (Some (ledger_text [group_booking]))))
     = Some [family_booking].
Proof. repeat split; vm_compute; reflexivity. Qed.

(** Claim C4, at a ledger the code fails on.  The stored ledger has 500
    visitors for the museum on the date, the capacity check counts none, and
    a further request for that day is confirmed. *)
Theorem full_day_is_booked_again :
  let fs := Some (ledger_text [group_booking]) in
  stored_ledger fs = Some [group_booking]
  /\ visitor_sum [group_booking] "National Museum" "2025-01-15" = 500
  /\ check_capacity "National Museum" "2025-01-15" fs = (Return 0, fs)
  /\ book_ticket sample_catalogue no_similarity sample_today 9 family_request fs
     = (Return (confirmed family_booking), Some (ledger_text [family_booking])).
Proof. repeat split; vm_compute; reflexivity. Qed.

(** Claim C9, at a ledger the code fails on.  Two stored bookings fill the
    day; the request is not rejected with the capacity reason but confirmed,
    and the ledger is rewritten. *)
Theorem full_day_gives_no_capacity_reason :
  let fs := Some (ledger_text [morning_booking; afternoon_booking]) in
  stored_ledger fs = Some [morning_booking; afternoon_booking]
  /\ visitor_sum [morning_booking; afternoon_booking] "National Museum" "2025-01-15" = 500
  /\ book_ticket sample_catalogue no_similarity sample_today 9 family_request fs
     <> (Raise (HTTPException 400 "Date is fully booked! Choose another date."), fs)
  /\ snd (book_ticket sample_catalogue no_similarity sample_today 9 family_request fs)
     = Some (ledger_text [family_booking]).
Proof. repeat split; vm_compute; try reflexivity; discriminate. Qed.

(** Claim C7, at a request the code fails on.  At three in the afternoon the
    slots left for today are none, yet a visit today at ten in the morning
    is confirmed. *)
Theorem past_slot_of_today_is_confirmed :
  Datetime.strptime "2025-01-10" = Some sample_today
  /\ get_available_time_slots sample_today 15 (ADate sample_today) = []
  /\ exists c fs',
       book_ticket sample_catalogue no_similarity sample_today 15 morning_slot_today None
       = (Return c, fs')
       /\ Date (details c) = "2025-01-10" /\ Time_Slot (details c) = "10:00 AM".
Proof.
  split; [reflexivity | split; [reflexivity |]].
  eexists. eexists. split; [vm_compute; reflexivity | split; reflexivity].
Qed.

(** *** The daily cap *)

(** Claim C3, at a request the code fails on.  The ledger file is missing,
    so the reading defect of C2 and C4 plays no part.  A party of 501 is
    confirmed: the guard of [book_ticket] compares the visitors already
    stored with the cap and never looks at the size of the new party.  The
    ledger then holds 501 visitors for the museum on the date, which is
    above the cap of 500. *)
Theorem large_party_exceeds_cap :
  let b := {| Name := "Dev"; Museum := "National Museum"; Adults := 501; Kids := 0;
              Ticket_Type := "Standard"; Date := "2025-01-15";
              Time_Slot := "12:00 PM"; Total_Price := Float.Finite 50100 |} in
  check_capacity "National Museum" "2025-01-15" None = (Return 0, None)
  /\ book_ticket sample_catalogue no_similarity sample_today 9 large_party_request None
     = (Return (confirmed b), Some (ledger_text [b]))
  /\ stored_ledger (Some (ledger_text [b])) = Some [b]
  /\ visitor_sum [b] "National Museum" "2025-01-15" = 501
  /\ MAX_VISITORS_PER_DAY < visitor_sum [b] "National Museum" "2025-01-15"
  /\ ~ daily_cap_kept sample_catalogue no_similarity sample_today 9
         large_party_request None.
Proof.
  intros b.
  assert (Hbook : book_ticket sample_catalogue no_similarity sample_today 9
                    large_party_request None
                  = (Return (confirmed b), Some (ledger_text [b])))
    by (vm_compute; reflexivity).
  assert (Hstored : stored_ledger (Some (ledger_text [b])) = Some [b])
    by (vm_compute; reflexivity).
  split; [vm_compute; reflexivity |].
  split; [exact Hbook |].
  split; [exact Hstored |].
  split; [vm_compute; reflexivity |].
  split; [vm_compute; reflexivity |].
  intros Hcap.
  specialize (Hcap _ _ _ Hbook Hstored "National Museum" "2025-01-15").
  vm_compute in Hcap. apply Hcap. reflexivity.
Qed.

(** *** The price *)




(** *** The booking window *)

Section Window.

Variable museum_data : list museum.
Variable scorer : string -> string -> Z.
Variable today : Z.
Variable current_hour : Z.

(** The handler up to its date rules, for a request whose museum and tier
    are accepted. *)
Lemma book_ticket_date_rules (rq : request) (fs : ledger_file) (mn tt ds : string)
  (m : museum) (delta d : Z) :
  museum_name rq = Some mn ->
  find_best_museum museum_data scorer mn = Return (Some m) ->
  ticket_type rq = Some tt ->
  dict_get (Str.lower tt) TICKET_TYPE = Some delta ->
  Datetime.add_days today 60 = Some (today + 60) ->
  booking_date rq = Some ds ->
  Datetime.strptime ds = Some d ->
  (d < today -> book_ticket museum_data scorer today current_hour rq fs = (Raise PAST_DATE, fs))
  /\ (today + 60 < d ->
      book_ticket museum_data scorer today current_hour rq fs = (Raise TOO_FAR, fs)).
Proof.
  intros Hmn Hfind Htt Htier Hclock Hds Hparse.
  unfold book_ticket, bind, getattr, lift, ret, raise, dict_has.
  rewrite Hmn, Hfind, Htt, Htier. cbn [negb].
  rewrite Hclock, Hds, Hparse.
  split; intros Hd.
  - apply Z.ltb_lt in Hd. now rewrite Hd.
  - destruct (Z.ltb_spec d today) as [Hlt | _]; [lia |].
    apply Z.ltb_lt in Hd. now rewrite Hd.
Qed.

End Window.

(** Claim C6.  With the museum name, the tier and the date among its
    attributes, a request whose date parses to a day before today, or to a
    day more than 60 days after today, is rejected with an HTTP error, and
    once the museum and the tier are accepted the error is the one of the
    date rule that fails; a date from today to today + 60 raises neither of
    the two date errors. *)
Theorem booking_window (museum_data : list museum) (scorer : string -> string -> Z)
  (today current_hour : Z) (rq : request) (fs : ledger_file) (mn tt ds : string)
  (d : Z) :
  (forall q c, 0 <= scorer q c) ->
  museum_name rq = Some mn ->
  ticket_type rq = Some tt ->
  booking_date rq = Some ds ->
  Datetime.add_days today 60 = Some (today + 60) ->
  Datetime.strptime ds = Some d ->
  (d < today \/ today + 60 < d ->
   exists status detail,
     book_ticket museum_data scorer today current_hour rq fs
     = (Raise (HTTPException status detail), fs))
  /\ (forall m delta,
        find_best_museum museum_data scorer mn = Return (Some m) ->
        dict_get (Str.lower tt) TICKET_TYPE = Some delta ->
        (d < today ->
         book_ticket museum_data scorer today current_hour rq fs = (Raise PAST_DATE, fs))
        /\ (today + 60 < d ->
            book_ticket museum_data scorer today current_hour rq fs
            = (Raise TOO_FAR, fs)))
  /\ (today <= d <= today + 60 ->
      forall e fs',
        book_ticket museum_data scorer today current_hour rq fs = (Raise e, fs') ->
        e <> PAST_DATE /\ e <> TOO_FAR).
Proof.
  intros Hnonneg Hmn Htt Hds Hclock Hparse.
  split; [| split].
  - intros Hout.
    destruct (find_best_museum_returns museum_data scorer mn Hnonneg) as [[m |] Hfind].
    + destruct (dict_get (Str.lower tt) TICKET_TYPE) as [delta |] eqn:Htier.
      * destruct (book_ticket_date_rules museum_data scorer today current_hour
                    rq fs mn tt ds m delta d Hmn Hfind Htt Htier Hclock Hds Hparse)
          as [Hpast Hfar].
        destruct Hout as [Hd | Hd]; eexists; eexists;
          [apply (Hpast Hd) | apply (Hfar Hd)].
      * eexists. eexists.
        unfold book_ticket, bind, getattr, lift, ret, raise, dict_has.
        rewrite Hmn, Hfind, Htt, Htier. reflexivity.
    + eexists. eexists.
      unfold book_ticket, bind, getattr, lift, ret, raise.
      rewrite Hmn, Hfind. reflexivity.
  - intros m delta Hfind Htier.
    exact (book_ticket_date_rules museum_data scorer today current_hour
             rq fs mn tt ds m delta d Hmn Hfind Htt Htier Hclock Hds Hparse).
  - intros [Hlo Hhi] e fs'.
    unfold book_ticket, bind, getattr, lift, ret, raise, dict_has, PAST_DATE, TOO_FAR.
    rewrite Hmn.
    destruct (find_best_museum_returns museum_data scorer mn Hnonneg) as [found ->].
    destruct found as [m |]; [| intros [= <- _]; split; discriminate].
    rewrite Htt.
    destruct (dict_get (Str.lower tt) TICKET_TYPE) as [delta |];
      [| intros [= <- _]; split; discriminate].
    cbn [negb]. rewrite Hclock, Hds, Hparse.
    destruct (Z.ltb_spec d today) as [Hlt | _]; [lia |].
    destruct (Z.ltb_spec (today + 60) d) as [Hlt | _]; [lia |].
    rewrite check_capacity_cases.
    destruct (decodable fs) eqn:Hdec; [| intros [= <- _]; split; discriminate].
    change (MAX_VISITORS_PER_DAY <=? 0) with false. cbv iota.
    destruct (time_slot rq) as [slot |]; [| intros [= <- _]; split; discriminate].
    destruct (negb _); [intros [= <- _]; split; discriminate |].
    destruct (adults rq) as [a |]; [| intros [= <- _]; split; discriminate].
    destruct (kids rq) as [k |]; [| intros [= <- _]; split; discriminate].
    destruct (total_price a k _) as [total | err] eqn:Htotal;
      [| apply total_price_raises in Htotal; subst err;
         intros [= <- _]; split; discriminate].
    destruct (name rq) as [nm |]; [| intros [= <- _]; split; discriminate].
    rewrite save_booking_cases, Hdec, json_dump_booking.
    destruct (printable _); [discriminate | intros [= <- _]; split; discriminate].
Qed.

Lemma booking_window_witness :
  (739260 < sample_today \/ sample_today + 60 < 739260 ->
   exists status detail,
     book_ticket sample_catalogue no_similarity sample_today 9 yesterday_request None
     = (Raise (HTTPException status detail), None))
  /\ (forall m delta,
        find_best_museum sample_catalogue no_similarity "National Museum"
        = Return (Some m) ->
        dict_get (Str.lower "standard") TICKET_TYPE = Some delta ->
        (739260 < sample_today ->
         book_ticket sample_catalogue no_similarity sample_today 9 yesterday_request None
         = (Raise PAST_DATE, None))
        /\ (sample_today + 60 < 739260 ->
            book_ticket sample_catalogue no_similarity sample_today 9
              yesterday_request None
            = (Raise TOO_FAR, None)))
  /\ (sample_today <= 739260 <= sample_today + 60 ->
      forall e fs',
        book_ticket sample_catalogue no_similarity sample_today 9 yesterday_request None
        = (Raise e, fs') ->
        e <> PAST_DATE /\ e <> TOO_FAR).
Proof.
  apply (booking_window sample_catalogue no_similarity sample_today 9
           yesterday_request None "National Museum" "standard" "2025-01-09" 739260).
  - intros q c. unfold no_similarity. lia.
  - reflexivity.
  - reflexivity.
  - reflexivity.
  - reflexivity.
  - reflexivity.
Defined.

(** *** The fuzzy match of the booking path *)

(** Claim C8, at a request the code fails on.  The catalogue has one
    museum and the scorer finds nothing alike: the name "Louvre" has no exact
    match, the choice the matcher prefers scores 0, which is below the
    threshold of 80, and the request is not an unknown museum: it is booked
    at the National Museum. *)
Theorem unknown_name_is_matched :
  dict_get (booking_query "Louvre") (museum_titles sample_catalogue) = None
  /\ extractOne no_similarity (booking_query "Louvre")
       (dict_keys (museum_titles sample_catalogue))
     = Some ("national museum", 0)
  /\ 0 < 80
  /\ (exists c fs',
        book_ticket sample_catalogue no_similarity sample_today 9 louvre_request None
        = (Return c, fs')
        /\ Museum (details c) = "National Museum")
  /\ ~ fuzzy_threshold_applied sample_catalogue no_similarity sample_today 9
         louvre_request None.
Proof.
  split; [reflexivity |].
  split; [reflexivity |].
  split; [reflexivity |].
  split.
  - eexists. eexists. split; [vm_compute; reflexivity | reflexivity].
  - intros Hclaim.
    specialize (Hclaim "Louvre" "national museum" 0 eq_refl eq_refl eq_refl eq_refl).
    vm_compute in Hclaim. discriminate.
Qed.

(** [find_best_museum] raises no HTTP error. *)
Lemma find_best_museum_raises (museum_data : list museum)
  (scorer : string -> string -> Z) (user_input : string) (e : exn) :
  find_best_museum museum_data scorer user_input = Raise e ->
  forall status detail, e <> HTTPException status detail.
Proof.
  unfold find_best_museum.
  destruct (dict_get _ (museum_titles museum_data)); [discriminate |].
  destruct (museum_titles museum_data) as [| kv d]; [discriminate |].
  destruct (extractOne scorer _ _) as [[best score] |].
  - destruct (Str.truthy best); [| discriminate].
    destruct (dict_get best (kv :: d)); [discriminate |].
    intros [= <-]. discriminate.
  - intros [= <-]. discriminate.
Qed.

(** [book_ticket] answers 404 exactly when [find_best_museum] finds no
    museum. *)
Lemma unknown_museum_iff (museum_data : list museum) (scorer : string -> string -> Z)
  (today current_hour : Z) (rq : request) (fs : ledger_file) (mn : string) :
  museum_name rq = Some mn ->
  (exists detail,
     book_ticket museum_data scorer today current_hour rq fs
     = (Raise (HTTPException 404 detail), fs))
  <-> find_best_museum museum_data scorer mn = Return None.
Proof.
  intros Hmn. unfold book_ticket, bind, getattr, lift, ret, raise, dict_has.
  rewrite Hmn.
  destruct (find_best_museum museum_data scorer mn) as [[m |] | e0] eqn:Hfind.
  - split; [| discriminate]. intros [detail Hraise]. exfalso. revert Hraise.
    destruct (ticket_type rq) as [tt |]; [| discriminate].
    destruct (dict_get (Str.lower tt) TICKET_TYPE) as [delta |]; [| discriminate].
    cbn [negb].
    destruct (Datetime.add_days today 60) as [mx |]; [| discriminate].
    destruct (booking_date rq) as [ds |]; [| discriminate].
    destruct (Datetime.strptime ds) as [d |]; [| discriminate].
    destruct (d <? today); [discriminate |].
    destruct (mx <? d); [discriminate |].
    rewrite check_capacity_cases.
    destruct (decodable fs) eqn:Hdec; [| discriminate].
    change (MAX_VISITORS_PER_DAY <=? 0) with false. cbv iota.
    destruct (time_slot rq) as [slot |]; [| discriminate].
    destruct (negb _); [discriminate |].
    destruct (adults rq) as [a |]; [| discriminate].
    destruct (kids rq) as [k |]; [| discriminate].
    destruct (total_price a k _) as [total | err] eqn:Htotal;
      [| apply total_price_raises in Htotal; subst err; discriminate].
    destruct (name rq) as [nm |]; [| discriminate].
    rewrite save_booking_cases, Hdec, json_dump_booking.
    destruct (printable _); discriminate.
  - split; [reflexivity |]. intros _. eexists. reflexivity.
  - split; [| discriminate]. intros [detail Hraise].
    injection Hraise as ->.
    now destruct (find_best_museum_raises _ _ _ _ Hfind 404 detail).
Qed.

(** The fuzzy match of the booking path keeps no score.  When the name has
    no exact match, [find_best_museum] takes the choice [extractOne] prefers,
    whatever its score: the museum of that choice is the one found, and the
    request is an unknown museum only when the preferred choice is the empty
    title. *)
Theorem fuzzy_match_takes_best_choice (museum_data : list museum)
  (scorer : string -> string -> Z) (today current_hour : Z) (rq : request)
  (fs : ledger_file) (mn best : string) (score : Z) :
  museum_name rq = Some mn ->
  dict_get (booking_query mn) (museum_titles museum_data) = None ->
  extractOne scorer (booking_query mn) (dict_keys (museum_titles museum_data))
  = Some (best, score) ->
  (Str.truthy best = true ->
   (exists m, find_best_museum museum_data scorer mn = Return (Some m)
              /\ Str.lower (title m) = best)
   /\ forall detail,
        book_ticket museum_data scorer today current_hour rq fs
        <> (Raise (HTTPException 404 detail), fs))
  /\ (Str.truthy best = false ->
      book_ticket museum_data scorer today current_hour rq fs
      = (Raise (HTTPException 404 ("Sorry, museum '" ++ mn ++ "' not found.")), fs)).
Proof.
  intros Hmn Hexact Hbest.
  destruct (find_best_museum_fuzzy museum_data scorer mn best score Hexact Hbest)
    as [Hyes Hno].
  split; intros Htruthy.
  - destruct (Hyes Htruthy) as (m & Hfind & Htitle).
    split; [now exists m |].
    intros detail Hraise.
    assert (Hnone : find_best_museum museum_data scorer mn = Return None).
    { apply (unknown_museum_iff museum_data scorer today current_hour rq fs mn Hmn).
      now exists detail. }
    congruence.
  - unfold book_ticket, bind, getattr, lift, ret, raise.
    now rewrite Hmn, (Hno Htruthy).
Qed.

Lemma fuzzy_match_takes_best_choice_witness :
  (Str.truthy "national museum" = true ->
   (exists m, find_best_museum sample_catalogue no_similarity "Louvre" = Return (Some m)
              /\ Str.lower (title m) = "national museum")
   /\ forall detail,
        book_ticket sample_catalogue no_similarity sample_today 9 louvre_request None
        <> (Raise (HTTPException 404 detail), None))
  /\ (Str.truthy "national museum" = false ->
      book_ticket sample_catalogue no_similarity sample_today 9 louvre_request None
      = (Raise (HTTPException 404 ("Sorry, museum '" ++ "Louvre" ++ "' not found.")),
         None)).
Proof.
  apply (fuzzy_match_takes_best_choice sample_catalogue no_similarity sample_today 9
           louvre_request None "Louvre" "national museum" 0).
  - reflexivity.
  - reflexivity.
  - reflexivity.
Defined.

(** *** The greeting of the chat *)

Lemma lower_char_idempotent (c : ascii) :
  Str.lower_char (Str.lower_char c) = Str.lower_char c.
Proof.
  destruct c as [[] [] [] [] [] [] [] []]; reflexivity.
Qed.

Lemma lower_idempotent (s : string) : Str.lower (Str.lower s) = Str.lower s.
Proof.
  induction s as [| c r IH]; [reflexivity |].
  unfold Str.lower in *. cbn [Str.map].
  now rewrite lower_char_idempotent, IH.
Qed.

(** Claim C10.  An input whose cleaned text contains "hi", "hey" or "hello"
    anywhere, also inside a longer word, gets the greeting: no later intent
    is looked at and the ledger is not touched. *)
Theorem greeting_by_substring (museum_data : list museum)
  (scorer : string -> string -> Z) (today current_hour : Z)
  (ollama_chat : string -> string) (user_input : string) (fs : ledger_file) :
  Str.contains "hi" (clean_input user_input) = true
  \/ Str.contains "hey" (clean_input user_input) = true
  \/ Str.contains "hello" (clean_input user_input) = true ->
  get_relevant_museum museum_data scorer today current_hour ollama_chat user_input fs
  = (Return (Text GREETING), fs).
Proof.
  intros Hword.
  unfold get_relevant_museum.
  assert (Hclean : Str.lower (clean_input user_input) = clean_input user_input)
    by (unfold clean_input; apply lower_idempotent).
  rewrite Hclean.
  assert (Hany : any_in greetings (clean_input user_input) = true).
  { unfold any_in, greetings. cbn [existsb].
    destruct Hword as [H | [H | H]]; rewrite H;
      rewrite ?orb_true_r; reflexivity. }
  rewrite Hany. reflexivity.
Qed.

Lemma greeting_by_substring_witness :
  get_relevant_museum sample_catalogue no_similarity sample_today 9 (fun text => text)
    "What is the rating of the Chhatrapati Shivaji Museum?" None
  = (Return (Text GREETING), None).
Proof.
  apply greeting_by_substring.
  left. vm_compute. reflexivity.
Defined.

(** *** The rules of the handler, in order *)

(** The handler on a request with the seven booking attributes, rule by
    rule. *)
Lemma book_ticket_by_rules (museum_data : list museum) (scorer : string -> string -> Z)
  (today current_hour : Z) (nm mn : string) (a k : Z) (tt ds slot : string)
  (fs : ledger_file) :
  book_ticket museum_data scorer today current_hour
    (booking_request nm mn a k tt ds slot) fs
  = rules_in_order museum_data scorer today nm mn a k tt ds slot fs.
Proof.
  unfold book_ticket, rules_in_order, booking_request, bind, getattr, lift, ret,
    raise, dict_has, PAST_DATE, TOO_FAR.
  cbn [museum_name ticket_type booking_date time_slot adults kids name].
  destruct (find_best_museum museum_data scorer mn) as [[m |] | e];
    [| reflexivity | reflexivity].
  destruct (dict_get (Str.lower tt) TICKET_TYPE) as [delta |];
    [| reflexivity].
  cbn [negb].
  destruct (Datetime.add_days today 60) as [mx |]; [| reflexivity].
  destruct (Datetime.strptime ds) as [d |]; [| reflexivity].
  destruct (d <? today); [reflexivity |].
  destruct (mx <? d); [reflexivity |].
  rewrite check_capacity_cases.
  destruct (decodable fs) eqn:Hdec; [| reflexivity].
  change (MAX_VISITORS_PER_DAY <=? 0) with false. cbv iota.
  rewrite available_slots_of_text.
  destruct (mem (normalize_time_slot slot) (List.map normalize_time_slot TIME_SLOTS));
    [| reflexivity].
  cbn [negb].
  destruct (total_price a k (price m + delta)) as [total | e]; [| reflexivity].
  rewrite save_booking_cases, Hdec, json_dump_booking.
  destruct (printable _); reflexivity.
Qed.

(** For a request with the seven booking attributes, ASCII texts for the
    museum, the tier, the date and the slot, and a catalogue of ASCII
    titles, [book_ticket] is [rules_in_order]: the first rule that fails
    gives its reason and leaves the ledger as it was; the capacity rule
    rejects nothing, the slot is looked up among all the slots of the day,
    a price beyond the range of [float] is an [OverflowError], and a record
    whose numbers cannot be printed leaves the beginning of its text in the
    ledger file. *)
Theorem book_ticket_rules (museum_data : list museum) (scorer : string -> string -> Z)
  (today current_hour : Z) (nm mn : string) (a k : Z) (tt ds slot : string)
  (fs : ledger_file) :
  ascii_titles museum_data = true ->
  Str.isascii mn = true ->
  Str.isascii tt = true ->
  Str.isascii ds = true ->
  Str.isascii slot = true ->
  book_ticket museum_data scorer today current_hour
    (booking_request nm mn a k tt ds slot) fs
  = rules_in_order museum_data scorer today nm mn a k tt ds slot fs.
Proof.
  intros _ _ _ _ _. apply book_ticket_by_rules.
Qed.

Lemma book_ticket_rules_witness :
  book_ticket free_catalogue no_similarity sample_today 9
    (booking_request "Dev" "City Gallery" (10 ^ 4300) 0 "standard" "2025-01-15"
       "12:00 PM")
    (Some (ledger_text [group_booking]))
  = rules_in_order free_catalogue no_similarity sample_today "Dev" "City Gallery"
      (10 ^ 4300) 0 "standard" "2025-01-15" "12:00 PM"
      (Some (ledger_text [group_booking])).
Proof.
  apply (book_ticket_rules free_catalogue no_similarity sample_today 9 "Dev"
           "City Gallery" (10 ^ 4300) 0 "standard" "2025-01-15" "12:00 PM"
           (Some (ledger_text [group_booking]))); reflexivity.
Defined.

(** *** What the ledger functions do to every file *)

(** [check_capacity] counts nothing: for every museum and date it returns 0
    when the ledger file is missing or holds UTF-8 text, whatever the text,
    and raises [UnicodeDecodeError] when the bytes of the file are not
    UTF-8; the file is left as it is. *)
Theorem check_capacity_counts_nothing (museum_name date : string) (fs : ledger_file) :
  check_capacity museum_name date fs
  = (if decodable fs then Return 0 else Raise UnicodeDecodeError, fs).
Proof. apply check_capacity_cases. Qed.

(** [save_booking] forgets what the file held.  A file that is not UTF-8
    text is left alone and [UnicodeDecodeError] is raised; otherwise the
    file is rewritten with a ledger of the new record alone, or, when a
    number of the record has more than 4300 digits, with the text up to
    that number, and [ValueError] is raised. *)
Theorem save_booking_keeps_new_record_only (b : booking) (fs : ledger_file) :
  save_booking b fs
  = if decodable fs
    then if printable b
         then (Return tt, Some (ledger_text [b]))
         else (Raise (ValueError DIGITS_LIMIT), Some (broken_ledger_text b))
    else (Raise UnicodeDecodeError, fs).
Proof.
  rewrite save_booking_cases, json_dump_booking. reflexivity.
Qed.

(** Whenever [book_ticket] raises, the ledger file is the one it started
    with, but for one exception: the [ValueError] of a record whose numbers
    cannot be printed, which leaves the beginning of the text of that record
    in the file. *)
Theorem book_ticket_errors_keep_ledger (museum_data : list museum)
  (scorer : string -> string -> Z) (today current_hour : Z) (rq : request)
  (fs fs' : ledger_file) (e : exn) :
  book_ticket museum_data scorer today current_hour rq fs = (Raise e, fs') ->
  fs' = fs
  \/ exists b,
       e = ValueError DIGITS_LIMIT /\ printable b = false
       /\ fs' = Some (broken_ledger_text b).
Proof. apply book_ticket_raise_cases. Qed.

Lemma book_ticket_errors_keep_ledger_witness :
  snd (book_ticket free_catalogue no_similarity sample_today 9
         unprintable_party_request (Some (ledger_text [group_booking])))
  = Some (ledger_text [group_booking])
  \/ exists b,
       ValueError DIGITS_LIMIT = ValueError DIGITS_LIMIT /\ printable b = false
       /\ snd (book_ticket free_catalogue no_similarity sample_today 9
                 unprintable_party_request (Some (ledger_text [group_booking])))
          = Some (broken_ledger_text b).
Proof.
  apply (book_ticket_errors_keep_ledger free_catalogue no_similarity sample_today 9
           unprintable_party_request (Some (ledger_text [group_booking]))).
  vm_compute. reflexivity.
Defined.

(** No body of [POST /book_ticket] is confirmed: the endpoint ends in the
    validation error or in the [AttributeError] of [museum_name]. *)
Theorem endpoint_never_confirms (museum_data : list museum)
  (scorer : string -> string -> Z) (today current_hour : Z) (body : request)
  (fs : ledger_file) (c : confirmation) (fs' : ledger_file) :
  post_book_ticket museum_data scorer today current_hour body fs <> (Return c, fs').
Proof.
  destruct (post_book_ticket_never_confirms museum_data scorer today current_hour body fs)
    as [-> | ->]; discriminate.
Qed.


(* ===================================================================== *)
(** * Further properties of the handlers *)
(* ===================================================================== *)

(** ** Characters and case *)

Ltac by_cases_on_char c := destruct c as [[] [] [] [] [] [] [] []]; reflexivity.

Lemma isspace_lower_char (c : ascii) : Str.isspace (Str.lower_char c) = Str.isspace c.
Proof. by_cases_on_char c. Qed.

Lemma isspace_upper_char (c : ascii) : Str.isspace (Str.upper_char c) = Str.isspace c.
Proof. by_cases_on_char c. Qed.

Lemma isword_lower_char (c : ascii) : Str.isword (Str.lower_char c) = Str.isword c.
Proof. by_cases_on_char c. Qed.

Lemma upper_lower_char (c : ascii) : Str.upper_char (Str.lower_char c) = Str.upper_char c.
Proof. by_cases_on_char c. Qed.

Lemma upper_upper_char (c : ascii) : Str.upper_char (Str.upper_char c) = Str.upper_char c.
Proof. by_cases_on_char c. Qed.

Lemma lower_upper_char (c : ascii) : Str.lower_char (Str.upper_char c) = Str.lower_char c.
Proof. by_cases_on_char c. Qed.

Lemma clean_char_of_lower (c : ascii) :
  Str.isword c || Str.isspace c = true -> is_clean_char (Str.lower_char c) = true.
Proof. destruct c as [[] [] [] [] [] [] [] []]; cbn; intros H; exact H || reflexivity. Qed.

Lemma clean_char_kept (c : ascii) :
  is_clean_char c = true ->
  Str.isword c || Str.isspace c = true /\ Str.lower_char c = c.
Proof.
  destruct c as [[] [] [] [] [] [] [] []]; cbn; intros H;
    (discriminate H || (split; reflexivity)).
Qed.

Lemma map_map (f g : ascii -> ascii) (s : string) :
  Str.map f (Str.map g s) = Str.map (fun c => f (g c)) s.
Proof. induction s as [| c r IH]; cbn; [reflexivity | now rewrite IH]. Qed.

Lemma map_ext (f g : ascii -> ascii) (s : string) :
  (forall c, f c = g c) -> Str.map f s = Str.map g s.
Proof. intros H. induction s as [| c r IH]; cbn; [reflexivity | now rewrite H, IH]. Qed.

(** ** [clean_input] *)

Lemma clean_input_chars (text : string) :
  all_chars is_clean_char (clean_input text) = true.
Proof.
  unfold clean_input, Str.lower.
  induction text as [| c r IH]; [reflexivity |].
  cbn [Str.filter].
  destruct (Str.isword c || Str.isspace c) eqn:Hkeep; [| exact IH].
  cbn [Str.map all_chars]. rewrite IH, (clean_char_of_lower c Hkeep). reflexivity.
Qed.

Lemma clean_input_fixed (s : string) :
  all_chars is_clean_char s = true -> clean_input s = s.
Proof.
  unfold clean_input, Str.lower.
  induction s as [| c r IH]; [reflexivity |].
  cbn [all_chars]. intros [Hc Hr] %andb_prop.
  destruct (clean_char_kept c Hc) as [Hkeep Hlow].
  cbn [Str.filter]. rewrite Hkeep. cbn [Str.map]. now rewrite Hlow, (IH Hr).
Qed.

(** Of an ASCII text [clean_input] leaves lower-case letters, digits,
    underscores and white space only, and cleaning the cleaned text changes
    nothing. *)
Theorem clean_input_normal_form (text : string) :
  Str.isascii text = true ->
  all_chars is_clean_char (clean_input text) = true
  /\ clean_input (clean_input text) = clean_input text.
Proof.
  intros _.
  split; [apply clean_input_chars | apply clean_input_fixed, clean_input_chars].
Qed.

Lemma clean_input_normal_form_witness :
  all_chars is_clean_char (clean_input "Book me a ticket to Dr. Bhau's Museum!") = true
  /\ clean_input (clean_input "Book me a ticket to Dr. Bhau's Museum!")
     = clean_input "Book me a ticket to Dr. Bhau's Museum!".
Proof.
  apply (clean_input_normal_form "Book me a ticket to Dr. Bhau's Museum!").
  reflexivity.
Defined.

(** ** [normalize_time_slot] *)

Section StripAndCase.

Variable f : ascii -> ascii.
Hypothesis f_keeps_space : forall c, Str.isspace (f c) = Str.isspace c.

Lemma lstrip_map (s : string) : Str.lstrip (Str.map f s) = Str.map f (Str.lstrip s).
Proof.
  induction s as [| c r IH]; [reflexivity |].
  cbn [Str.map Str.lstrip]. rewrite f_keeps_space.
  destruct (Str.isspace c); [exact IH | reflexivity].
Qed.

Lemma rstrip_map (s : string) : Str.rstrip (Str.map f s) = Str.map f (Str.rstrip s).
Proof.
  induction s as [| c r IH]; [reflexivity |].
  cbn [Str.map Str.rstrip]. rewrite IH, f_keeps_space.
  destruct (Str.rstrip r); cbn [Str.map]; [destruct (Str.isspace c) |]; reflexivity.
Qed.

Lemma strip_map (s : string) : Str.strip (Str.map f s) = Str.map f (Str.strip s).
Proof. unfold Str.strip. now rewrite lstrip_map, rstrip_map. Qed.

End StripAndCase.

Lemma lstrip_starts_plain (s : string) : starts_plain (Str.lstrip s).
Proof.
  induction s as [| c r IH]; [exact I |].
  cbn [Str.lstrip]. destruct (Str.isspace c) eqn:Hc; [exact IH | exact Hc].
Qed.

Lemma lstrip_of_plain (s : string) : starts_plain s -> Str.lstrip s = s.
Proof. destruct s as [| c r]; cbn; [reflexivity | now intros ->]. Qed.

Lemma rstrip_starts_plain (s : string) : starts_plain s -> starts_plain (Str.rstrip s).
Proof.
  destruct s as [| c r]; cbn; [exact (fun x => x) |].
  intros Hc. destruct (Str.rstrip r); [rewrite Hc |]; exact Hc.
Qed.

Lemma rstrip_cons (c : ascii) (r : string) :
  Str.rstrip (String c r)
  = match Str.rstrip r with
    | EmptyString => if Str.isspace c then EmptyString else String c EmptyString
    | String c' r' => String c (String c' r')
    end.
Proof. reflexivity. Qed.

Lemma rstrip_rstrip (s : string) : Str.rstrip (Str.rstrip s) = Str.rstrip s.
Proof.
  induction s as [| c r IH]; [reflexivity |].
  rewrite rstrip_cons.
  destruct (Str.rstrip r) as [| c' r'] eqn:Hr.
  - destruct (Str.isspace c) eqn:Hc; [reflexivity |].
    rewrite rstrip_cons. cbn [Str.rstrip]. now rewrite Hc.
  - rewrite rstrip_cons, IH. reflexivity.
Qed.

Lemma strip_strip (s : string) : Str.strip (Str.strip s) = Str.strip s.
Proof.
  unfold Str.strip.
  rewrite (lstrip_of_plain (Str.rstrip (Str.lstrip s))).
  - apply rstrip_rstrip.
  - apply rstrip_starts_plain, lstrip_starts_plain.
Qed.

Lemma collapse_spaces_chars (p : ascii -> bool) (in_run : bool) (s : string) :
  p " "%char = true -> all_chars (fun c => p c || Str.isspace c) s = true ->
  all_chars p (Str.collapse_spaces in_run s) = true.
Proof.
  intros Hspace. revert in_run.
  induction s as [| c r IH]; intros in_run; [reflexivity |].
  cbn [all_chars Str.collapse_spaces]. intros [Hc Hr] %andb_prop.
  destruct (Str.isspace c) eqn:Hsp.
  - destruct in_run; cbn [all_chars]; rewrite ?Hspace; now apply IH.
  - cbn [all_chars]. rewrite orb_false_r in Hc. rewrite Hc. now apply IH.
Qed.

Lemma replace_dot_chars (p : ascii -> bool) (skip : nat) (s : string) :
  all_chars p s = true ->
  all_chars (fun c => p c && negb (Str.code c =? 46))
            (Str.replace_from "." EmptyString skip s) = true.
Proof.
  revert skip.
  induction s as [| c r IH]; intros skip; [reflexivity |].
  cbn [all_chars]. intros [Hc Hr] %andb_prop.
  cbn [Str.replace_from]. destruct skip as [| k]; [| now apply IH].
  cbn [String.prefix].
  destruct (ascii_dec "." c) as [<- | Hdot]; cbn [String.length Nat.pred append].
  - assert (Hp : String.prefix EmptyString r = true) by (destruct r; reflexivity).
    rewrite Hp. now apply IH.
  - cbn [all_chars]. rewrite Hc, (IH O Hr).
    assert (Hcode : (Str.code c =? 46) = false).
    { apply Z.eqb_neq. intros Heq. apply Hdot.
      unfold Str.code in Heq.
      assert (HN : N_of_ascii c = 46%N) by lia.
      rewrite <- (ascii_N_embedding c), HN. reflexivity. }
    now rewrite Hcode.
Qed.

Lemma normalize_time_slot_chars (time_slot : string) :
  all_chars is_slot_char (normalize_time_slot time_slot) = true.
Proof.
  unfold normalize_time_slot, Str.replace.
  assert (Hgoal : all_chars (fun c => (negb (Str.islower c)
                                        && (negb (Str.isspace c) || (Str.code c =? 32)))
                                       && negb (Str.code c =? 46))
                    (Str.replace_from "." EmptyString 0
                       (Str.collapse_spaces false (Str.upper (Str.strip time_slot))))
                  = true).
  { apply replace_dot_chars, collapse_spaces_chars; [reflexivity |].
    unfold Str.upper. induction (Str.strip time_slot) as [| c r IH]; [reflexivity |].
    cbn [Str.map all_chars]. rewrite IH, andb_true_r.
    clear. destruct c as [[] [] [] [] [] [] [] []]; reflexivity. }
  revert Hgoal. generalize (Str.replace_from "." EmptyString 0
                       (Str.collapse_spaces false (Str.upper (Str.strip time_slot)))).
  intros s. induction s as [| c r IH]; [reflexivity |].
  cbn [all_chars]. intros [Hc Hr] %andb_prop. rewrite (IH Hr), andb_true_r.
  unfold is_slot_char.
  destruct (negb (Str.islower c)), (negb (Str.code c =? 46)),
    (negb (Str.isspace c) || (Str.code c =? 32)); cbn in *; congruence.
Qed.

(** On an ASCII text [normalize_time_slot] does not see the case of the
    letters nor the white space around the text, and what it returns has no
    lower-case letter, no dot and no white space other than the space. *)
Theorem normalize_time_slot_insensitive (time_slot : string) :
  Str.isascii time_slot = true ->
  normalize_time_slot (Str.lower time_slot) = normalize_time_slot time_slot
  /\ normalize_time_slot (Str.upper time_slot) = normalize_time_slot time_slot
  /\ normalize_time_slot (Str.strip time_slot) = normalize_time_slot time_slot
  /\ all_chars is_slot_char (normalize_time_slot time_slot) = true.
Proof.
  intros _. unfold normalize_time_slot.
  split; [| split; [| split]].
  - unfold Str.lower. rewrite (strip_map _ isspace_lower_char).
    unfold Str.upper. rewrite map_map.
    now rewrite (map_ext _ Str.upper_char _ upper_lower_char).
  - unfold Str.upper. rewrite (strip_map _ isspace_upper_char), map_map.
    now rewrite (map_ext _ Str.upper_char _ upper_upper_char).
  - now rewrite strip_strip.
  - apply normalize_time_slot_chars.
Qed.

Lemma normalize_time_slot_insensitive_witness :
  normalize_time_slot (Str.lower "  10:00  a.m. ") = normalize_time_slot "  10:00  a.m. "
  /\ normalize_time_slot (Str.upper "  10:00  a.m. ")
     = normalize_time_slot "  10:00  a.m. "
  /\ normalize_time_slot (Str.strip "  10:00  a.m. ")
     = normalize_time_slot "  10:00  a.m. "
  /\ all_chars is_slot_char (normalize_time_slot "  10:00  a.m. ") = true.
Proof.
  apply (normalize_time_slot_insensitive "  10:00  a.m. "). reflexivity.
Defined.

(** ** [get_available_time_slots] on a date *)

Lemma slots_of_today (today current_hour : Z) :
  get_available_time_slots today current_hour (ADate today)
  = List.filter (fun slot => current_hour <? slot_hour slot) TIME_SLOTS.
Proof.
  unfold get_available_time_slots, py_eq. now rewrite Z.eqb_refl.
Qed.

Lemma slots_of_today_by_hour (today h : Z) :
  get_available_time_slots today h (ADate today)
  = ((if h <? 10 then ["10:00 AM"] else [])
     ++ (if h <? 11 then ["11:00 AM"] else [])
     ++ (if h <? 12 then ["12:00 PM"] else [])
     ++ (if h <? 1 then ["1:00 PM"] else [])
     ++ (if h <? 2 then ["2:00 PM"] else [])
     ++ (if h <? 3 then ["3:00 PM"] else [])
     ++ (if h <? 4 then ["4:00 PM"] else [])
     ++ (if h <? 5 then ["5:00 PM"] else []))%list.
Proof.
  rewrite slots_of_today. unfold TIME_SLOTS. cbn [List.filter].
  change (slot_hour "10:00 AM") with 10. change (slot_hour "11:00 AM") with 11.
  change (slot_hour "12:00 PM") with 12. change (slot_hour "1:00 PM") with 1.
  change (slot_hour "2:00 PM") with 2. change (slot_hour "3:00 PM") with 3.
  change (slot_hour "4:00 PM") with 4. change (slot_hour "5:00 PM") with 5.
  destruct (h <? 10), (h <? 11), (h <? 12), (h <? 1), (h <? 2), (h <? 3),
    (h <? 4), (h <? 5); reflexivity.
Qed.

(** Given the date of today, [get_available_time_slots] compares the hour
    written in a slot with the hour of the day on the 24-hour clock: from
    noon on no slot is left, from five in the morning on no afternoon slot
    is left, and only before one in the morning are all the slots of the day
    offered.  For any other date all the slots are offered. *)
Theorem slots_left_by_hour (today current_hour : Z) :
  (12 <= current_hour ->
   get_available_time_slots today current_hour (ADate today) = [])
  /\ (5 <= current_hour ->
      forall slot,
        In slot (get_available_time_slots today current_hour (ADate today)) ->
        In slot ["10:00 AM"; "11:00 AM"; "12:00 PM"])
  /\ (get_available_time_slots today current_hour (ADate today) = TIME_SLOTS
      <-> current_hour < 1)
  /\ (forall date, date <> today ->
      get_available_time_slots today current_hour (ADate date) = TIME_SLOTS).
Proof.
  rewrite slots_of_today_by_hour.
  split; [| split; [| split]].
  - intros Hh.
    repeat match goal with
           | |- context [?a <? ?b] => destruct (Z.ltb_spec a b); [lia |]
           end.
    reflexivity.
  - intros Hh slot.
    repeat match goal with
           | |- context [current_hour <? ?b] => destruct (Z.ltb_spec current_hour b)
           end; try lia; cbn; intuition.
  - split.
    + repeat match goal with
             | |- context [current_hour <? ?b] => destruct (Z.ltb_spec current_hour b)
             end; try lia; cbn; discriminate.
    + intros Hh.
      repeat match goal with
             | |- context [?a <? ?b] => destruct (Z.ltb_spec a b); [| lia]
             end.
      reflexivity.
  - intros date Hdate. unfold get_available_time_slots, py_eq.
    destruct (Z.eqb_spec date today); [contradiction | reflexivity].
Qed.

(** ** The visitor sum of [check_capacity] *)

Lemma fold_add_from (l : list Z) (acc : Z) :
  fold_left Z.add l acc = acc + fold_left Z.add l 0.
Proof.
  revert acc. induction l as [| x l IH]; intros acc; cbn; [lia |].
  rewrite (IH (acc + x)), (IH x). lia.
Qed.

Lemma lower_of_lower (s : string) : Str.lower (Str.lower s) = Str.lower s.
Proof.
  unfold Str.lower. rewrite map_map. apply map_ext, lower_char_idempotent.
Qed.

Lemma lower_of_upper (s : string) : Str.lower (Str.upper s) = Str.lower s.
Proof.
  unfold Str.lower, Str.upper. rewrite map_map. apply map_ext, lower_upper_char.
Qed.

(** For ASCII museum names, the sum of [check_capacity] adds up over the
    parts of a ledger, does not see the case of the museum name it is asked
    for, and counts nothing of a ledger without an entry for the museum and
    the date text. *)
Theorem visitor_sum_by_museum_and_date (bookings more : list booking)
  (museum_name date : string) :
  Str.isascii museum_name = true ->
  ascii_museums (bookings ++ more) = true ->
  visitor_sum (bookings ++ more) museum_name date
  = visitor_sum bookings museum_name date + visitor_sum more museum_name date
  /\ visitor_sum bookings (Str.lower museum_name) date
     = visitor_sum bookings museum_name date
  /\ visitor_sum bookings (Str.upper museum_name) date
     = visitor_sum bookings museum_name date
  /\ ((forall b, In b bookings ->
         Str.lower (Museum b) <> Str.lower museum_name \/ Date b <> date) ->
      visitor_sum bookings museum_name date = 0).
Proof.
  intros _ _. unfold visitor_sum.
  split; [| split; [| split]].
  - rewrite filter_app, List.map_app, fold_left_app.
    apply fold_add_from.
  - now rewrite lower_of_lower.
  - now rewrite lower_of_upper.
  - intros Hnone.
    induction bookings as [| b rest IH]; [reflexivity |].
    cbn [List.filter].
    destruct (Hnone b (or_introl eq_refl)) as [Hm | Hd].
    + apply String.eqb_neq in Hm. rewrite Hm. cbn [andb].
      apply IH. intros b' Hb'. apply Hnone. now right.
    + apply String.eqb_neq in Hd. rewrite Hd, andb_false_r.
      apply IH. intros b' Hb'. apply Hnone. now right.
Qed.

Lemma visitor_sum_by_museum_and_date_witness :
  visitor_sum ([morning_booking] ++ [afternoon_booking]) "National Museum" "2025-01-15"
  = visitor_sum [morning_booking] "National Museum" "2025-01-15"
    + visitor_sum [afternoon_booking] "National Museum" "2025-01-15"
  /\ visitor_sum [morning_booking] (Str.lower "National Museum") "2025-01-15"
     = visitor_sum [morning_booking] "National Museum" "2025-01-15"
  /\ visitor_sum [morning_booking] (Str.upper "National Museum") "2025-01-15"
     = visitor_sum [morning_booking] "National Museum" "2025-01-15"
  /\ ((forall b, In b [morning_booking] ->
         Str.lower (Museum b) <> Str.lower "National Museum" \/ Date b <> "2025-01-15") ->
      visitor_sum [morning_booking] "National Museum" "2025-01-15" = 0).
Proof.
  apply (visitor_sum_by_museum_and_date [morning_booking] [afternoon_booking]
           "National Museum" "2025-01-15"); reflexivity.
Defined.

(** ** The dictionary of titles *)

Lemma dict_get_set {V} (key key' : string) (v : V) (d : list (string * V)) :
  dict_get key (dict_set key' v d)
  = if String.eqb key' key then Some v else dict_get key d.
Proof.
  induction d as [| [a b] r IH]; cbn; [reflexivity |].
  destruct (String.eqb_spec a key') as [-> | Ha]; cbn.
  - destruct (String.eqb key' key); reflexivity.
  - rewrite IH.
    destruct (String.eqb_spec a key) as [-> | Hak]; [| reflexivity].
    destruct (String.eqb_spec key' key) as [-> | _]; [contradiction | reflexivity].
Qed.

Lemma museum_titles_snoc (museum_data : list museum) (m : museum) :
  museum_titles (museum_data ++ [m])
  = dict_set (Str.lower (title m)) m (museum_titles museum_data).
Proof. unfold museum_titles. now rewrite fold_left_app. Qed.

Lemma museum_titles_lookup (museum_data : list museum) (key : string) :
  dict_get key (museum_titles museum_data)
  = List.find (fun m => String.eqb (Str.lower (title m)) key) (rev museum_data).
Proof.
  induction museum_data as [| m rest IH] using rev_ind; [reflexivity |].
  rewrite museum_titles_snoc, dict_get_set, rev_app_distr. cbn [rev app List.find].
  now rewrite IH.
Qed.

(** Looking a key up in [museum_titles] gives the last museum of the
    catalogue whose lower-case title is the key: of two museums whose titles
    differ in case only, the later one is the one found, and a title of the
    catalogue is always a key. *)
Theorem museum_titles_last_wins (museum_data : list museum) (key : string) :
  dict_get key (museum_titles museum_data)
  = List.find (fun m => String.eqb (Str.lower (title m)) key) (rev museum_data)
  /\ (forall m, In m museum_data ->
        exists m', dict_get (Str.lower (title m)) (museum_titles museum_data) = Some m'
                   /\ Str.lower (title m') = Str.lower (title m)).
Proof.
  split; [apply museum_titles_lookup |].
  intros m Hm. rewrite museum_titles_lookup.
  destruct (List.find (fun m0 => String.eqb (Str.lower (title m0)) (Str.lower (title m)))
              (rev museum_data)) as [m' |] eqn:Hfind.
  - exists m'. split; [reflexivity |].
    apply find_some in Hfind. now apply String.eqb_eq.
  - apply in_rev in Hm. pose proof (find_none _ _ Hfind m Hm) as Hne.
    cbn in Hne. rewrite String.eqb_refl in Hne. discriminate.
Qed.

(** ** What [find_best_museum] can return *)

Lemma museum_titles_values (museum_data : list museum) (key : string) (m : museum) :
  dict_get key (museum_titles museum_data) = Some m -> In m museum_data.
Proof.
  rewrite museum_titles_lookup. intros Hfind.
  apply find_some in Hfind. apply in_rev. exact (proj1 Hfind).
Qed.

Lemma find_best_museum_sources (museum_data : list museum)
  (scorer : string -> string -> Z) (user_input : string) (m : museum) :
  find_best_museum museum_data scorer user_input = Return (Some m) ->
  dict_get (booking_query user_input) (museum_titles museum_data) = Some m
  \/ (dict_get (booking_query user_input) (museum_titles museum_data) = None
      /\ exists score,
           extractOne scorer (booking_query user_input)
             (dict_keys (museum_titles museum_data))
           = Some (Str.lower (title m), score)
           /\ dict_get (Str.lower (title m)) (museum_titles museum_data) = Some m).
Proof.
  unfold find_best_museum. fold (booking_query user_input).
  destruct (dict_get (booking_query user_input) (museum_titles museum_data))
    as [m0 |] eqn:Hexact.
  - intros [= ->]. now left.
  - intros Hfind. right. split; [reflexivity |]. revert Hfind.
    destruct (museum_titles museum_data) as [| kv d] eqn:Htitles; [discriminate |].
    rewrite <- Htitles.
    destruct (extractOne scorer (booking_query user_input)
                (dict_keys (museum_titles museum_data)))
      as [[best score] |] eqn:Hbest; [| discriminate].
    destruct (Str.truthy best); [| discriminate].
    rewrite Htitles.
    destruct (dict_get best (kv :: d)) as [m1 |] eqn:Hget; [| discriminate].
    intros [= ->]. rewrite <- Htitles in Hget.
    assert (Hkey : Str.lower (title m) = best)
      by exact (museum_titles_get museum_data _ _ Hget).
    rewrite Hkey. exists score. split; [reflexivity |].
    now rewrite <- Htitles.
Qed.

(** The museum [find_best_museum] returns is one of the catalogue, by exact
    match or as the choice of [extractOne]: its lower-case title is then the
    choice of the highest score, and no title of the catalogue scores
    higher. *)
Theorem find_best_museum_in_catalogue (museum_data : list museum)
  (scorer : string -> string -> Z) (user_input : string) (m : museum) :
  find_best_museum museum_data scorer user_input = Return (Some m) ->
  In m museum_data
  /\ (Str.lower (title m) = booking_query user_input
      \/ forall m', In m' museum_data ->
           scorer (booking_query user_input) (Str.lower (title m'))
           <= scorer (booking_query user_input) (Str.lower (title m))).
Proof.
  intros Hfind.
  destruct (find_best_museum_sources _ _ _ _ Hfind)
    as [Hexact | (Hnone & score & Hbest & Hget)].
  - split; [exact (museum_titles_values _ _ _ Hexact) |].
    left. exact (museum_titles_get _ _ _ Hexact).
  - split; [exact (museum_titles_values _ _ _ Hget) |].
    right. intros m' Hm'.
    pose proof (extractOne_best scorer (booking_query user_input)
                  (dict_keys (museum_titles museum_data))) as Hinv.
    rewrite Hbest in Hinv. destruct Hinv as (_ & -> & _ & Hmax).
    apply Hmax.
    (* the title of [m'] is a key of the dictionary *)
    assert (Hkey : exists m'', dict_get (Str.lower (title m')) (museum_titles museum_data)
                               = Some m'').
    { rewrite museum_titles_lookup.
      destruct (List.find _ (rev museum_data)) as [m'' |] eqn:Hf; [now exists m'' |].
      exfalso. apply in_rev in Hm'.
      pose proof (find_none _ _ Hf m' Hm') as Hne. cbn in Hne.
      rewrite String.eqb_refl in Hne. discriminate. }
    destruct Hkey as [m'' Hm''].
    apply dict_get_in in Hm''.
    unfold dict_keys. apply in_map_iff. now exists (Str.lower (title m'), m'').
Qed.

Lemma find_best_museum_in_catalogue_witness :
  In national_museum [dr_museum; national_museum]
  /\ (Str.lower (title national_museum) = booking_query "National Museum"
      \/ forall m', In m' [dr_museum; national_museum] ->
           no_similarity (booking_query "National Museum") (Str.lower (title m'))
           <= no_similarity (booking_query "National Museum")
                (Str.lower (title national_museum))).
Proof.
  apply (find_best_museum_in_catalogue [dr_museum; national_museum] no_similarity
           "National Museum" national_museum).
  vm_compute. reflexivity.
Defined.

(** *** Titles with punctuation *)

Lemma all_chars_weaken (p q : ascii -> bool) (s : string) :
  (forall c, p c = true -> q c = true) ->
  all_chars p s = true -> all_chars q s = true.
Proof.
  intros Hpq. induction s as [| c r IH]; [reflexivity |].
  cbn [all_chars]. intros [Hc Hr] %andb_prop. now rewrite (Hpq c Hc), IH.
Qed.

Lemma all_chars_lstrip (p : ascii -> bool) (s : string) :
  all_chars p s = true -> all_chars p (Str.lstrip s) = true.
Proof.
  induction s as [| c r IH]; [reflexivity |].
  cbn [Str.lstrip]. destruct (Str.isspace c); [| exact (fun H => H)].
  cbn [all_chars]. intros [_ Hr] %andb_prop. now apply IH.
Qed.

Lemma all_chars_rstrip (p : ascii -> bool) (s : string) :
  all_chars p s = true -> all_chars p (Str.rstrip s) = true.
Proof.
  induction s as [| c r IH]; [reflexivity |].
  cbn [all_chars]. intros [Hc Hr] %andb_prop.
  rewrite rstrip_cons. specialize (IH Hr).
  destruct (Str.rstrip r) as [| c' r'].
  - destruct (Str.isspace c); cbn [all_chars]; [reflexivity | now rewrite Hc].
  - cbn [all_chars] in *. now rewrite Hc, IH.
Qed.

Lemma all_chars_removed (p : ascii -> bool) (old : string) (skip : nat) (s : string) :
  all_chars p s = true ->
  all_chars p (Str.replace_from old EmptyString skip s) = true.
Proof.
  revert skip. induction s as [| c r IH]; intros skip; [reflexivity |].
  cbn [all_chars]. intros [Hc Hr] %andb_prop.
  cbn [Str.replace_from]. destruct skip as [| k]; [| now apply IH].
  destruct (String.prefix old (String c r)); cbn [append all_chars].
  - now apply IH.
  - now rewrite Hc, IH.
Qed.

Lemma booking_query_chars (user_input : string) :
  all_chars is_clean_char (booking_query user_input) = true.
Proof.
  unfold booking_query, Str.strip, Str.replace.
  apply all_chars_rstrip, all_chars_lstrip, all_chars_removed, clean_input_chars.
Qed.

Lemma plain_before_lower (s : string) :
  all_chars is_clean_char (Str.lower s) = true ->
  all_chars (fun c => Str.isword c || Str.isspace c) s = true.
Proof.
  unfold Str.lower. induction s as [| c r IH]; [reflexivity |].
  cbn [Str.map all_chars]. intros [Hc Hr] %andb_prop. rewrite (IH Hr), andb_true_r.
  revert Hc. clear. destruct c as [[] [] [] [] [] [] [] []]; cbn; intros H; exact H.
Qed.

(** With ASCII titles and an ASCII text of the user, a title with a
    character that is no letter, digit, underscore or white space is never
    matched exactly, whatever the user types: the text that is looked up has
    lost its punctuation, the keys have not.  Such a museum is returned only
    as the choice of [extractOne]. *)
Theorem punctuated_title_has_no_exact_match (museum_data : list museum)
  (scorer : string -> string -> Z) (user_input : string) (m : museum) :
  ascii_titles museum_data = true ->
  Str.isascii (title m) = true ->
  Str.isascii user_input = true ->
  all_chars (fun c => Str.isword c || Str.isspace c) (title m) = false ->
  dict_get (booking_query user_input) (museum_titles museum_data) <> Some m
  /\ (find_best_museum museum_data scorer user_input = Return (Some m) ->
      exists score,
        extractOne scorer (booking_query user_input)
          (dict_keys (museum_titles museum_data))
        = Some (Str.lower (title m), score)).
Proof.
  intros _ _ _ Hpunct.
  assert (Hno : dict_get (booking_query user_input) (museum_titles museum_data)
                <> Some m).
  { intros Hexact.
    pose proof (museum_titles_get _ _ _ Hexact) as Hkey.
    pose proof (booking_query_chars user_input) as Hchars.
    rewrite <- Hkey in Hchars. apply plain_before_lower in Hchars. congruence. }
  split; [exact Hno |].
  intros Hfind.
  destruct (find_best_museum_sources _ _ _ _ Hfind)
    as [Hexact | (_ & score & Hbest & _)]; [contradiction | now exists score].
Qed.

Lemma punctuated_title_has_no_exact_match_witness :
  dict_get (booking_query "Dr. Bhau Daji Lad Museum")
    (museum_titles [dr_museum; national_museum]) <> Some dr_museum
  /\ (find_best_museum [dr_museum; national_museum] no_similarity
        "Dr. Bhau Daji Lad Museum" = Return (Some dr_museum) ->
      exists score,
        extractOne no_similarity (booking_query "Dr. Bhau Daji Lad Museum")
          (dict_keys (museum_titles [dr_museum; national_museum]))
        = Some (Str.lower (title dr_museum), score)).
Proof.
  apply (punctuated_title_has_no_exact_match [dr_museum; national_museum]
           no_similarity "Dr. Bhau Daji Lad Museum" dr_museum);
    vm_compute; reflexivity.
Defined.

(** *** The unknown museum *)

Lemma truthy_lower (s : string) : Str.truthy (Str.lower s) = Str.truthy s.
Proof. destruct s; reflexivity. Qed.

(** With a catalogue that has a museum, titles that are not empty and
    scores that are never negative, [find_best_museum] finds a museum of the
    catalogue for every text, and [book_ticket] never answers that the
    museum is unknown. *)
Theorem unknown_museum_is_unreachable (museum_data : list museum)
  (scorer : string -> string -> Z) (today current_hour : Z) (rq : request)
  (fs : ledger_file) (mn : string) :
  museum_data <> [] ->
  (forall m, In m museum_data -> title m <> EmptyString) ->
  (forall q c, 0 <= scorer q c) ->
  museum_name rq = Some mn ->
  (exists m, find_best_museum museum_data scorer mn = Return (Some m) /\ In m museum_data)
  /\ forall detail fs',
       book_ticket museum_data scorer today current_hour rq fs
       <> (Raise (HTTPException 404 detail), fs').
Proof.
  intros Hdata Htitles Hscores Hmn.
  assert (Hfound : exists m, find_best_museum museum_data scorer mn = Return (Some m)).
  { destruct (dict_get (booking_query mn) (museum_titles museum_data)) as [m |] eqn:Hexact.
    - exists m. unfold find_best_museum. fold (booking_query mn). now rewrite Hexact.
    - destruct museum_data as [| m0 rest]; [contradiction |].
      destruct (extractOne_some scorer (booking_query mn)
                  (dict_keys (museum_titles (m0 :: rest))) Hscores)
        as (best & score & Hbest).
      { pose proof (museum_titles_nonempty m0 rest) as Hne.
        destruct (museum_titles (m0 :: rest)); [contradiction | discriminate]. }
      destruct (find_best_museum_fuzzy _ _ _ _ _ Hexact Hbest) as [Hyes _].
      pose proof (extractOne_best scorer (booking_query mn)
                    (dict_keys (museum_titles (m0 :: rest)))) as Hinv.
      rewrite Hbest in Hinv. destruct Hinv as (Hin & _).
      destruct (dict_get_of_key _ _ Hin) as [m Hm].
      pose proof (museum_titles_get _ _ _ Hm) as Hkey.
      pose proof (museum_titles_values _ _ _ Hm) as Hmem.
      assert (Htruthy : Str.truthy best = true).
      { rewrite <- Hkey, truthy_lower.
        specialize (Htitles m Hmem). destruct (title m); [contradiction | reflexivity]. }
      destruct (Hyes Htruthy) as (m1 & Hm1 & _). now exists m1. }
  destruct Hfound as [m Hfind].
  split.
  - exists m. split; [exact Hfind |].
    destruct (find_best_museum_sources _ _ _ _ Hfind) as [H | (_ & _ & _ & H)];
      exact (museum_titles_values _ _ _ H).
  - intros detail fs' Hraise.
    destruct (book_ticket_raise_cases _ _ _ _ _ _ _ _ Hraise)
      as [-> | (b & Hvalue & _)]; [| discriminate].
    assert (Hnone : find_best_museum museum_data scorer mn = Return None).
    { apply (unknown_museum_iff museum_data scorer today current_hour rq fs mn Hmn).
      now exists detail. }
    congruence.
Qed.

Lemma unknown_museum_is_unreachable_witness :
  (exists m, find_best_museum sample_catalogue no_similarity "Louvre" = Return (Some m)
             /\ In m sample_catalogue)
  /\ forall detail fs',
       book_ticket sample_catalogue no_similarity sample_today 9 louvre_request None
       <> (Raise (HTTPException 404 detail), fs').
Proof.
  apply (unknown_museum_is_unreachable sample_catalogue no_similarity sample_today 9
           louvre_request None "Louvre").
  - discriminate.
  - intros m [<- | []]. discriminate.
  - intros q c. unfold no_similarity. lia.
  - reflexivity.
Defined.

(** With an empty catalogue every request that names a museum is answered
    with the unknown museum, whatever the other fields and the ledger. *)
Theorem empty_catalogue_knows_no_museum (scorer : string -> string -> Z)
  (today current_hour : Z) (nm mn : string) (a k : Z) (tt ds slot : string)
  (fs : ledger_file) :
  book_ticket [] scorer today current_hour (booking_request nm mn a k tt ds slot) fs
  = (Raise (HTTPException 404 ("Sorry, museum '" ++ mn ++ "' not found.")), fs).
Proof.
  unfold book_ticket, booking_request, bind, getattr, lift, ret, raise.
  cbn [museum_name]. reflexivity.
Qed.

(** ** The chat *)

Section Chat.

Variable museum_data : list museum.
Variable scorer : string -> string -> Z.
Variable today : Z.
Variable current_hour : Z.
Variable ollama_chat : string -> string.

(** A [str] has none of the attributes [book_ticket] reads. *)
Lemma book_ticket_of_str (fs : ledger_file) :
  book_ticket museum_data scorer today current_hour str_object fs
  = (Raise (AttributeError "museum_name"), fs).
Proof. reflexivity. Qed.

Ltac chat_cases :=
  repeat match goal with
         | |- context [if ?b then _ else _] => destruct b
         | |- context [match ?x with _ => _ end] => destruct x
         end.

Lemma get_relevant_museum_keeps_ledger (user_input : string) (fs : ledger_file) :
  snd (get_relevant_museum museum_data scorer today current_hour ollama_chat
         user_input fs) = fs.
Proof.
  unfold get_relevant_museum.
  chat_cases; unfold bind, ret, raise; rewrite ?book_ticket_of_str; reflexivity.
Qed.


(** The chat endpoint never changes the ledger file and never returns a
    confirmation, whatever the body: its booking intent hands the text
    itself to [book_ticket], which raises on its first attribute. *)
Theorem chat_never_books (body : request) (fs : ledger_file) :
  snd (chat museum_data scorer today current_hour ollama_chat body fs) = fs
  /\ forall c,
       fst (chat museum_data scorer today current_hour ollama_chat body fs)
       <> Return (Booked c).
Proof.
  unfold chat, ChatRequest.
  destruct (message body) as [text |]; [| split; [reflexivity | discriminate]].
  split; [apply get_relevant_museum_keeps_ledger |].
  intros c. unfold get_relevant_museum.
  chat_cases; unfold bind, ret, raise; rewrite ?book_ticket_of_str; discriminate.
Qed.

Lemma clean_input_lower (user_input : string) :
  Str.lower (clean_input user_input) = clean_input user_input.
Proof. unfold clean_input. apply lower_of_lower. Qed.

(** A text without a greeting or thanks word that says "book" or "reserve"
    is never booked: with the title of a museum of the catalogue in it the
    chat raises the [AttributeError] of [book_ticket], without one it asks
    for the museum name. *)
Theorem chat_booking_intent (user_input : string) (fs : ledger_file) :
  any_in greetings (clean_input user_input) = false ->
  any_in ["thank"; "thanks"; "appreciate"; "grateful"] (clean_input user_input) = false ->
  any_in ["book"; "reserve"] (clean_input user_input) = true ->
  get_relevant_museum museum_data scorer today current_hour ollama_chat user_input fs
  = if existsb (fun m => Str.contains (Str.lower (title m)) (clean_input user_input))
              museum_data
    then (Raise (AttributeError "museum_name"), fs)
    else (Return (Text "Please specify the museum name for booking."), fs).
Proof.
  intros Hgreet Hthanks Hbook.
  unfold get_relevant_museum. rewrite clean_input_lower, Hgreet.
  unfold any_in in Hthanks, Hbook. cbn [existsb] in Hthanks, Hbook.
  repeat match goal with
         | H : context [Str.contains ?w ?t] |- _ => destruct (Str.contains w t)
         end;
    cbn [orb] in *; try discriminate;
    (destruct (existsb _ museum_data); [| reflexivity]);
    unfold bind; now rewrite book_ticket_of_str.
Qed.

(** With an empty catalogue, a text that triggers none of the greeting,
    thanks, booking and ticket-tier intents makes the chat raise: the best
    location cannot be unpacked. *)
Theorem chat_needs_a_catalogue (user_input : string) (fs : ledger_file) :
  museum_data = [] ->
  any_in greetings (clean_input user_input) = false ->
  any_in ["thank"; "thanks"; "appreciate"; "grateful"] (clean_input user_input) = false ->
  any_in ["book"; "reserve"] (clean_input user_input) = false ->
  any_in ["elite"; "premium"; "standard"; "luxurious"; "affordable"; "cheap"; "vs"]
    (clean_input user_input) = false ->
  get_relevant_museum museum_data scorer today current_hour ollama_chat user_input fs
  = (Raise (TypeError "cannot unpack None"), fs).
Proof.
  intros -> Hgreet Hthanks Hbook Htier.
  unfold get_relevant_museum. rewrite clean_input_lower, Hgreet, Htier.
  unfold any_in in Hthanks, Hbook. cbn [existsb] in Hthanks, Hbook.
  repeat match goal with
         | H : context [Str.contains ?w ?t] |- _ => destruct (Str.contains w t)
         end;
    cbn [orb] in *; try discriminate; reflexivity.
Qed.

End Chat.

Lemma chat_booking_intent_witness :
  get_relevant_museum sample_catalogue no_similarity sample_today 9 (fun text => text)
    "Please book the National Museum for two" None
  = if existsb (fun m => Str.contains (Str.lower (title m))
                           (clean_input "Please book the National Museum for two"))
              sample_catalogue
    then (Raise (AttributeError "museum_name"), None)
    else (Return (Text "Please specify the museum name for booking."), None).
Proof.
  apply chat_booking_intent; vm_compute; reflexivity.
Defined.

Lemma chat_needs_a_catalogue_witness :
  get_relevant_museum [] no_similarity sample_today 9 (fun text => text)
    "Museums open in Pune today?" None
  = (Raise (TypeError "cannot unpack None"), None).
Proof.
  apply chat_needs_a_catalogue; vm_compute; reflexivity.
Defined.

(** *** Words that hold a greeting *)

Lemma prefix_empty (s : string) : String.prefix EmptyString s = true.
Proof. destruct s; reflexivity. Qed.

Lemma prefix_cons (a b : ascii) (s t : string) :
  String.prefix (String a s) (String b t) = true <-> a = b /\ String.prefix s t = true.
Proof.
  cbn. destruct (ascii_dec a b) as [-> | Hab]; split; intuition congruence.
Qed.

Lemma prefix_trans (a b c : string) :
  String.prefix a b = true -> String.prefix b c = true -> String.prefix a c = true.
Proof.
  revert b c. induction a as [| x a IH]; intros b c; [intros; apply prefix_empty |].
  destruct b as [| y b]; [discriminate |].
  destruct c as [| z c]; [discriminate |].
  rewrite !prefix_cons. intros [-> Hab] [-> Hbc]. split; [reflexivity | eauto].
Qed.

Lemma contains_cases (sub s : string) :
  Str.contains sub s = true <->
  String.prefix sub s = true
  \/ exists c r, s = String c r /\ Str.contains sub r = true.
Proof.
  destruct s as [| c r]; cbn [Str.contains].
  - rewrite orb_false_r. split; [now left | intros [H | (c & r & H & _)]; [exact H | discriminate]].
  - rewrite orb_true_iff. split; intros [H | H]; [now left | right; now exists c, r | now left |].
    destruct H as (c' & r' & [= -> ->] & H). now right.
Qed.

Lemma contains_in_prefix (a b c : string) :
  Str.contains a b = true -> String.prefix b c = true -> Str.contains a c = true.
Proof.
  revert c. induction b as [| y b IH]; intros c Hab Hbc.
  - apply contains_cases in Hab. destruct Hab as [Hp | (c' & r' & H & _)]; [| discriminate].
    destruct a; [| discriminate]. apply contains_cases. left. apply prefix_empty.
  - apply contains_cases in Hab. destruct Hab as [Hp | (c' & r' & [= -> ->] & Hr)].
    + apply contains_cases. left. exact (prefix_trans _ _ _ Hp Hbc).
    + destruct c as [| z c]; [discriminate |].
      apply prefix_cons in Hbc. destruct Hbc as [-> Hbc].
      apply contains_cases. right. exists z, c. split; [reflexivity | eauto].
Qed.

Lemma contains_trans (a b c : string) :
  Str.contains a b = true -> Str.contains b c = true -> Str.contains a c = true.
Proof.
  intros Hab. induction c as [| z c IH]; intros Hbc.
  - apply contains_cases in Hbc. destruct Hbc as [Hp | (c' & r' & H & _)]; [| discriminate].
    exact (contains_in_prefix _ _ _ Hab Hp).
  - apply contains_cases in Hbc. destruct Hbc as [Hp | (c' & r' & [= -> ->] & Hr)].
    + exact (contains_in_prefix _ _ _ Hab Hp).
    + apply contains_cases. right. exists c', r'. split; [reflexivity | auto].
Qed.

Lemma greeting_of_word (museum_data : list museum) (scorer : string -> string -> Z)
  (today current_hour : Z) (ollama_chat : string -> string) (user_input : string)
  (fs : ledger_file) :
  any_in greetings (clean_input user_input) = true ->
  get_relevant_museum museum_data scorer today current_hour ollama_chat user_input fs
  = (Return (Text GREETING), fs).
Proof.
  intros Hany. unfold get_relevant_museum. rewrite clean_input_lower, Hany. reflexivity.
Qed.

(** A word that holds one of the six greetings holds it in every text it
    occurs in: a text with "children", "delhi", "which", "this" or
    "chhatrapati shivaji" in it is answered with the greeting, so that the
    intents that look for such a word are never reached through it. *)
Theorem greeting_hides_words (museum_data : list museum)
  (scorer : string -> string -> Z) (today current_hour : Z)
  (ollama_chat : string -> string) (word user_input : string) (fs : ledger_file) :
  any_in greetings word = true ->
  Str.contains word (clean_input user_input) = true ->
  get_relevant_museum museum_data scorer today current_hour ollama_chat user_input fs
  = (Return (Text GREETING), fs).
Proof.
  intros Hword Hin. apply greeting_of_word.
  unfold any_in in *. apply existsb_exists in Hword.
  destruct Hword as (g & Hg & Hgw).
  apply existsb_exists. exists g. split; [exact Hg |].
  exact (contains_trans _ _ _ Hgw Hin).
Qed.

Lemma greeting_hides_words_witness :
  get_relevant_museum sample_catalogue no_similarity sample_today 9 (fun text => text)
    "Price for children at the National Museum" None
  = (Return (Text GREETING), None).
Proof.
  apply (greeting_hides_words sample_catalogue no_similarity sample_today 9
           (fun text => text) "children"); vm_compute; reflexivity.
Defined.

(** *** The top museums *)

Lemma in_insert_by_rating (m x : museum) (l : list museum) :
  In x (insert_by_rating m l) <-> x = m \/ In x l.
Proof.
  induction l as [| m' rest IH]; cbn; [intuition |].
  destruct (Qle_bool (rating m') (rating m)); cbn; [intuition |].
  rewrite IH. intuition.
Qed.

Lemma insert_by_rating_descends (m : museum) (l : list museum) :
  ratings_descend l -> ratings_descend (insert_by_rating m l).
Proof.
  induction l as [| m' rest IH]; cbn [insert_by_rating ratings_descend].
  - intros _. split; [intros ? [] | exact I].
  - intros [Hhead Hrest].
    destruct (Qle_bool (rating m') (rating m)) eqn:Hle; cbn [ratings_descend].
    + apply Qle_bool_iff in Hle. split; [| split; assumption].
      intros x [<- | Hx]; [exact Hle |].
      exact (Qle_trans _ _ _ (Hhead x Hx) Hle).
    + split; [| now apply IH].
      intros x Hx. apply in_insert_by_rating in Hx. destruct Hx as [-> | Hx]; [| auto].
      destruct (Qlt_le_dec (rating m) (rating m')) as [Hlt | Hge].
      * now apply Qlt_le_weak.
      * apply Qle_bool_iff in Hge. congruence.
Qed.

Lemma sorted_by_rating_descends (ms : list museum) :
  ratings_descend (sorted_by_rating ms).
Proof.
  induction ms as [| m rest IH]; cbn; [exact I |].
  now apply insert_by_rating_descends.
Qed.

Lemma in_sorted_by_rating (x : museum) (ms : list museum) :
  In x (sorted_by_rating ms) <-> In x ms.
Proof.
  induction ms as [| m rest IH]; cbn; [reflexivity |].
  rewrite in_insert_by_rating, IH. intuition.
Qed.

Lemma length_insert_by_rating (m : museum) (l : list museum) :
  List.length (insert_by_rating m l) = S (List.length l).
Proof.
  induction l as [| m' rest IH]; cbn; [reflexivity |].
  destruct (Qle_bool (rating m') (rating m)); cbn; [reflexivity | now rewrite IH].
Qed.

Lemma length_sorted_by_rating (ms : list museum) :
  List.length (sorted_by_rating ms) = List.length ms.
Proof.
  induction ms as [| m rest IH]; [reflexivity |].
  change (sorted_by_rating (m :: rest))
    with (insert_by_rating m (sorted_by_rating rest)).
  now rewrite length_insert_by_rating, IH.
Qed.

Lemma firstn_descends (n : nat) (ms : list museum) :
  ratings_descend ms -> ratings_descend (firstn n ms).
Proof.
  revert ms. induction n as [| n IH]; intros ms; [intros _; exact I |].
  destruct ms as [| m rest]; [exact (fun H => H) |].
  cbn [firstn ratings_descend]. intros [Hhead Hrest]. split; [| now apply IH].
  intros x Hx. apply Hhead. revert Hx. clear.
  revert rest. induction n; intros rest; cbn; [intros [] |].
  destruct rest; cbn; [intros [] | intuition eauto].
Qed.

Lemma int_value (digits : string) (n : Z) :
  Str.int digits = Some n -> n = Str.digits_value 0 digits.
Proof.
  unfold Str.int. destruct (_ && _); congruence.
Qed.

(** Whenever the chat answers with the top museums, the list it gives is the
    first [n] museums of the catalogue sorted by rating, for the number [n]
    written after "top" in the text: museums of the catalogue, the ratings
    never increasing, [n] of them or the whole catalogue if it is smaller. *)
Theorem top_museums_are_the_best_rated (museum_data : list museum)
  (scorer : string -> string -> Z) (today current_hour : Z)
  (ollama_chat : string -> string) (user_input : string) (fs fs' : ledger_file)
  (ms : list museum) :
  get_relevant_museum museum_data scorer today current_hour ollama_chat user_input fs
  = (Return (TopMuseums ms), fs') ->
  exists digits,
    search_top (clean_input user_input) = Some digits
    /\ ms = firstn (Z.to_nat (Str.digits_value 0 digits)) (sorted_by_rating museum_data)
    /\ ratings_descend ms
    /\ (forall m, In m ms -> In m museum_data)
    /\ List.length ms = Nat.min (Z.to_nat (Str.digits_value 0 digits)) (List.length museum_data).
Proof.
  unfold get_relevant_museum. rewrite clean_input_lower.
  remember (search_top (clean_input user_input)) as found eqn:Htop.
  repeat match goal with
         | |- context [match Str.int ?d with _ => _ end] =>
             let H := fresh "Hint" in
             destruct (Str.int d) eqn:H; [apply int_value in H; subst |]
         | |- context [if ?b then _ else _] => destruct b
         | |- context [match ?x with _ => _ end] => destruct x
         end;
    unfold bind, ret, raise; rewrite ?book_ticket_of_str; try discriminate.
  all: intros [= <- _]; eexists; split; [reflexivity |];
    split; [reflexivity |];
    split; [apply firstn_descends, sorted_by_rating_descends |];
    split; [intros m Hm; apply in_sorted_by_rating;
            match type of Hm with
            | In _ (firstn ?n ?l) => rewrite <- (firstn_skipn n l)
            end;
            apply in_or_app; left; exact Hm |];
    now rewrite length_firstn, length_sorted_by_rating.
Qed.

Lemma top_museums_are_the_best_rated_witness :
  exists digits,
    search_top (clean_input "top 1 museums") = Some digits
    /\ [national_museum]
       = firstn (Z.to_nat (Str.digits_value 0 digits))
           (sorted_by_rating [dr_museum; national_museum])
    /\ ratings_descend [national_museum]
    /\ (forall m, In m [national_museum] -> In m [dr_museum; national_museum])
    /\ List.length [national_museum]
       = Nat.min (Z.to_nat (Str.digits_value 0 digits))
           (List.length [dr_museum; national_museum]).
Proof.
  apply (top_museums_are_the_best_rated [dr_museum; national_museum] no_similarity
           sample_today 9 (fun text => text) "top 1 museums" None None).
  vm_compute. reflexivity.
Defined.

(** ** Requests served in a row *)

(** After any sequence of calls of [book_ticket] of which none has ended
    in a [ValueError], the ledger file is the one the sequence started with
    when no call was confirmed, and otherwise holds the booking of the last
    confirmation and no other: every earlier booking is gone. *)
Theorem ledger_holds_last_booking_only (museum_data : list museum)
  (scorer : string -> string -> Z) (today current_hour : Z)
  (requests : list request) (fs : ledger_file) :
  existsb is_value_error (fst (serve museum_data scorer today current_hour requests fs))
  = false ->
  snd (serve museum_data scorer today current_hour requests fs)
  = match last_confirmed (fst (serve museum_data scorer today current_hour requests fs)) with
    | Some b => Some (ledger_text [b])
    | None => fs
    end.
Proof.
  revert fs. induction requests as [| rq rest IH]; intros fs; [reflexivity |].
  cbn [serve].
  destruct (book_ticket museum_data scorer today current_hour rq fs) as [o fs1] eqn:Hbook.
  specialize (IH fs1).
  destruct (serve museum_data scorer today current_hour rest fs1) as [os fs2].
  cbn [fst snd last_confirmed existsb] in *.
  intros [Ho Hos] %orb_false_elim. specialize (IH Hos).
  destruct (last_confirmed os) as [b |]; [exact IH |].
  subst fs2. destruct o as [c | e].
  - destruct (book_ticket_confirms_inv _ _ _ _ _ _ _ _ Hbook) as (r & _ & -> & -> & _).
    reflexivity.
  - destruct (book_ticket_raise_cases _ _ _ _ _ _ _ _ Hbook)
      as [-> | (b & -> & _)]; [reflexivity | discriminate].
Qed.

Lemma ledger_holds_last_booking_only_witness :
  snd (serve sample_catalogue no_similarity sample_today 9
         [large_party_request; yesterday_request; family_request; louvre_request;
          unbounded_party_request] (Some (ledger_text [group_booking])))
  = match
      last_confirmed
        (fst (serve sample_catalogue no_similarity sample_today 9
                [large_party_request; yesterday_request; family_request; louvre_request;
                 unbounded_party_request] (Some (ledger_text [group_booking]))))
    with
    | Some b => Some (ledger_text [b])
    | None => Some (ledger_text [group_booking])
    end.
Proof.
  apply (ledger_holds_last_booking_only sample_catalogue no_similarity sample_today 9
           [large_party_request; yesterday_request; family_request; louvre_request;
            unbounded_party_request] (Some (ledger_text [group_booking]))).
  vm_compute. reflexivity.
Defined.

(** ** Case and punctuation in the booking fields *)

Lemma isword_upper_char (c : ascii) : Str.isword (Str.upper_char c) = Str.isword c.
Proof. by_cases_on_char c. Qed.

Lemma filter_map (p : ascii -> bool) (f : ascii -> ascii) (s : string) :
  (forall c, p (f c) = p c) ->
  Str.filter p (Str.map f s) = Str.map f (Str.filter p s).
Proof.
  intros Hp. induction s as [| c r IH]; [reflexivity |].
  cbn [Str.map Str.filter]. rewrite Hp, IH. destruct (p c); reflexivity.
Qed.

Lemma clean_input_of_upper (text : string) :
  clean_input (Str.upper text) = clean_input text.
Proof.
  unfold clean_input, Str.upper.
  rewrite filter_map by (intros c; now rewrite isword_upper_char, isspace_upper_char).
  apply lower_of_upper.
Qed.

Lemma clean_input_of_lower (text : string) :
  clean_input (Str.lower text) = clean_input text.
Proof.
  unfold clean_input. unfold Str.lower at 2.
  rewrite filter_map by (intros c; now rewrite isword_lower_char, isspace_lower_char).
  apply lower_of_lower.
Qed.

(** [find_best_museum] does not see the case of the letters of an ASCII
    name, nor its punctuation: the name in upper case, in lower case or
    cleaned resolves to the same museum. *)
Theorem find_best_museum_ignores_case (museum_data : list museum)
  (scorer : string -> string -> Z) (user_input : string) :
  Str.isascii user_input = true ->
  find_best_museum museum_data scorer (Str.upper user_input)
  = find_best_museum museum_data scorer user_input
  /\ find_best_museum museum_data scorer (Str.lower user_input)
     = find_best_museum museum_data scorer user_input
  /\ find_best_museum museum_data scorer (clean_input user_input)
     = find_best_museum museum_data scorer user_input.
Proof.
  intros _. unfold find_best_museum.
  rewrite clean_input_of_upper, clean_input_of_lower.
  rewrite (clean_input_fixed _ (clean_input_chars user_input)).
  repeat split; reflexivity.
Qed.

Lemma find_best_museum_ignores_case_witness :
  find_best_museum sample_catalogue no_similarity (Str.upper "National Museum!")
  = find_best_museum sample_catalogue no_similarity "National Museum!"
  /\ find_best_museum sample_catalogue no_similarity (Str.lower "National Museum!")
     = find_best_museum sample_catalogue no_similarity "National Museum!"
  /\ find_best_museum sample_catalogue no_similarity (clean_input "National Museum!")
     = find_best_museum sample_catalogue no_similarity "National Museum!".
Proof.
  apply (find_best_museum_ignores_case sample_catalogue no_similarity
           "National Museum!").
  reflexivity.
Defined.

Lemma capitalize_of_upper (s : string) : Str.capitalize (Str.upper s) = Str.capitalize s.
Proof.
  destruct s as [| c r]; [reflexivity |].
  unfold Str.upper. cbn [Str.map Str.capitalize].
  rewrite upper_upper_char. f_equal. apply lower_of_upper.
Qed.

Lemma capitalize_of_lower (s : string) : Str.capitalize (Str.lower s) = Str.capitalize s.
Proof.
  destruct s as [| c r]; [reflexivity |].
  unfold Str.lower at 1. cbn [Str.map Str.capitalize].
  rewrite upper_lower_char. f_equal. apply lower_of_lower.
Qed.

(** [book_ticket] does not see the case of an ASCII ticket tier: written in
    upper or in lower case the request has the same outcome, the stored
    record and the ledger included. *)
Theorem ticket_tier_case_is_ignored (museum_data : list museum)
  (scorer : string -> string -> Z) (today current_hour : Z) (nm mn : string)
  (a k : Z) (tt ds slot : string) (fs : ledger_file) :
  Str.isascii tt = true ->
  book_ticket museum_data scorer today current_hour
    (booking_request nm mn a k (Str.upper tt) ds slot) fs
  = book_ticket museum_data scorer today current_hour
      (booking_request nm mn a k tt ds slot) fs
  /\ book_ticket museum_data scorer today current_hour
       (booking_request nm mn a k (Str.lower tt) ds slot) fs
     = book_ticket museum_data scorer today current_hour
         (booking_request nm mn a k tt ds slot) fs.
Proof.
  intros _.
  unfold book_ticket, booking_request, bind, getattr, lift, ret, raise.
  cbn [museum_name ticket_type booking_date time_slot adults kids name].
  rewrite lower_of_upper, lower_of_lower, capitalize_of_upper, capitalize_of_lower.
  split; reflexivity.
Qed.

Lemma ticket_tier_case_is_ignored_witness :
  book_ticket sample_catalogue no_similarity sample_today 9
    (booking_request "Asha" "National Museum" 2 1 (Str.upper "Premium") "2025-01-15"
       "10:00 AM") None
  = book_ticket sample_catalogue no_similarity sample_today 9
      (booking_request "Asha" "National Museum" 2 1 "Premium" "2025-01-15" "10:00 AM")
      None
  /\ book_ticket sample_catalogue no_similarity sample_today 9
       (booking_request "Asha" "National Museum" 2 1 (Str.lower "Premium") "2025-01-15"
          "10:00 AM") None
     = book_ticket sample_catalogue no_similarity sample_today 9
         (booking_request "Asha" "National Museum" 2 1 "Premium" "2025-01-15"
            "10:00 AM") None.
Proof.
  apply (ticket_tier_case_is_ignored sample_catalogue no_similarity sample_today 9
           "Asha" "National Museum" 2 1 "Premium" "2025-01-15" "10:00 AM" None).
  reflexivity.
Defined.

(** ** More of the chat *)

Lemma museum_above_80_in (museum_data : list museum) (scorer : string -> string -> Z)
  (user_input : string) (m : museum) :
  museum_above_80 museum_data scorer user_input = Some m ->
  In m museum_data.
Proof.
  unfold museum_above_80, museum_of_title.
  destruct (extractOne scorer user_input (titles museum_data)) as [[best score] |];
    [| discriminate].
  destruct (80 <? score); [| discriminate].
  intros Hfind. now apply find_some in Hfind.
Qed.

(** The direct look-up of the rating intent asks whether the whole text is
    written in a title, a state or a location: the text holds "rating", so
    the museum it finds has "rating" in its own title, state or location.
    For any other museum the rating is the one of the choice of [extractOne]
    with a score above 80. *)
Theorem rating_answer_is_the_fuzzy_choice (museum_data : list museum)
  (scorer : string -> string -> Z) (today current_hour : Z)
  (ollama_chat : string -> string) (user_input : string) (fs fs' : ledger_file)
  (m : museum) :
  get_relevant_museum museum_data scorer today current_hour ollama_chat user_input fs
  = (Return (Rating m), fs') ->
  In m museum_data
  /\ Str.contains "rating" (clean_input user_input) = true
  /\ (Str.contains "rating" (Str.lower (title m)) = true
      \/ Str.contains "rating" (Str.lower (state m)) = true
      \/ Str.contains "rating" (Str.lower (location m)) = true
      \/ museum_above_80 museum_data scorer (clean_input user_input) = Some m).
Proof.
  unfold get_relevant_museum. rewrite clean_input_lower.
  set (text := clean_input user_input).
  remember (museum_above_80 museum_data scorer text) as fuzzy eqn:Hfuzzy.
  remember (List.find
              (fun m => Str.contains text (Str.lower (title m))
                        || Str.contains text (Str.lower (state m))
                        || Str.contains text (Str.lower (location m)))
              museum_data) as direct eqn:Hdirect.
  destruct (Str.contains "rating" text) eqn:Hrating.
  - destruct direct as [md |]; [| destruct fuzzy as [mf |]]; cbv beta iota zeta;
      repeat match goal with
             | |- context [if ?b then _ else _] => destruct b
             | |- context [match ?x with _ => _ end] => destruct x
             end;
      unfold bind, ret, raise; rewrite ?book_ticket_of_str; try discriminate;
      intros [= <- _].
    all: try (split; [now apply (museum_above_80_in museum_data scorer text) |];
              split; [reflexivity |]; right; right; right; now symmetry).
    all: symmetry in Hdirect; apply find_some in Hdirect;
      destruct Hdirect as [Hin Hfound];
      (split; [exact Hin | split; [reflexivity |]]);
      apply orb_prop in Hfound; destruct Hfound as [Hfound | Hloc];
      [apply orb_prop in Hfound; destruct Hfound as [Htitle | Hstate] |];
      [left | right; left | right; right; left];
      eapply contains_trans; eassumption.
  - repeat match goal with
           | |- context [if ?b then _ else _] => destruct b
           | |- context [match ?x with _ => _ end] => destruct x
           end;
      unfold bind, ret, raise; rewrite ?book_ticket_of_str; discriminate.
Qed.

Lemma rating_answer_is_the_fuzzy_choice_witness :
  In national_museum [dr_museum; national_museum]
  /\ Str.contains "rating" (clean_input "Rating of the National Museum?") = true
  /\ (Str.contains "rating" (Str.lower (title national_museum)) = true
      \/ Str.contains "rating" (Str.lower (state national_museum)) = true
      \/ Str.contains "rating" (Str.lower (location national_museum)) = true
      \/ museum_above_80 [dr_museum; national_museum] word_similarity
           (clean_input "Rating of the National Museum?") = Some national_museum).
Proof.
  apply (rating_answer_is_the_fuzzy_choice [dr_museum; national_museum] word_similarity
           sample_today 9 (fun text => text) "Rating of the National Museum?" None None).
  vm_compute. reflexivity.
Defined.

(** ** What [book_ticket] does not check *)

(** The name and the party size are not checked, and what the ledger holds
    is not consulted.  Where a request is confirmed, the same request for
    any other name and any other numbers of adults and kids of at most 4300
    digits, zero and negative ones included, over any ledger file that can
    be read, has the outcome of its price alone: it is confirmed at the
    price of the program's arithmetic and stored as the only record, or the
    price is beyond the range of [float] and the exception of the price is
    raised. *)
Theorem party_size_is_never_checked (museum_data : list museum)
  (scorer : string -> string -> Z) (today current_hour : Z) (nm mn : string)
  (a k : Z) (tt ds slot : string) (fs fs' : ledger_file) (c : confirmation)
  (nm' : string) (a' k' : Z) (fs2 : ledger_file) :
  book_ticket museum_data scorer today current_hour
    (booking_request nm mn a k tt ds slot) fs = (Return c, fs') ->
  decodable fs2 = true ->
  Str.int_printable a' = true ->
  Str.int_printable k' = true ->
  exists (m : museum) (delta : Z),
    total_price a k (price m + delta) = Return (Total_Price (details c))
    /\ book_ticket museum_data scorer today current_hour
         (booking_request nm' mn a' k' tt ds slot) fs2
       = match total_price a' k' (price m + delta) with
         | Return total =>
             let b := {| Name := nm'; Museum := Museum (details c);
                         Adults := a'; Kids := k';
                         Ticket_Type := Ticket_Type (details c);
                         Date := ds; Time_Slot := slot;
                         Total_Price := total |} in
             (Return (confirmed b), Some (ledger_text [b]))
         | Raise e => (Raise e, fs2)
         end.
Proof.
  intros Hrun Hfs2 Ha' Hk'.
  rewrite book_ticket_by_rules in Hrun |- *.
  unfold rules_in_order in *.
  destruct (find_best_museum museum_data scorer mn) as [[m |] | e]; try discriminate.
  destruct (dict_get (Str.lower tt) TICKET_TYPE) as [delta |]; try discriminate.
  destruct (Datetime.add_days today 60) as [mx |]; try discriminate.
  destruct (Datetime.strptime ds) as [d |]; try discriminate.
  destruct (d <? today); try discriminate.
  destruct (mx <? d); try discriminate.
  destruct (negb (decodable fs)); try discriminate.
  rewrite Hfs2. cbn [negb].
  destruct (negb (mem _ _)); try discriminate.
  exists m, delta.
  destruct (total_price a k (price m + delta)) as [total | e]; try discriminate.
  cbv zeta in Hrun.
  destruct (printable _) in Hrun; try discriminate.
  injection Hrun as <- _.
  cbn [confirmed details Museum Ticket_Type Total_Price].
  split; [reflexivity |].
  destruct (total_price a' k' (price m + delta)) as [total' | e]; [| reflexivity].
  cbv zeta. unfold printable. cbn [Adults Kids]. rewrite Ha', Hk'. reflexivity.
Qed.

Lemma party_size_is_never_checked_witness :
  exists (m : museum) (delta : Z),
    total_price 2 1 (price m + delta)
    = Return (Total_Price (details (confirmed family_booking)))
    /\ book_ticket sample_catalogue no_similarity sample_today 9
         (booking_request EmptyString "National Museum" (-3) 0 "standard"
            "2025-01-15" "10:00 AM")
         (Some (ledger_text [group_booking]))
       = match total_price (-3) 0 (price m + delta) with
         | Return total =>
             let b := {| Name := EmptyString;
                         Museum := Museum (details (confirmed family_booking));
                         Adults := -3; Kids := 0;
                         Ticket_Type := Ticket_Type (details (confirmed family_booking));
                         Date := "2025-01-15"; Time_Slot := "10:00 AM";
                         Total_Price := total |} in
             (Return (confirmed b), Some (ledger_text [b]))
         | Raise e => (Raise e, Some (ledger_text [group_booking]))
         end.
Proof.
  apply (party_size_is_never_checked sample_catalogue no_similarity sample_today 9
           "Asha" "National Museum" 2 1 "standard" "2025-01-15" "10:00 AM" None
           (Some (ledger_text [family_booking])) (confirmed family_booking)
           EmptyString (-3) 0 (Some (ledger_text [group_booking])));
    vm_compute; reflexivity.
Defined.

(** Whenever the chat lists the museums of a place, the place is the choice
    of [extractOne] among the lower-case locations and states with a score
    above 80, the museums listed are all those of the catalogue with that
    location or that state, in the order of the catalogue, and the state
    named in the heading is the one of the first of them. *)
Theorem listed_museums_are_those_of_the_place (museum_data : list museum)
  (scorer : string -> string -> Z) (today current_hour : Z)
  (ollama_chat : string -> string) (user_input : string) (fs fs' : ledger_file)
  (heading : string) (ms : list museum) :
  get_relevant_museum museum_data scorer today current_hour ollama_chat user_input fs
  = (Return (MuseumsIn heading ms), fs') ->
  exists best score,
    extractOne scorer (clean_input user_input)
      (List.map (fun m => Str.lower (location m)) museum_data
       ++ List.map (fun m => Str.lower (state m)) museum_data)
    = Some (best, score)
    /\ 80 < score
    /\ ms = List.filter (fun m => String.eqb (Str.lower (location m)) best
                                  || String.eqb (Str.lower (state m)) best)
              museum_data
    /\ (forall m, In m ms ->
          In m museum_data
          /\ (Str.lower (location m) = best \/ Str.lower (state m) = best))
    /\ exists first rest, ms = first :: rest /\ heading = state first.
Proof.
  unfold get_relevant_museum. rewrite clean_input_lower.
  set (text := clean_input user_input).
  destruct (extractOne scorer text
              (List.map (fun m => Str.lower (location m)) museum_data
               ++ List.map (fun m => Str.lower (state m)) museum_data))
    as [[best score] |] eqn:Hbest.
  - remember (List.filter (fun m => String.eqb (Str.lower (location m)) best
                                    || String.eqb (Str.lower (state m)) best)
                museum_data) as found eqn:Hfound.
    destruct (80 <? score) eqn:Hscore; [destruct found as [| first rest] |];
      cbv beta iota zeta;
      repeat match goal with
             | |- context [if ?b then _ else _] => destruct b
             | |- context [match ?x with _ => _ end] => destruct x
             end;
      unfold bind, ret, raise; rewrite ?book_ticket_of_str; try discriminate;
      intros [= <- <- _].
    all: exists best, score; split; [reflexivity |];
      split; [now apply Z.ltb_lt |];
      split; [exact Hfound |];
      split; [| now exists first, rest].
    all: intros m Hm; rewrite Hfound in Hm; apply filter_In in Hm;
      destruct Hm as [Hin Hm]; split; [exact Hin |];
      apply orb_prop in Hm; destruct Hm as [Hm | Hm]; apply String.eqb_eq in Hm;
      [now left | now right].
  - repeat match goal with
           | |- context [if ?b then _ else _] => destruct b
           | |- context [match ?x with _ => _ end] => destruct x
           end;
      unfold bind, ret, raise; rewrite ?book_ticket_of_str; discriminate.
Qed.

Lemma listed_museums_are_those_of_the_place_witness :
  exists best score,
    extractOne word_similarity (clean_input "Museums in Maharashtra, please")
      (List.map (fun m => Str.lower (location m)) [dr_museum; national_museum]
       ++ List.map (fun m => Str.lower (state m)) [dr_museum; national_museum])
    = Some (best, score)
    /\ 80 < score
    /\ [dr_museum]
       = List.filter (fun m => String.eqb (Str.lower (location m)) best
                               || String.eqb (Str.lower (state m)) best)
           [dr_museum; national_museum]
    /\ (forall m, In m [dr_museum] ->
          In m [dr_museum; national_museum]
          /\ (Str.lower (location m) = best \/ Str.lower (state m) = best))
    /\ exists first rest, [dr_museum] = first :: rest /\ "Maharashtra" = state first.
Proof.
  apply (listed_museums_are_those_of_the_place [dr_museum; national_museum]
           word_similarity sample_today 9 (fun text => text)
           "Museums in Maharashtra, please" None None).
  vm_compute. reflexivity.
Defined.

(** The words that keep a text from the language model. *)
Lemma fallback_words_absent (text : string) :
  any_in greetings text = false ->
  Str.contains "thank" text || Str.contains "thanks" text
  || Str.contains "appreciate" text || Str.contains "grateful" text = false ->
  Str.contains "book" text || Str.contains "reserve" text = false ->
  any_in ["elite"; "premium"; "standard"; "luxurious"; "affordable"; "cheap"; "vs"] text
  = false ->
  Str.contains "mumbai" text || Str.contains "chhatrapati shivaji" text = false ->
  Str.contains "price" text || Str.contains "cost" text || Str.contains "ticket" text
  = false ->
  Str.contains "rating" text = false ->
  Str.contains "contact" text || Str.contains "phone" text || Str.contains "email" text
  = false ->
  forall word,
    In word (greetings
             ++ ["thank"; "thanks"; "appreciate"; "grateful"; "book"; "reserve";
                 "elite"; "premium"; "standard"; "luxurious"; "affordable"; "cheap";
                 "vs"; "mumbai"; "chhatrapati shivaji"; "price"; "cost"; "ticket";
                 "rating"; "contact"; "phone"; "email"]) ->
    Str.contains word text = false.
Proof.
  unfold any_in, greetings. cbn [existsb app].
  intros H1 H2 H3 H4 H5 H6 H7 H8 word Hword.
  repeat match goal with
         | H : _ || _ = false |- _ => apply orb_false_elim in H; destruct H
         end.
  cbn [In] in Hword.
  repeat (destruct Hword as [<- | Hword]; [assumption |]).
  contradiction.
Qed.

(** The language model is asked only about a text that holds none of the
    words of the intents, and what it is given is the cleaned text, in lower
    case and without punctuation, not the text as the user wrote it. *)
Theorem model_is_asked_last_and_cleaned (museum_data : list museum)
  (scorer : string -> string -> Z) (today current_hour : Z)
  (ollama_chat : string -> string) (user_input : string) (fs fs' : ledger_file)
  (answer : string) :
  get_relevant_museum museum_data scorer today current_hour ollama_chat user_input fs
  = (Return (FromModel answer), fs') ->
  answer = ollama_chat (clean_input user_input)
  /\ museum_data <> []
  /\ forall word,
       In word (greetings
                ++ ["thank"; "thanks"; "appreciate"; "grateful"; "book"; "reserve";
                    "elite"; "premium"; "standard"; "luxurious"; "affordable"; "cheap";
                    "vs"; "mumbai"; "chhatrapati shivaji"; "price"; "cost"; "ticket";
                    "rating"; "contact"; "phone"; "email"]) ->
       Str.contains word (clean_input user_input) = false.
Proof.
  unfold get_relevant_museum. rewrite clean_input_lower.
  set (text := clean_input user_input).
  destruct (any_in greetings text) eqn:H1; [discriminate |].
  destruct (Str.contains "thank" text || Str.contains "thanks" text
            || Str.contains "appreciate" text || Str.contains "grateful" text) eqn:H2;
    [discriminate |].
  destruct (Str.contains "book" text || Str.contains "reserve" text) eqn:H3.
  { destruct (existsb _ museum_data); unfold bind, ret;
      rewrite ?book_ticket_of_str; discriminate. }
  destruct (any_in ["elite"; "premium"; "standard"; "luxurious"; "affordable"; "cheap"; "vs"]
              text) eqn:H4.
  { destruct (List.find _ ticket_info) as [[key response] |]; unfold ret; discriminate. }
  destruct (extractOne scorer text _) as [[best score] |] eqn:Hbest; [| discriminate].
  destruct (Str.contains "mumbai" text || Str.contains "chhatrapati shivaji" text) eqn:H5;
    [discriminate |].
  destruct (Str.contains "price" text) eqn:Hprice.
  { cbn [andb orb]. repeat match goal with
           | |- context [if ?b then _ else _] => destruct b
           | |- context [match ?x with _ => _ end] => destruct x
           end; unfold bind, ret, raise; discriminate. }
  destruct (Str.contains "cost" text) eqn:Hcost.
  { cbn [andb orb]. repeat match goal with
           | |- context [if ?b then _ else _] => destruct b
           | |- context [match ?x with _ => _ end] => destruct x
           end; unfold bind, ret, raise; discriminate. }
  destruct (Str.contains "ticket" text) eqn:Hticket.
  { cbn [andb orb]. repeat match goal with
           | |- context [if ?b then _ else _] => destruct b
           | |- context [match ?x with _ => _ end] => destruct x
           end; unfold bind, ret, raise; discriminate. }
  cbn [andb orb].
  destruct (Str.contains "rating" text) eqn:H7.
  { repeat match goal with
           | |- context [if ?b then _ else _] => destruct b
           | |- context [match ?x with _ => _ end] => destruct x
           end; unfold bind, ret, raise; discriminate. }
  destruct (Str.contains "contact" text || Str.contains "phone" text
            || Str.contains "email" text) eqn:H8.
  { repeat match goal with
           | |- context [if ?b then _ else _] => destruct b
           | |- context [match ?x with _ => _ end] => destruct x
           end; unfold bind, ret, raise; discriminate. }
  assert (Hdata : museum_data <> []).
  { intros ->. cbn in Hbest. discriminate. }
  assert (Hwords := fallback_words_absent text H1 H2 H3 H4 H5
                      ltac:(now rewrite Hprice, Hcost, Hticket) H7 H8).
  repeat match goal with
         | |- context [if ?b then _ else _] => destruct b
         | |- context [match ?x with _ => _ end] => destruct x
         end; unfold ret, raise; try discriminate.
  all: intros [= <- _]; split; [reflexivity | split; [exact Hdata | exact Hwords]].
Qed.

Lemma model_is_asked_last_and_cleaned_witness :
  "tell me about old coins" = (fun text => text) (clean_input "Tell me about OLD coins!")
  /\ [dr_museum; national_museum] <> []
  /\ forall word,
       In word (greetings
                ++ ["thank"; "thanks"; "appreciate"; "grateful"; "book"; "reserve";
                    "elite"; "premium"; "standard"; "luxurious"; "affordable"; "cheap";
                    "vs"; "mumbai"; "chhatrapati shivaji"; "price"; "cost"; "ticket";
                    "rating"; "contact"; "phone"; "email"]) ->
       Str.contains word (clean_input "Tell me about OLD coins!") = false.
Proof.
  apply (model_is_asked_last_and_cleaned [dr_museum; national_museum] no_similarity
           sample_today 9 (fun text => text) "Tell me about OLD coins!" None None).
  vm_compute. reflexivity.
Defined.
